(** * Market-data service: Kraken client, pair catalog, cache and ingestion

    A shallow embedding of the Python sources

      - services/market-data/app/kraken_client.py  (KrakenClient)
      - services/market-data/app/main.py           (the /kraken/... handlers)
      - shared/cache/redis_client.py               (RedisCache)
      - database_client.py                         (TradingBotDatabase)

    Python values decoded from JSON are an inductive type [value]; Python
    floats are IEEE binary64 numbers (Rocq's primitive [float]); exceptions
    are an error monad [result]; dictionaries are [gmap]s where only lookup
    matters and association lists where iteration order matters. *)

From Stdlib Require Import ZArith Ascii String List Bool Lia.
From Stdlib Require Import Sorting.Sorted Sorting.Permutation.
From Stdlib Require Import PrimFloat FloatOps SpecFloat FloatAxioms.
From stdpp Require Import gmap strings list fin_maps.

Set Warnings "-register-all".
Local Open Scope string_scope.
Local Open Scope Z_scope.

(* ===================================================================== *)
(** ** Exceptions *)
(* ===================================================================== *)

(** The Python exceptions the modelled code can raise. [HTTPException]
    carries the status code given by the handlers of main.py;
    [ConnectionError] stands for any error of the redis transport (no
    connection, a reply that times out), [ResponseError] for a command
    the redis server refuses. *)
Inductive exn : Type :=
  | ValueError
  | TypeError
  | IndexError
  | KeyError
  | OverflowError
  | AttributeError
  | ConnectionError
  | ResponseError
  | HTTPException (status_code : Z).

Inductive result (A : Type) : Type :=
  | Ok (a : A)
  | Raise (e : exn).
Arguments Ok {A} a.
Arguments Raise {A} e.

Global Instance result_ret : MRet result := fun A a => Ok a.
Global Instance result_bind : MBind result := fun A B f m =>
  match m with
  | Ok a => f a
  | Raise e => Raise e
  end.

(** [try: m except (ValueError, TypeError): h] *)
Definition catch_value_type {A} (m : result A) (h : A) : result A :=
  match m with
  | Raise ValueError | Raise TypeError => Ok h
  | r => r
  end.

(** [try: m except Exception: h] *)
Definition catch_all {A} (m : result A) (h : A) : A :=
  match m with
  | Ok a => a
  | Raise _ => h
  end.

Definition is_ok {A} (m : result A) : bool :=
  match m with Ok _ => true | Raise _ => false end.

(* ===================================================================== *)
(** ** Python strings (byte strings; case mapping on ASCII letters) *)
(* ===================================================================== *)

Definition is_upper (c : ascii) : bool :=
  ((65 <=? nat_of_ascii c) && (nat_of_ascii c <=? 90))%nat.
Definition is_lower (c : ascii) : bool :=
  ((97 <=? nat_of_ascii c) && (nat_of_ascii c <=? 122))%nat.

Definition lower_char (c : ascii) : ascii :=
  if is_upper c then ascii_of_nat (nat_of_ascii c + 32) else c.
Definition upper_char (c : ascii) : ascii :=
  if is_lower c then ascii_of_nat (nat_of_ascii c - 32) else c.

Fixpoint map_string (f : ascii -> ascii) (s : string) : string :=
  match s with
  | EmptyString => EmptyString
  | String c s' => String (f c) (map_string f s')
  end.

(** [s.lower()] and [s.upper()], as they are on ASCII strings: the cased
    letters outside ASCII, which Python's methods map too, are left as
    they are. *)
Definition lower (s : string) : string := map_string lower_char s.
Definition upper (s : string) : string := map_string upper_char s.

(** [s.replace(c, "")] for a one-character pattern [c]. *)
Fixpoint remove_char (c : ascii) (s : string) : string :=
  match s with
  | EmptyString => EmptyString
  | String a s' =>
      if Ascii.eqb a c then remove_char c s' else String a (remove_char c s')
  end.

(** [term in s] for strings: [term] occurs as a contiguous substring. *)
Fixpoint contains (term s : string) : bool :=
  if String.prefix term s then true
  else match s with
       | EmptyString => false
       | String _ s' => contains term s'
       end.

(** Python's [sorted] on a list of strings: a stable sort by code point
    order; modelled as insertion sort on [String.leb]. *)
Fixpoint insert_sorted (x : string) (l : list string) : list string :=
  match l with
  | [] => [x]
  | y :: l' => if String.leb x y then x :: l else y :: insert_sorted x l'
  end.

Definition sorted (l : list string) : list string :=
  foldr insert_sorted [] l.

(** The order [sorted] sorts by: [a <= b] on Python strings. *)
Definition string_le (a b : string) : Prop := String.leb a b = true.

(** [l[i:j]] for a list, with Python's clamping of the two bounds
    (a negative bound counts from the end). *)
Definition slice_bound (len i : Z) : Z :=
  if i <? 0 then Z.max 0 (len + i) else Z.min i len.

Definition slice {A} (l : list A) (i j : Z) : list A :=
  let len := Z.of_nat (length l) in
  let lo := slice_bound len i in
  let hi := slice_bound len j in
  take (Z.to_nat (hi - lo)) (drop (Z.to_nat lo) l).

(** [l[i:]] *)
Definition slice_from {A} (l : list A) (i : Z) : list A :=
  drop (Z.to_nat (slice_bound (Z.of_nat (length l)) i)) l.

(* ===================================================================== *)
(** ** Python floats *)
(* ===================================================================== *)

(** The binary64 number nearest to [m * 10^k] (ties to even), for [m > 0]. *)
Definition float_of_decimal (neg : bool) (m : positive) (k : Z) : float :=
  if 0 <=? k
  then SF2Prim (binary_normalize prec emax
                  ((if neg then Z.neg m else Z.pos m) * 10 ^ k) 0 false)
  else SF2Prim (SFdiv prec emax (S754_finite neg m 0)
                  (S754_finite false (Z.to_pos (10 ^ (- k))) 0)).

Definition float_zero (neg : bool) : float :=
  if neg then (-0)%float else 0%float.

(** [float(z)] for an [int]: the nearest binary64 number, [OverflowError]
    when there is none. *)
Definition float_of_int (z : Z) : result float :=
  let f := SF2Prim (binary_normalize prec emax z 0 false) in
  if PrimFloat.is_infinity f then Raise OverflowError else Ok f.

(** [int(f)] for a [float]: truncation toward zero. *)
Definition int_of_float (f : float) : result Z :=
  match Prim2SF f with
  | S754_zero _ => Ok 0
  | S754_infinity _ => Raise OverflowError
  | S754_nan => Raise ValueError
  | S754_finite s m e =>
      let mag := if 0 <=? e then Z.pos m * 2 ^ e else Z.pos m / 2 ^ (- e) in
      Ok (if s then - mag else mag)
  end.

(** [bool(f)]: a float is false exactly when it equals zero. *)
Definition float_truthy (f : float) : bool := negb (PrimFloat.eqb f 0%float).

(** *** Numeric literals *)

Definition is_space (c : ascii) : bool :=
  let n := nat_of_ascii c in
  ((n =? 32) || ((9 <=? n) && (n <=? 13)))%nat.

Definition digit_of (c : ascii) : option N :=
  let n := nat_of_ascii c in
  if ((48 <=? n) && (n <=? 57))%nat then Some (N.of_nat (n - 48)) else None.

Fixpoint lstrip (s : string) : string :=
  match s with
  | String c s' => if is_space c then lstrip s' else s
  | EmptyString => EmptyString
  end.

Fixpoint all_space (s : string) : bool :=
  match s with
  | EmptyString => true
  | String c s' => is_space c && all_space s'
  end.

(** Reads the longest run of decimal digits at the head of [s]: the number
    read after [acc], how many digits were read, and the rest. *)
Fixpoint take_digits (s : string) (acc : N) (cnt : nat) : N * nat * string :=
  match s with
  | String c s' =>
      match digit_of c with
      | Some d => take_digits s' (10 * acc + d)%N (S cnt)
      | None => (acc, cnt, s)
      end
  | EmptyString => (acc, cnt, s)
  end.

Definition take_sign (s : string) : bool * string :=
  match s with
  | String "-" s' => (true, s')
  | String "+" s' => (false, s')
  | _ => (false, s)
  end.

(** The optional exponent part [e[+-]digits] of a float literal. *)
Definition take_exponent (s : string) : option (Z * string) :=
  match s with
  | String c s' =>
      if Ascii.eqb (lower_char c) "e" then
        let '(neg, s1) := take_sign s' in
        let '(e, cnt, rest) := take_digits s1 0%N 0%nat in
        if (cnt =? 0)%nat then None
        else Some (if neg then - Z.of_N e else Z.of_N e, rest)
      else Some (0, s)
  | EmptyString => Some (0, s)
  end.

(** [float(s)] for a string: surrounding white space, a sign, then [inf],
    [infinity], [nan] in any case or a decimal literal with an optional
    fraction and exponent, correctly rounded. (Underscores between digits,
    which Python also accepts, are not: such a string is a [ValueError].) *)
Definition float_of_string (s : string) : result float :=
  let '(neg, s1) := take_sign (lstrip s) in
  let '(ip, c1, s2) := take_digits s1 0%N 0%nat in
  let '(m, c2, s3) :=
    match s2 with
    | String "." s2' =>
        let '(m, c, r) := take_digits s2' ip 0%nat in (m, c, r)
    | _ => (ip, 0%nat, s2)
    end in
  if (c1 + c2 =? 0)%nat then
    (* no digit: one of the special values, or not a number *)
    let w := lower s1 in
    let special (name : string) (v : float) :=
      if String.prefix name w && (String.length name <=? String.length w)%nat
         && all_space (String.substring (String.length name)
                         (String.length w - String.length name) w)
      then Some v else None in
    match special "infinity" (if neg then neg_infinity else infinity) with
    | Some v => Ok v
    | None =>
        match special "inf" (if neg then neg_infinity else infinity) with
        | Some v => Ok v
        | None =>
            match special "nan" nan with
            | Some v => Ok v
            | None => Raise ValueError
            end
        end
    end
  else
    match take_exponent s3 with
    | None => Raise ValueError
    | Some (e, rest) =>
        if all_space rest then
          match m with
          | N0 => Ok (float_zero neg)
          | Npos p => Ok (float_of_decimal neg p (e - Z.of_nat c2))
          end
        else Raise ValueError
    end.

(** [int(s)] for a string: surrounding white space, a sign, decimal digits. *)
Definition int_of_string (s : string) : result Z :=
  let '(neg, s1) := take_sign (lstrip s) in
  let '(n, cnt, rest) := take_digits s1 0%N 0%nat in
  if (cnt =? 0)%nat then Raise ValueError
  else if all_space rest then Ok (if neg then - Z.of_N n else Z.of_N n)
  else Raise ValueError.

(* ===================================================================== *)
(** ** Python values decoded from JSON *)
(* ===================================================================== *)

Inductive value : Type :=
  | VNone
  | VBool (b : bool)
  | VInt (z : Z)
  | VFloat (f : float)
  | VStr (s : string)
  | VList (l : list value)
  | VDict (d : list (string * value)).

Global Instance result_fmap : FMap result := fun A B f m =>
  match m with
  | Ok a => Ok (f a)
  | Raise e => Raise e
  end.

(** [bool(v)], the test of [x if v else y] *)
Definition truthy (v : value) : bool :=
  match v with
  | VNone => false
  | VBool b => b
  | VInt z => negb (z =? 0)
  | VFloat f => float_truthy f
  | VStr s => negb (String.eqb s "")
  | VList l => match l with [] => false | _ => true end
  | VDict d => match d with [] => false | _ => true end
  end.

(** [float(v)] *)
Definition py_float (v : value) : result float :=
  match v with
  | VBool b => Ok (if b then 1%float else 0%float)
  | VInt z => float_of_int z
  | VFloat f => Ok f
  | VStr s => float_of_string s
  | VNone | VList _ | VDict _ => Raise TypeError
  end.

(** [int(v)] *)
Definition py_int (v : value) : result Z :=
  match v with
  | VBool b => Ok (if b then 1 else 0)
  | VInt z => Ok z
  | VFloat f => int_of_float f
  | VStr s => int_of_string s
  | VNone | VList _ | VDict _ => Raise TypeError
  end.

(** [len(v)] *)
Definition py_len (v : value) : result Z :=
  match v with
  | VStr s => Ok (Z.of_nat (String.length s))
  | VList l => Ok (Z.of_nat (length l))
  | VDict d => Ok (Z.of_nat (length d))
  | VNone | VBool _ | VInt _ | VFloat _ => Raise TypeError
  end.

(** [v[i]] for an integer [i]: a list element, a one-character string,
    [KeyError] on a dictionary (its keys are strings). *)
Definition py_getitem (v : value) (i : Z) : result value :=
  match v with
  | VList l =>
      let j := if i <? 0 then Z.of_nat (length l) + i else i in
      if j <? 0 then Raise IndexError
      else match l !! Z.to_nat j with
           | Some x => Ok x
           | None => Raise IndexError
           end
  | VStr s =>
      let j := if i <? 0 then Z.of_nat (String.length s) + i else i in
      if j <? 0 then Raise IndexError
      else match String.get (Z.to_nat j) s with
           | Some c => Ok (VStr (String c EmptyString))
           | None => Raise IndexError
           end
  | VDict _ => Raise KeyError
  | VNone | VBool _ | VInt _ | VFloat _ => Raise TypeError
  end.

(* ===================================================================== *)
(** ** datetime, in UTC *)
(* ===================================================================== *)

(** An aware [datetime] whose [tzinfo] is [timezone.utc]. *)
Record datetime : Type := {
  dt_year : Z; dt_month : Z; dt_day : Z;
  dt_hour : Z; dt_minute : Z; dt_second : Z
}.

(** The proleptic Gregorian date of the day [z] days after 1970-01-01. *)
Definition civil_from_days (z : Z) : Z * Z * Z :=
  let z := z + 719468 in
  let era := z / 146097 in
  let doe := z - era * 146097 in
  let yoe := (doe - doe / 1460 + doe / 36524 - doe / 146096) / 365 in
  let y := yoe + era * 400 in
  let doy := doe - (365 * yoe + yoe / 4 - yoe / 100) in
  let mp := (5 * doy + 2) / 153 in
  let d := doy - (153 * mp + 2) / 5 + 1 in
  let m := if mp <? 10 then mp + 3 else mp - 9 in
  (if m <=? 2 then y + 1 else y, m, d).

(** [datetime.fromtimestamp(ts, tz=timezone.utc)] for an integer [ts].
    A year outside 1..9999 raises ([ValueError], or [OverflowError] on
    some platforms; modelled as [ValueError]). *)
Definition utc_fromtimestamp (ts : Z) : result datetime :=
  let days := ts / 86400 in
  let secs := ts mod 86400 in
  let '(y, m, d) := civil_from_days days in
  if (1 <=? y) && (y <=? 9999)
  then Ok {| dt_year := y; dt_month := m; dt_day := d;
             dt_hour := secs / 3600;
             dt_minute := (secs mod 3600) / 60;
             dt_second := secs mod 60 |}
  else Raise ValueError.

(** Seconds since the epoch of a UTC [datetime] ([datetime.timestamp]). *)
Definition days_from_civil (y m d : Z) : Z :=
  let y := if m <=? 2 then y - 1 else y in
  let era := y / 400 in
  let yoe := y - era * 400 in
  let doy := (153 * (if 2 <? m then m - 3 else m + 9) + 2) / 5 + d - 1 in
  let doe := yoe * 365 + yoe / 4 - yoe / 100 + doy in
  era * 146097 + doe - 719468.

Definition utc_timestamp (t : datetime) : Z :=
  days_from_civil (dt_year t) (dt_month t) (dt_day t) * 86400
  + dt_hour t * 3600 + dt_minute t * 60 + dt_second t.

(* ===================================================================== *)
(** ** kraken_client.py: KrakenClient *)
(* ===================================================================== *)

Module KrakenClient.

(** [TIMEFRAME_MAP] *)
Definition TIMEFRAME_MAP : list (string * Z) :=
  [("1m", 1); ("5m", 5); ("15m", 15); ("30m", 30); ("1h", 60);
   ("4h", 240); ("1d", 1440); ("1w", 10080); ("1M", 21600)].

(** [d.get(k)] on a dictionary literal written as an association list *)
Fixpoint assoc {A} (k : string) (d : list (string * A)) : option A :=
  match d with
  | [] => None
  | (k', v) :: d' => if String.eqb k k' then Some v else assoc k d'
  end.

Definition get_timeframe_interval (timeframe : string) : Z :=
  default 60 (assoc timeframe TIMEFRAME_MAP).

(** The [mappings] table of [normalize_pair] *)
Definition mappings : list (string * string) :=
  [("BTC", "XBT"); ("BTCUSD", "XBTUSD"); ("BTCUSDT", "XBTUSDT");
   ("ETHUSD", "ETHUSD"); ("ETHUSDT", "ETHUSDT")].

Definition normalize_pair (pair : string) : string :=
  let pair := upper (remove_char "-" (remove_char "/" pair)) in
  default pair (assoc pair mappings).

(** One element of the list [parse_ohlc_data] returns *)
Record ohlc_record : Type := {
  ohlc_timestamp : datetime;
  ohlc_open : float;
  ohlc_high : float;
  ohlc_low : float;
  ohlc_close : float;
  ohlc_volume : float;
  ohlc_adjusted_close : float;
  ohlc_time_frame : string;
  ohlc_data_source : string;
  ohlc_pair : string
}.

(** The body of the loop of [parse_ohlc_data] for one [record]: [None]
    when the record is skipped by [continue], the appended dictionary
    otherwise. *)
Definition parse_ohlc_record (record : value) (timeframe pair : string)
  : result (option ohlc_record) :=
  n ← py_len record;
  if n <? 8 then Ok None
  else
    timestamp_unix ← py_getitem record 0 ≫= py_int;
    timestamp ← utc_fromtimestamp timestamp_unix;
    o ← py_getitem record 1 ≫= py_float;
    h ← py_getitem record 2 ≫= py_float;
    l ← py_getitem record 3 ≫= py_float;
    c ← py_getitem record 4 ≫= py_float;
    v ← py_getitem record 6 ≫= py_float;
    ac ← py_getitem record 4 ≫= py_float;
    Ok (Some {| ohlc_timestamp := timestamp;
                ohlc_open := o; ohlc_high := h; ohlc_low := l;
                ohlc_close := c; ohlc_volume := v;
                ohlc_adjusted_close := ac;
                ohlc_time_frame := timeframe;
                ohlc_data_source := "kraken";
                ohlc_pair := pair |}).

Fixpoint parse_ohlc_data (ohlc_data : list value) (timeframe pair : string)
  : result (list ohlc_record) :=
  match ohlc_data with
  | [] => Ok []
  | record :: rest =>
      r ← parse_ohlc_record record timeframe pair;
      parsed_data ← parse_ohlc_data rest timeframe pair;
      Ok (match r with Some d => d :: parsed_data | None => parsed_data end)
  end.

(** The dictionary [parse_ticker_data] returns *)
Record ticker_record : Type := {
  ticker_price : float;
  ticker_bid : option float;
  ticker_ask : option float;
  ticker_volume_24h : option Z;
  ticker_change_24h : option float;
  ticker_change_percent_24h : option float;
  ticker_data_source : string;
  ticker_pair : string
}.

Definition parse_ticker_data (ticker_data : gmap string value) (pair : string)
  : result ticker_record :=
  let ask := default (VList [VInt 0; VInt 0; VInt 0]) (ticker_data !! "a") in
  let bid := default (VList [VInt 0; VInt 0; VInt 0]) (ticker_data !! "b") in
  let close := default (VList [VInt 0; VInt 0]) (ticker_data !! "c") in
  let volume := default (VList [VInt 0; VInt 0]) (ticker_data !! "v") in
  let high_low := default (VList [VInt 0; VInt 0]) (ticker_data !! "h") in
  let open_price_raw := default (VInt 0) (ticker_data !! "o") in
  current_price ←
    (if truthy close then py_getitem close 0 ≫= py_float else Ok 0%float);
  ask_price ←
    (if truthy ask then Some <$> (py_getitem ask 0 ≫= py_float) else Ok None);
  bid_price ←
    (if truthy bid then Some <$> (py_getitem bid 0 ≫= py_float) else Ok None);
  volume_24h ←
    (n ← py_len volume;
     if 1 <? n then Some <$> (py_getitem volume 1 ≫= py_float) else Ok None);
  high_24h ←
    (if truthy high_low then py_getitem high_low 0 ≫= py_float
     else Ok current_price);
  low_24h ←
    (n ← py_len high_low;
     if 1 <? n then py_getitem high_low 1 ≫= py_float else Ok current_price);
  open_price ←
    catch_value_type
      (if truthy open_price_raw then Some <$> py_float open_price_raw
       else Ok None)
      None;
  let change_24h := (fun o => (current_price - o)%float) <$> open_price in
  let change_percent_24h :=
    match open_price with
    | Some o =>
        if (0 <? o)%float
        then Some ((current_price - o) / o * 100)%float
        else None
    | None => None
    end in
  volume_int ←
    match volume_24h with
    | Some v => if float_truthy v then Some <$> int_of_float v else Ok None
    | None => Ok None
    end;
  Ok {| ticker_price := current_price;
        ticker_bid := bid_price;
        ticker_ask := ask_price;
        ticker_volume_24h := volume_int;
        ticker_change_24h := change_24h;
        ticker_change_percent_24h := change_percent_24h;
        ticker_data_source := "kraken";
        ticker_pair := pair |}.

(** [get_kraken_symbol_mapping()], in the order the literal lists it *)
Definition get_kraken_symbol_mapping : list (string * string) :=
  [("XBTUSD", "BTC/USD"); ("XBTUSDT", "BTC/USDT");
   ("ETHUSD", "ETH/USD"); ("ETHUSDT", "ETH/USDT");
   ("ADAUSD", "ADA/USD"); ("ADAUSDT", "ADA/USDT");
   ("SOLUSD", "SOL/USD"); ("SOLUSDT", "SOL/USDT");
   ("DOTUSD", "DOT/USD"); ("DOTUSDT", "DOT/USDT");
   ("MATICUSD", "MATIC/USD"); ("MATICUSDT", "MATIC/USDT");
   ("LINKUSD", "LINK/USD"); ("LINKUSDT", "LINK/USDT");
   ("AVAXUSD", "AVAX/USD"); ("AVAXUSDT", "AVAX/USDT");
   ("ATOMUSD", "ATOM/USD"); ("ATOMUSDT", "ATOM/USDT");
   ("ALGOUSD", "ALGO/USD"); ("ALGOUSDT", "ALGO/USDT")].

End KrakenClient.

(* ===================================================================== *)
(** ** shared/cache/redis_client.py: RedisCache *)
(* ===================================================================== *)

Module RedisCache.

(** The fate of a command sent to the server: it is carried out and
    answered; it raises without reaching the server (no connection); or
    it is carried out but its reply does not arrive within
    [socket_timeout], and it raises. *)
Inductive fault : Type :=
  | Answered
  | Refused
  | ReplyLost.

(** The redis server behind a connection: the keys it holds, each with its
    value and time to live, and [faults], the fate of the commands to come
    (past the end of the list they are answered). *)
Record server : Type := {
  faults : list fault;
  db : gmap string (string * Z)
}.

(** A [RedisCache] object: [self.client], which [__init__] leaves [None]
    when the first [ping] fails. *)
Record cache : Type := { client : option server }.

(** A method: it may raise, and it may change the server. *)
Definition M (A : Type) : Type := cache -> result A * cache.

Definition ret {A} (a : A) : M A := fun c => (Ok a, c).
Definition bind {A B} (m : M A) (k : A -> M B) : M B := fun c =>
  match m c with
  | (Ok a, c') => k a c'
  | (Raise e, c') => (Raise e, c')
  end.
Definition raise {A} (e : exn) : M A := fun c => (Raise e, c).
Definition lift {A} (r : result A) : M A := fun c => (r, c).

(** [try: m except Exception as e: return h] *)
Definition try_except {A} (m : M A) (h : M A) : M A := fun c =>
  match m c with
  | (Raise _, c') => h c'
  | r => r
  end.

(** [try: m except (json.JSONDecodeError, TypeError): h] *)
Definition try_except_decode {A} (m : M A) (h : M A) : M A := fun c =>
  match m c with
  | (Raise ValueError, c') | (Raise TypeError, c') => h c'
  | r => r
  end.

Notation "x <- m ;; k" := (bind m (fun x => k))
  (at level 100, m at next level, right associativity).

(** A command sent through [self.client]: [AttributeError] when the client
    is [None], the transport's error when the next fault says so, with
    the command carried out or not. *)
Definition command {A} (run : gmap string (string * Z)
                              -> A * gmap string (string * Z)) : M A :=
  fun c =>
    match client c with
    | None => (Raise AttributeError, c)
    | Some srv =>
        match faults srv with
        | Refused :: fs =>
            (Raise ConnectionError,
             {| client := Some {| faults := fs; db := db srv |} |})
        | ReplyLost :: fs =>
            let '(_, d) := run (db srv) in
            (Raise ConnectionError,
             {| client := Some {| faults := fs; db := d |} |})
        | fs =>
            let '(a, d) := run (db srv) in
            (Ok a, {| client := Some {| faults := tail fs; db := d |} |})
        end
    end.

Definition ping : M unit := command (fun d => (tt, d)).
Definition redis_get (key : string) : M (option string) :=
  command (fun d => (fst <$> d !! key, d)).
(** [SETEX key ttl v]: the server refuses a time to live that is not
    positive ("invalid expire time"), which redis-py raises as a
    [ResponseError]. *)
Definition redis_setex (key : string) (ttl : Z) (v : string) : M unit :=
  r <- command (fun d => if 0 <? ttl
                         then (Ok tt, <[key := (v, ttl)]> d)
                         else (Raise ResponseError, d)) ;;
  lift r.
Definition redis_delete (keys : list string) : M Z :=
  command (fun d =>
    (Z.of_nat (length (filter (fun k => is_Some (d !! k)) keys)),
     foldr delete d keys)).

Section Methods.

(** [json.loads], [json.dumps], the encoding redis-py gives a value sent
    as it is, the matching of a key against a [KEYS] pattern, and
    [datetime.utcnow().isoformat()]. *)
Variable json_loads : string -> result value.
Variable json_dumps : value -> result string.
Variable redis_encode : value -> result string.
Variable glob_match : string -> string -> bool.
Variable utcnow_isoformat : string.

Definition redis_keys (pattern : string) : M (list string) :=
  command (fun d =>
    (filter (fun k => glob_match pattern k = true) (map fst (map_to_list d)),
     d)).

Definition CACHE_PREFIX : string := "trading_bot".
Definition KRAKEN_PAIRS_KEY : string := "trading_bot:kraken:pairs".
Definition KRAKEN_PAIRS_ACTIVE_KEY : string := "trading_bot:kraken:pairs:active".
Definition KRAKEN_PAIRS_TOTAL_KEY : string := "trading_bot:kraken:pairs:total".
Definition KRAKEN_PAIRS_TIMESTAMP_KEY : string :=
  "trading_bot:kraken:pairs:timestamp".
Definition DEFAULT_EXPIRATION : Z := 3600.

Definition is_connected : M bool := fun c =>
  match client c with
  | None => (Ok false, c)
  | Some _ => try_except (_ <- ping ;; ret true) (ret false) c
  end.

(** [get] returns [VNone] for Python's [None]. *)
Definition get (key : string) : M value :=
  connected <- is_connected ;;
  if negb connected then ret VNone
  else
    try_except
      (v <- redis_get key ;;
       match v with
       | Some s =>
           if negb (String.eqb s "")
           then try_except_decode (lift (json_loads s)) (ret (VStr s))
           else ret VNone
       | None => ret VNone
       end)
      (ret VNone).

Definition set (key : string) (v : value) (expiration : option Z) : M bool :=
  connected <- is_connected ;;
  if negb connected then ret false
  else
    try_except
      (s <- match v with
            | VStr s => ret s
            | _ => lift (json_dumps v)
            end ;;
       let expiration :=
         match expiration with
         | Some e => if e =? 0 then DEFAULT_EXPIRATION else e
         | None => DEFAULT_EXPIRATION
         end in
       _ <- redis_setex key expiration s ;;
       ret true)
      (ret false).

Definition delete (key : string) : M bool :=
  connected <- is_connected ;;
  if negb connected then ret false
  else try_except (_ <- redis_delete [key] ;; ret true) (ret false).

Definition clear_pattern (pattern : string) : M Z :=
  connected <- is_connected ;;
  if negb connected then ret 0
  else
    try_except
      (keys <- redis_keys pattern ;;
       match keys with
       | [] => ret 0
       | _ => redis_delete keys
       end)
      (ret 0).

Definition get_kraken_pairs : M value :=
  connected <- is_connected ;;
  if negb connected then ret VNone
  else
    try_except
      (pairs_data <- get KRAKEN_PAIRS_KEY ;;
       if truthy pairs_data then ret pairs_data else ret VNone)
      (ret VNone).

(** [self.client.setex(key, expiration, pairs[field])] when [field] is a
    key of the dictionary [pairs] *)
Definition setex_field (pairs : value) (field key : string) (expiration : Z)
  : M unit :=
  match pairs with
  | VDict d =>
      match KrakenClient.assoc field d with
      | Some x => s <- lift (redis_encode x) ;; redis_setex key expiration s
      | None => ret tt
      end
  | _ => ret tt
  end.

Definition set_kraken_pairs (pairs : value) (expiration : Z) : M bool :=
  connected <- is_connected ;;
  if negb connected then ret false
  else
    try_except
      (success <- set KRAKEN_PAIRS_KEY pairs (Some expiration) ;;
       _ <- (match pairs with
             | VDict _ =>
                 if success then
                   _ <- setex_field pairs "active_pairs"
                          KRAKEN_PAIRS_ACTIVE_KEY expiration ;;
                   _ <- setex_field pairs "total_pairs"
                          KRAKEN_PAIRS_TOTAL_KEY expiration ;;
                   redis_setex KRAKEN_PAIRS_TIMESTAMP_KEY expiration
                     utcnow_isoformat
                 else ret tt
             | _ => ret tt
             end) ;;
       ret success)
      (ret false).

Definition clear_kraken_pairs_cache : M bool :=
  connected <- is_connected ;;
  if negb connected then ret false
  else
    try_except
      (_ <- clear_pattern "trading_bot:kraken:pairs*" ;; ret true)
      (ret false).

End Methods.

End RedisCache.

(* ===================================================================== *)
(** ** database_client.py: the remote store and DatabaseClient *)
(* ===================================================================== *)

Module DatabaseClient.

Definition datetime_eqb (a b : datetime) : bool :=
  (dt_year a =? dt_year b) && (dt_month a =? dt_month b)
  && (dt_day a =? dt_day b) && (dt_hour a =? dt_hour b)
  && (dt_minute a =? dt_minute b) && (dt_second a =? dt_second b).

(** A row of the table [symbols], with the columns the statements of
    database_client.py name. *)
Record symbol_row : Type := {
  id : Z;
  symbol : string;
  name : value;
  exchange : value;
  asset_type : value;
  currency : value;
  sector : value;
  industry : value;
  market_cap : value;
  is_active : bool
}.

(** A row of the table [market_data]. *)
Record market_data_row : Type := {
  symbol_id : Z;
  t_stamp : datetime;
  open : float;
  high : float;
  low : float;
  close : float;
  volume : float;
  adjusted_close : option float;
  time_frame : string;
  data_source : string
}.

(** The remote store: whether the web service answers, and its tables. *)
Record store : Type := {
  reachable : bool;
  symbols : list symbol_row;
  market_data : list market_data_row
}.

Inductive row : Type :=
  | SymbolRow (r : symbol_row)
  | MarketDataRow (r : market_data_row).

(** The service's answer [{success, data}]. *)
Record response : Type := { success : bool; data : list row }.

(** The prepared statements of [TradingBotDatabase] that the Kraken
    handlers reach, each with its positional parameters. *)
Inductive statement : Type :=
  (** [SELECT * FROM symbols WHERE symbol = $1] *)
  | SelectSymbolByName (p1 : value)
  (** [INSERT INTO symbols (symbol, name, exchange, asset_type, currency,
      sector, industry, market_cap, is_active) VALUES ($1..$9) RETURNING *] *)
  | InsertSymbol (p1 p2 p3 p4 p5 p6 p7 p8 p9 : value)
  (** [UPDATE symbols SET name = $1, sector = $2, industry = $3,
      market_cap = $4, updated_at = CURRENT_TIMESTAMP WHERE symbol = $5
      RETURNING *] *)
  | UpdateSymbol (p1 p2 p3 p4 p5 : value)
  (** [INSERT INTO market_data (symbol_id, t_stamp, open, high, low, close,
      volume, adjusted_close, time_frame, data_source) VALUES ($1..$10)
      ON CONFLICT (symbol_id, t_stamp, time_frame, data_source) DO NOTHING
      RETURNING *] *)
  | InsertMarketData (p1 : Z) (p2 : datetime) (p3 p4 p5 p6 p7 : float)
      (p8 : option float) (p9 p10 : string).

Definition failure : response := {| success := false; data := [] |}.

Definition next_id (rows : list symbol_row) : Z :=
  1 + foldr Z.max 0 (map id rows).

(** The conflict target of the [market_data] insert. *)
Definition same_key (a b : market_data_row) : bool :=
  (symbol_id a =? symbol_id b) && datetime_eqb (t_stamp a) (t_stamp b)
  && String.eqb (time_frame a) (time_frame b)
  && String.eqb (data_source a) (data_source b).

(** What the store does with a statement: SQL's reading of its text.
    A statement that runs reports [success] and returns the rows of its
    [RETURNING] clause: none for an insert that met the conflict target. *)
Definition run (st : store) (s : statement) : response * store :=
  match s with
  | SelectSymbolByName (VStr sym) =>
      ({| success := true;
          data := map SymbolRow
                    (filter (fun r => symbol r = sym) (symbols st)) |}, st)
  | InsertSymbol (VStr sym) n e a c sec ind mc (VBool act) =>
      let r := {| id := next_id (symbols st); symbol := sym; name := n;
                  exchange := e; asset_type := a; currency := c;
                  sector := sec; industry := ind; market_cap := mc;
                  is_active := act |} in
      ({| success := true; data := [SymbolRow r] |},
       {| reachable := reachable st; symbols := symbols st ++ [r];
          market_data := market_data st |})
  | UpdateSymbol n sec ind mc (VStr sym) =>
      let upd r :=
        if String.eqb (symbol r) sym
        then {| id := id r; symbol := symbol r; name := n;
                exchange := exchange r; asset_type := asset_type r;
                currency := currency r; sector := sec; industry := ind;
                market_cap := mc; is_active := is_active r |}
        else r in
      ({| success := true;
          data := map (fun r => SymbolRow (upd r))
                    (filter (fun r => symbol r = sym) (symbols st)) |},
       {| reachable := reachable st; symbols := map upd (symbols st);
          market_data := market_data st |})
  | InsertMarketData sid ts o h l c v ac tf ds =>
      let r := {| symbol_id := sid; t_stamp := ts; open := o; high := h;
                  low := l; close := c; volume := v; adjusted_close := ac;
                  time_frame := tf; data_source := ds |} in
      if existsb (same_key r) (market_data st)
      then ({| success := true; data := [] |}, st)
      else ({| success := true; data := [MarketDataRow r] |},
            {| reachable := reachable st; symbols := symbols st;
               market_data := market_data st ++ [r] |})
  | _ => (failure, st)
  end.

(** [execute_prepared_select], [_insert], [_update]: the service's answer,
    or [{success: False}] when the request fails. *)
Definition execute (st : store) (s : statement) : response * store :=
  if reachable st then run st s else (failure, st).

End DatabaseClient.

(* ===================================================================== *)
(** ** database_client.py: TradingBotDatabase *)
(* ===================================================================== *)

Module TradingBotDatabase.
Import DatabaseClient.

(** [d[k]] and [d.get(k)] on a dictionary of values *)
Definition item (d : gmap string value) (k : string) : result value :=
  match d !! k with
  | Some v => Ok v
  | None => Raise KeyError
  end.
Definition get (d : gmap string value) (k : string) : value :=
  default VNone (d !! k).

Definition get_symbol_by_name (st : store) (sym : string)
  : option symbol_row :=
  match data (fst (execute st (SelectSymbolByName (VStr sym)))) with
  | SymbolRow r :: _ => Some r
  | _ => None
  end.

Definition create_symbol (st : store) (symbol_data : gmap string value)
  : result (bool * store) :=
  p1 ← item symbol_data "symbol";
  p2 ← item symbol_data "name";
  p3 ← item symbol_data "exchange";
  p4 ← item symbol_data "asset_type";
  let p5 := default (VStr "USD") (symbol_data !! "currency") in
  let p6 := get symbol_data "sector" in
  let p7 := get symbol_data "industry" in
  let p8 := get symbol_data "market_cap" in
  let p9 := default (VBool true) (symbol_data !! "is_active") in
  let '(r, st') := execute st (InsertSymbol p1 p2 p3 p4 p5 p6 p7 p8 p9) in
  Ok (success r, st').

(** The statement [update_symbol] sends. *)
Definition update_symbol_statement (sym : string)
    (update_data : gmap string value) : statement :=
  UpdateSymbol (get update_data "name") (get update_data "sector")
    (get update_data "industry") (get update_data "market_cap") (VStr sym).

Definition update_symbol (st : store) (sym : string)
    (update_data : gmap string value) : bool * store :=
  let '(r, st') := execute st (update_symbol_statement sym update_data) in
  (success r, st').

Definition insert_market_data (st : store) (symbol_id : Z)
    (market_data : KrakenClient.ohlc_record) : bool * store :=
  let '(r, st') :=
    execute st
      (InsertMarketData symbol_id
         (KrakenClient.ohlc_timestamp market_data)
         (KrakenClient.ohlc_open market_data)
         (KrakenClient.ohlc_high market_data)
         (KrakenClient.ohlc_low market_data)
         (KrakenClient.ohlc_close market_data)
         (KrakenClient.ohlc_volume market_data)
         (Some (KrakenClient.ohlc_adjusted_close market_data))
         (KrakenClient.ohlc_time_frame market_data)
         (KrakenClient.ohlc_data_source market_data)) in
  (success r, st').

End TradingBotDatabase.

(* ===================================================================== *)
(** ** main.py: the Kraken handlers *)
(* ===================================================================== *)

Module Main.
Import KrakenClient DatabaseClient.

(** The entry of one pair in the catalog [KrakenClient.get_asset_pairs]
    returns: the string fields the handlers read ([None]: key absent). *)
Record pair_info : Type := {
  wsname : option string;
  altname : option string;
  base : option string;
  quote : option string;
  status : option string
}.

(** The handlers end in [except HTTPException: raise] and
    [except Exception as e: raise HTTPException(status_code=500, ...)]. *)
Definition http_error (e : exn) : exn :=
  match e with
  | HTTPException c => HTTPException c
  | _ => HTTPException 500
  end.

(** *** GET /kraken/pairs *)

(** [search_terms] of [get_kraken_pairs] *)
Definition search_terms (search : string) : list string :=
  let search_lower := lower search in
  [search_lower]
  ++ (if contains "doge" search_lower then ["xdg"] else [])
  ++ (if contains "btc" search_lower && negb (contains "xbt" search_lower)
      then ["xbt"] else []).

(** The condition of the search comprehension for one [name, info]. *)
Definition search_match (terms : list string) (name : string)
    (info : pair_info) : bool :=
  existsb (fun term =>
    contains term (lower name)
    || contains term (lower (default "" (wsname info)))
    || contains term (lower (default "" (altname info)))
    || contains term (lower (default "" (base info)))
    || contains term (lower (default "" (quote info)))) terms.

Definition status_is (s : string) (info : pair_info) : bool :=
  match status info with
  | Some s' => String.eqb s' s
  | None => false
  end.

Definition filter_status (status : option string)
    (pairs : gmap string pair_info) : gmap string pair_info :=
  match status with
  | Some s =>
      if negb (String.eqb s "") && negb (String.eqb s "all")
      then filter (fun kv => status_is s kv.2 = true) pairs
      else pairs
  | None => pairs
  end.

Definition filter_search (search : option string)
    (filtered_pairs : gmap string pair_info) : gmap string pair_info :=
  match search with
  | Some s =>
      if negb (String.eqb s "")
      then filter (fun kv => search_match (search_terms s) kv.1 kv.2 = true)
             filtered_pairs
      else filtered_pairs
  | None => filtered_pairs
  end.

(** [a or b] on strings that may be absent: the first that is present and
    not empty. *)
Definition or_else (a : option string) (b : string) : string :=
  match a with
  | Some s => if String.eqb s "" then b else s
  | None => b
  end.

Record pair_data : Type := {
  pd_pair : string;
  pd_name : string;
  pd_altname : string;
  pd_base : string;
  pd_quote : string;
  pd_status : string
}.

Definition pair_detail (filtered_pairs : gmap string pair_info)
    (pair_name : string) : pair_data :=
  let pair_info :=
    default {| wsname := None; altname := None; base := None;
               quote := None; status := None |}
      (filtered_pairs !! pair_name) in
  {| pd_pair := pair_name;
     pd_name := or_else (wsname pair_info)
                  (or_else (altname pair_info) pair_name);
     pd_altname := default pair_name (altname pair_info);
     pd_base := default "" (base pair_info);
     pd_quote := default "" (quote pair_info);
     pd_status := default "unknown" (status pair_info) |}.

Record pagination : Type := {
  pg_limit : Z;
  pg_offset : Z;
  pg_returned : Z;
  has_more : bool;
  pg_total : Z
}.

Record pairs_response : Type := {
  total_pairs : Z;
  active_pairs : Z;
  filtered_pairs : Z;
  pairs : list string;
  pairs_detail : list pair_data;
  from_cache : bool;
  search : option string;
  page : pagination
}.

(** [sorted(filtered_pairs.keys())] *)
Definition sorted_keys (m : gmap string pair_info) : list string :=
  sorted (map_to_list m).*1.

(** [get_kraken_pairs] from the point where the catalog [pairs] is at
    hand (read from the cache or fetched from Kraken) to its return. *)
Definition get_kraken_pairs (pairs : gmap string pair_info)
    (from_cache : bool) (limit offset : Z)
    (status search : option string) : pairs_response :=
  let filtered := filter_search search (filter_status status pairs) in
  let active := filter (fun kv => status_is "online" kv.2 = true) pairs in
  let sorted_pairs := sorted_keys filtered in
  let paginated_pairs := slice sorted_pairs offset (offset + limit) in
  {| total_pairs := Z.of_nat (size pairs);
     active_pairs := Z.of_nat (size active);
     filtered_pairs := Z.of_nat (size filtered);
     pairs := paginated_pairs;
     pairs_detail := pair_detail filtered <$> paginated_pairs;
     from_cache := from_cache;
     search := search;
     page := {| pg_limit := limit;
                pg_offset := offset;
                pg_returned := Z.of_nat (length paginated_pairs);
                has_more := offset + limit <? Z.of_nat (size filtered);
                pg_total := Z.of_nat (size filtered) |} |}.

(** *** POST /kraken/fetch-ohlc *)

Record ohlc_response : Type := {
  or_pair : string;
  or_symbol : string;
  or_timeframe : string;
  records_fetched : Z;
  records_inserted : Z
}.

(** The [symbol_data] both handlers create a missing symbol with. *)
Definition new_symbol_data (db_symbol : string) (name : string)
    (active : bool) : gmap string value :=
  list_to_map
    [("symbol", VStr db_symbol); ("name", VStr name);
     ("exchange", VStr "Kraken"); ("asset_type", VStr "crypto");
     ("currency", VStr "USD"); ("is_active", VBool active)].

(** The loop [for data_point in parsed_data]. *)
Fixpoint insert_loop (st : store) (symbol_id : Z)
    (parsed_data : list ohlc_record) (inserted_count : Z) : Z * store :=
  match parsed_data with
  | [] => (inserted_count, st)
  | data_point :: rest =>
      let '(ok, st') :=
        TradingBotDatabase.insert_market_data st symbol_id data_point in
      insert_loop st' symbol_id rest
        (if ok then inserted_count + 1 else inserted_count)
  end.

(** [fetch_kraken_ohlc]; [get_ohlc pair interval] is what
    [kraken.get_ohlc(...).get("data", [])] evaluates to. *)
Definition fetch_kraken_ohlc (st : store)
    (get_ohlc : string -> Z -> result (list value))
    (pair timeframe : string) (limit : option Z)
  : result ohlc_response * store :=
  let normalized_pair := normalize_pair pair in
  let interval := get_timeframe_interval timeframe in
  match get_ohlc normalized_pair interval with
  | Raise e => (Raise (http_error e), st)
  | Ok [] => (Raise (HTTPException 404), st)
  | Ok ohlc_data =>
      let ohlc_data :=
        match limit with
        | Some l => if l =? 0 then ohlc_data else slice_from ohlc_data (- l)
        | None => ohlc_data
        end in
      match parse_ohlc_data ohlc_data timeframe normalized_pair with
      | Raise e => (Raise (http_error e), st)
      | Ok parsed_data =>
          let db_symbol :=
            default normalized_pair
              (assoc normalized_pair get_kraken_symbol_mapping) in
          let '(symbol_info, st1) :=
            match TradingBotDatabase.get_symbol_by_name st db_symbol with
            | Some r => (Ok (Some r), st)
            | None =>
                match TradingBotDatabase.create_symbol st
                        (new_symbol_data db_symbol db_symbol true) with
                | Ok (_, st') =>
                    (Ok (TradingBotDatabase.get_symbol_by_name st' db_symbol),
                     st')
                | Raise e => (Raise e, st)
                end
            end in
          match symbol_info with
          | Raise e => (Raise (http_error e), st1)
          | Ok None => (Raise (http_error TypeError), st1)
          | Ok (Some info) =>
              let '(inserted_count, st2) :=
                insert_loop st1 (id info) parsed_data 0 in
              (Ok {| or_pair := normalized_pair;
                     or_symbol := db_symbol;
                     or_timeframe := timeframe;
                     records_fetched := Z.of_nat (length parsed_data);
                     records_inserted := inserted_count |}, st2)
          end
      end
  end.

(** *** POST /kraken/sync-symbols *)

Record sync_response : Type := {
  created : Z;
  updated : Z;
  sync_total_pairs : Z
}.

Definition online (pair_info : pair_info) : bool := status_is "online" pair_info.

(** [update_data] of [sync_kraken_symbols] *)
Definition sync_update_data (pair_info : pair_info) : gmap string value :=
  {[ "is_active" := VBool (online pair_info) ]}.

(** One turn of the loop [for kraken_pair, db_symbol in
    symbol_mapping.items()], on the counters and the store. *)
Definition sync_step (pairs : gmap string pair_info)
    (kraken_pair db_symbol : string) (acc : result (Z * Z * store))
  : result (Z * Z * store) :=
  '(created_count, updated_count, st) ← acc;
  match pairs !! kraken_pair with
  | None => Ok (created_count, updated_count, st)
  | Some pair_info =>
      match TradingBotDatabase.get_symbol_by_name st db_symbol with
      | None =>
          '(_, st') ← TradingBotDatabase.create_symbol st
                        (new_symbol_data db_symbol
                           (default db_symbol (altname pair_info))
                           (online pair_info));
          Ok (created_count + 1, updated_count, st')
      | Some symbol_info =>
          if negb (Bool.eqb (is_active symbol_info) (online pair_info))
          then
            let '(_, st') :=
              TradingBotDatabase.update_symbol st db_symbol
                (sync_update_data pair_info) in
            Ok (created_count, updated_count + 1, st')
          else Ok (created_count, updated_count, st)
      end
  end.

Definition sync_loop (pairs : gmap string pair_info)
    (symbol_mapping : list (string * string)) (st : store)
  : result (Z * Z * store) :=
  fold_left (fun acc kv => sync_step pairs kv.1 kv.2 acc)
    symbol_mapping (Ok (0, 0, st)).

(** [sync_kraken_symbols]; [asset_pairs] is what [kraken.get_asset_pairs()]
    evaluates to. The store a failing handler leaves behind is not
    tracked: the result is the answer and the store after a success. *)
Definition sync_kraken_symbols (st : store)
    (asset_pairs : result (gmap string pair_info))
  : result (sync_response * store) :=
  match asset_pairs with
  | Raise e => Raise (http_error e)
  | Ok pairs =>
      match sync_loop pairs get_kraken_symbol_mapping st with
      | Raise e => Raise (http_error e)
      | Ok (created_count, updated_count, st') =>
          Ok ({| created := created_count;
                 updated := updated_count;
                 sync_total_pairs :=
                   Z.of_nat (length get_kraken_symbol_mapping) |}, st')
      end
  end.

End Main.

(* ===================================================================== *)
(** ** Vocabulary of the specification *)
(* ===================================================================== *)





(** The row of [market_data] that [insert_market_data] sends for a parsed
    record. *)
Definition market_row (symbol_id : Z) (d : KrakenClient.ohlc_record)
  : DatabaseClient.market_data_row :=
  {| DatabaseClient.symbol_id := symbol_id;
     DatabaseClient.t_stamp := KrakenClient.ohlc_timestamp d;
     DatabaseClient.open := KrakenClient.ohlc_open d;
     DatabaseClient.high := KrakenClient.ohlc_high d;
     DatabaseClient.low := KrakenClient.ohlc_low d;
     DatabaseClient.close := KrakenClient.ohlc_close d;
     DatabaseClient.volume := KrakenClient.ohlc_volume d;
     DatabaseClient.adjusted_close :=
       Some (KrakenClient.ohlc_adjusted_close d);
     DatabaseClient.time_frame := KrakenClient.ohlc_time_frame d;
     DatabaseClient.data_source := KrakenClient.ohlc_data_source d |}.

(** The idempotency key of a row is already in the table. *)
Definition key_stored (st : DatabaseClient.store)
    (r : DatabaseClient.market_data_row) : bool :=
  existsb (DatabaseClient.same_key r) (DatabaseClient.market_data st).

(** A store that holds the symbol BTC/USD, active, with its descriptive
    fields filled in, and no market data. *)
Definition btc_store : DatabaseClient.store :=
  {| DatabaseClient.reachable := true;
     DatabaseClient.symbols :=
       [{| DatabaseClient.id := 1;
           DatabaseClient.symbol := "BTC/USD";
           DatabaseClient.name := VStr "Bitcoin";
           DatabaseClient.exchange := VStr "Kraken";
           DatabaseClient.asset_type := VStr "crypto";
           DatabaseClient.currency := VStr "USD";
           DatabaseClient.sector := VStr "Currency";
           DatabaseClient.industry := VStr "Payments";
           DatabaseClient.market_cap := VInt 1000000;
           DatabaseClient.is_active := true |}];
     DatabaseClient.market_data := [] |}.

(** A catalog in which XBTUSD is no longer online. *)
Definition cancel_only_catalog : gmap string Main.pair_info :=
  {[ "XBTUSD" := {| Main.wsname := Some "XBT/USD";
                    Main.altname := Some "XBTUSD";
                    Main.base := Some "XXBT"; Main.quote := Some "ZUSD";
                    Main.status := Some "cancel_only" |} ]}.

(** The row and the ticker payload of the specification's scenarios. *)
Definition scenario_ohlc_row : value :=
  VList [VInt 1700000000; VStr "100"; VStr "110"; VStr "95"; VStr "105";
         VStr "102"; VStr "50"; VStr "20"].

Definition scenario_ticker : gmap string value :=
  list_to_map
    [("a", VList [VStr "101"; VStr "1"; VStr "1"]);
     ("b", VList [VStr "99"; VStr "1"; VStr "1"]);
     ("c", VList [VStr "100"; VStr "5"]);
     ("v", VList [VStr "10"; VStr "500"]);
     ("h", VList [VStr "105"; VStr "95"]);
     ("o", VStr "90")].

(** An exchange that answers every OHLC request with the scenario's row. *)
Definition one_row_exchange (pair : string) (interval : Z)
  : result (list value) :=
  Ok [scenario_ohlc_row].

(* ===================================================================== *)
(** ** Further vocabulary *)
(* ===================================================================== *)

(** A string of ASCII characters only. On such strings the byte strings
    of this development, with their case mapping of the letters A-Z and
    a-z, are Python's strings with [str.upper] and [str.lower]. *)
Fixpoint ascii_only (s : string) : bool :=
  match s with
  | EmptyString => true
  | String c s' => (nat_of_ascii c <? 128)%nat && ascii_only s'
  end.

(** A record that [parse_ohlc_data] does not skip: its length is known
    and at least eight. *)
Definition kept (record : value) : bool :=
  match py_len record with
  | Ok n => 8 <=? n
  | Raise _ => false
  end.

(** A cache whose client is connected to a server that holds [d] and
    whose commands to come all succeed. *)
Definition healthy_cache (d : gmap string (string * Z)) : RedisCache.cache :=
  {| RedisCache.client :=
       Some {| RedisCache.faults := []; RedisCache.db := d |} |}.

(** The time to live [set] gives a key: [expiration or DEFAULT_EXPIRATION]. *)
Definition effective_expiration (expiration : option Z) : Z :=
  match expiration with
  | Some e => if e =? 0 then 3600 else e
  | None => 3600
  end.

(** What [get] makes of a stored string [s]. *)
Definition decoded (json_loads : string -> result value) (s : string)
  : value :=
  if String.eqb s "" then VNone
  else match json_loads s with
       | Ok v => v
       | Raise ValueError | Raise TypeError => VStr s
       | Raise _ => VNone
       end.

(** The keys a server holds. *)
Definition server_db (c : RedisCache.cache)
  : option (gmap string (string * Z)) :=
  RedisCache.db <$> RedisCache.client c.

(** The symbol the OHLC and ticker handlers store a pair under. *)
Definition db_symbol_of (pair : string) : string :=
  default (KrakenClient.normalize_pair pair)
    (KrakenClient.assoc (KrakenClient.normalize_pair pair)
       KrakenClient.get_kraken_symbol_mapping).

(** The last [n] rows of a list. *)
Definition last_rows {A} (n : Z) (rows : list A) : list A :=
  drop (length rows - Z.to_nat n) rows.

(** The row [fetch_kraken_ohlc] creates for a symbol it does not find. *)
Definition default_symbol_row (st : DatabaseClient.store) (sym : string)
  : DatabaseClient.symbol_row :=
  {| DatabaseClient.id := DatabaseClient.next_id (DatabaseClient.symbols st);
     DatabaseClient.symbol := sym;
     DatabaseClient.name := VStr sym;
     DatabaseClient.exchange := VStr "Kraken";
     DatabaseClient.asset_type := VStr "crypto";
     DatabaseClient.currency := VStr "USD";
     DatabaseClient.sector := VNone;
     DatabaseClient.industry := VNone;
     DatabaseClient.market_cap := VNone;
     DatabaseClient.is_active := true |}.

(** The active flag the store holds for a symbol, as
    [get_symbol_by_name] reads it: that of the first row of that name. *)
Definition stored_active (st : DatabaseClient.store) (sym : string)
  : option bool :=
  DatabaseClient.is_active <$> TradingBotDatabase.get_symbol_by_name st sym.

(** Of the mapped pairs [m], those the catalog lists. *)
Definition listed (pairs : gmap string Main.pair_info)
    (m : list (string * string)) : list (string * string) :=
  List.filter (fun kv => bool_decide (is_Some (pairs !! kv.1))) m.

(** Of the mapped pairs [m], those the catalog lists and the store has no
    symbol for, and those whose stored flag differs from the catalog's. *)
Definition to_create (pairs : gmap string Main.pair_info)
    (st : DatabaseClient.store) (m : list (string * string))
  : list (string * string) :=
  List.filter
    (fun kv => match pairs !! kv.1, stored_active st kv.2 with
               | Some _, None => true
               | _, _ => false
               end) m.

Definition to_update (pairs : gmap string Main.pair_info)
    (st : DatabaseClient.store) (m : list (string * string))
  : list (string * string) :=
  List.filter
    (fun kv => match pairs !! kv.1, stored_active st kv.2 with
               | Some info, Some a => negb (Bool.eqb a (Main.online info))
               | _, _ => false
               end) m.

(** Symbol and active flag of a row, and those the catalog gives a mapped
    pair. *)
Definition flag (r : DatabaseClient.symbol_row) : string * bool :=
  (DatabaseClient.symbol r, DatabaseClient.is_active r).

Definition catalog_flag (pairs : gmap string Main.pair_info)
    (kv : string * string) : string * bool :=
  (kv.2, from_option Main.online false (pairs !! kv.1)).

(* ===================================================================== *)
(** * Properties *)
(* ===================================================================== *)

(** ** Strings *)

Lemma append_cons (c : ascii) (a b : string) :
  String c a +:+ b = String c (a +:+ b).
Proof. reflexivity. Qed.

Lemma append_nil (b : string) : "" +:+ b = b.
Proof. reflexivity. Qed.

Lemma prefix_append (t s : string) :
  String.prefix t s = true <-> exists post, s = t +:+ post.
Proof.
  revert s; induction t as [|a t IH]; intros s; simpl.
  - split; [intros _; by exists s | by destruct s].
  - destruct s as [|b s]; simpl.
    + split; [done | intros [post H]; discriminate].
    + destruct (ascii_dec a b) as [->|Hne].
      * rewrite IH. split; intros [post H]; exists post;
          rewrite append_cons in *; congruence.
      * split; [done | intros [post H]; rewrite append_cons in H; congruence].
Qed.

Lemma contains_nil (t : string) :
  contains t "" = if String.prefix t "" then true else false.
Proof. reflexivity. Qed.

Lemma contains_cons (t : string) (c : ascii) (s : string) :
  contains t (String c s)
  = if String.prefix t (String c s) then true else contains t s.
Proof. reflexivity. Qed.

(** [contains] decides the substring relation. *)
Lemma contains_spec (t s : string) :
  contains t s = true <-> exists pre post, s = pre +:+ t +:+ post.
Proof.
  induction s as [|c s IH]; [rewrite contains_nil | rewrite contains_cons].
  - destruct (String.prefix t "") eqn:Hp.
    + split; [intros _ | done].
      apply prefix_append in Hp as [post Hp]. by exists "", post.
    + split; [done | intros (pre & post & H)].
      destruct pre; [|discriminate]. rewrite append_nil in H.
      assert (String.prefix t "" = true) by (apply prefix_append; eauto).
      congruence.
  - destruct (String.prefix t (String c s)) eqn:Hp.
    + split; [intros _ | done].
      apply prefix_append in Hp as [post Hp]. by exists "", post.
    + rewrite IH. split.
      * intros (pre & post & ->). by exists (String c pre), post.
      * intros (pre & post & H). destruct pre as [|c' pre].
        -- rewrite append_nil in H.
           assert (String.prefix t (String c s) = true)
             by (apply prefix_append; eauto).
           congruence.
        -- rewrite append_cons in H. injection H as -> ->. eauto.
Qed.


Lemma map_string_append (f : ascii -> ascii) (a b : string) :
  map_string f (a +:+ b) = map_string f a +:+ map_string f b.
Proof.
  induction a as [|c a IH]; [done|].
  rewrite append_cons. simpl. by rewrite IH.
Qed.

(** A substring of [s] is, lower-cased, a substring of [lower s]. *)
Lemma contains_lower (t s : string) :
  contains t s = true -> contains (lower t) (lower s) = true.
Proof.
  rewrite !contains_spec. intros (pre & post & ->).
  exists (lower pre), (lower post). unfold lower.
  by rewrite !map_string_append.
Qed.

Lemma lower_char_idem (c : ascii) : lower_char (lower_char c) = lower_char c.
Proof.
  destruct c as [[] [] [] [] [] [] [] []]; reflexivity.
Qed.

Lemma lower_idem (s : string) : lower (lower s) = lower s.
Proof.
  induction s as [|c s IH]; simpl; [done|].
  unfold lower in *. simpl. by rewrite lower_char_idem, IH.
Qed.

(** ** The order of strings and [sorted] *)

Lemma string_compare_refl (s : string) : String.compare s s = Eq.
Proof.
  induction s as [|c s IH]; simpl; [done|].
  unfold Ascii.compare. by rewrite N.compare_refl.
Qed.

Lemma string_compare_trans_lt (a b c : string) :
  String.compare a b = Lt -> String.compare b c = Lt ->
  String.compare a c = Lt.
Proof.
  revert b c; induction a as [|x a IH]; intros [|y b] [|z c]; simpl;
    try done.
  unfold Ascii.compare.
  destruct (N.compare_spec (N_of_ascii x) (N_of_ascii y)) as [E1|L1|G1];
    try done;
  destruct (N.compare_spec (N_of_ascii y) (N_of_ascii z)) as [E2|L2|G2];
    try done; intros H1 H2.
  - rewrite E1, E2, N.compare_refl. eauto.
  - rewrite E1. by apply N.compare_lt_iff in L2 as ->.
  - rewrite <- E2. by apply N.compare_lt_iff in L1 as ->.
  - assert (N_of_ascii x < N_of_ascii z)%N as L by lia.
    by apply N.compare_lt_iff in L as ->.
Qed.

Lemma string_leb_trans (a b c : string) :
  String.leb a b = true -> String.leb b c = true -> String.leb a c = true.
Proof.
  unfold String.leb.
  destruct (String.compare a b) eqn:E1; try done;
  destruct (String.compare b c) eqn:E2; try done; intros _ _.
  - apply String.compare_eq_iff in E1, E2. subst.
    by rewrite string_compare_refl.
  - apply String.compare_eq_iff in E1. subst. by rewrite E2.
  - apply String.compare_eq_iff in E2. subst. by rewrite E1.
  - by rewrite (string_compare_trans_lt a b c).
Qed.

Lemma insert_sorted_perm (x : string) (l : list string) :
  Permutation (x :: l) (insert_sorted x l).
Proof.
  induction l as [|y l IH]; simpl; [done|].
  destruct (String.leb x y); [done|].
  rewrite perm_swap. by constructor.
Qed.

Lemma sorted_perm (l : list string) : Permutation l (sorted l).
Proof.
  induction l as [|x l IH]; simpl; [done|].
  rewrite <- insert_sorted_perm. by constructor.
Qed.

Lemma insert_sorted_sorted (x : string) (l : list string) :
  StronglySorted string_le l -> StronglySorted string_le (insert_sorted x l).
Proof.
  induction 1 as [|y l Hs IH Hall]; simpl.
  - repeat constructor.
  - destruct (String.leb x y) eqn:E.
    + constructor; [by constructor|].
      constructor; [done|].
      eapply Forall_impl; [exact Hall|].
      intros z Hz. by apply (string_leb_trans x y z).
    + constructor; [done|].
      rewrite <- insert_sorted_perm. constructor; [|done].
      destruct (String.leb_total x y); [congruence | done].
Qed.

Lemma sorted_sorted (l : list string) : StronglySorted string_le (sorted l).
Proof.
  induction l as [|x l IH]; simpl; [constructor|].
  by apply insert_sorted_sorted.
Qed.

(** ** Slices *)

Lemma slice_nonneg {A} (l : list A) (n m : Z) :
  0 <= n -> 0 <= m ->
  slice l n (n + m) = take (Z.to_nat m) (drop (Z.to_nat n) l).
Proof.
  intros Hn Hm. unfold slice, slice_bound.
  destruct (Z.ltb_spec n 0); [lia|].
  destruct (Z.ltb_spec (n + m) 0); [lia|].
  set (len := Z.of_nat (length l)).
  destruct (Z.le_gt_cases len n) as [Hge|Hlt].
  - rewrite (drop_ge l (Z.to_nat (n `min` len))) by lia.
    rewrite (drop_ge l (Z.to_nat n)) by lia.
    by rewrite !take_nil.
  - rewrite (Z.min_l n len) by lia.
    destruct (Z.le_gt_cases (n + m) len).
    + rewrite Z.min_l by lia. f_equal. lia.
    + rewrite Z.min_r by lia.
      rewrite !take_ge; [done | |]; rewrite length_drop; lia.
Qed.

(** ** C8: normalize_pair *)

Lemma In_remove_char (x c : ascii) (s : string) :
  In c (list_ascii_of_string (remove_char x s))
  <-> In c (list_ascii_of_string s) /\ c <> x.
Proof.
  induction s as [|a s IH]; simpl; [tauto|].
  destruct (Ascii.eqb_spec a x) as [->|Hne]; simpl; rewrite IH.
  - split; [tauto | intros [[<-|H] Hc]; [done | tauto]].
  - split; [intros [<-|[H Hc]]; tauto | tauto].
Qed.

Lemma In_map_string (f : ascii -> ascii) (c : ascii) (s : string) :
  In c (list_ascii_of_string (map_string f s))
  <-> exists c0, In c0 (list_ascii_of_string s) /\ c = f c0.
Proof.
  induction s as [|a s IH]; simpl.
  - split; [done | by intros (c0 & [] & _)].
  - rewrite IH. split.
    + intros [<-|(c0 & H & ->)]; eauto.
    + intros (c0 & [->|H] & ->); eauto.
Qed.

Lemma upper_char_not_lower (c : ascii) : is_lower (upper_char c) = false.
Proof. destruct c as [[] [] [] [] [] [] [] []]; reflexivity. Qed.

Lemma upper_char_separator (c : ascii) :
  (upper_char c = "/"%char -> c = "/"%char)
  /\ (upper_char c = "-"%char -> c = "-"%char).
Proof. destruct c as [[] [] [] [] [] [] [] []]; split; done. Qed.

(** C8. [normalize_pair] removes every "/" and "-" and upper-cases: the
    cleaned string holds no separator and no lower-case letter. It then
    rewrites the cleaned string through the alias table (BTC, BTCUSD and
    BTCUSDT to their XBT codes) and returns any other cleaned string
    unchanged. "BTC/USD", "btcusd" and "BTC-USD" all give "XBTUSD". *)
Theorem normalize_pair_spec :
  (forall pair : string,
     let cleaned := upper (remove_char "-" (remove_char "/" pair)) in
     (forall c, In c (list_ascii_of_string cleaned) ->
        c <> "/"%char /\ c <> "-"%char /\ is_lower c = false)
     /\ KrakenClient.normalize_pair pair
        = (if String.eqb cleaned "BTC" then "XBT"
           else if String.eqb cleaned "BTCUSD" then "XBTUSD"
           else if String.eqb cleaned "BTCUSDT" then "XBTUSDT"
           else cleaned))
  /\ KrakenClient.normalize_pair "BTC/USD" = "XBTUSD"
  /\ KrakenClient.normalize_pair "btcusd" = "XBTUSD"
  /\ KrakenClient.normalize_pair "BTC-USD" = "XBTUSD".
Proof.
  split; [|by repeat split].
  intros pair cleaned. split.
  - intros c Hc. unfold cleaned, upper in Hc.
    apply In_map_string in Hc as (c0 & Hc0 & ->).
    apply In_remove_char in Hc0 as [Hc0 Hd].
    apply In_remove_char in Hc0 as [_ Hs].
    destruct (upper_char_separator c0) as [H1 H2].
    repeat split; [naive_solver | naive_solver | apply upper_char_not_lower].
  - unfold KrakenClient.normalize_pair. fold cleaned.
    unfold KrakenClient.mappings. simpl.
    destruct (String.eqb_spec cleaned "BTC"); [done|].
    destruct (String.eqb_spec cleaned "BTCUSD"); [done|].
    destruct (String.eqb_spec cleaned "BTCUSDT"); [done|].
    destruct (String.eqb_spec cleaned "ETHUSD"); [done|].
    destruct (String.eqb_spec cleaned "ETHUSDT"); done.
Qed.

(** ** datetime *)

Lemma days_from_civil_from_days (z : Z) :
  let '(y, m, d) := civil_from_days z in days_from_civil y m d = z.
Proof.
  unfold civil_from_days, days_from_civil.
  set (z' := z + 719468).
  set (era := z' / 146097).
  set (doe := z' - era * 146097).
  set (yoe := (doe - doe / 1460 + doe / 36524 - doe / 146096) / 365).
  set (doy := doe - (365 * yoe + yoe / 4 - yoe / 100)).
  set (mp := (5 * doy + 2) / 153).
  assert (0 <= doe <= 146096) as Hdoe
    by (subst doe era; Z.div_mod_to_equations; lia).
  assert (0 <= yoe <= 399 /\ 0 <= doy <= 365) as [Hyoe Hdoy].
  { subst doy yoe. clearbody doe. Z.div_mod_to_equations; lia. }
  assert (0 <= mp <= 11) as Hmp by (subst mp; Z.div_mod_to_equations; lia).
  set (m := if mp <? 10 then mp + 3 else mp - 9).
  set (y := yoe + era * 400).
  assert ((if m <=? 2 then (if m <=? 2 then y + 1 else y) - 1
           else (if m <=? 2 then y + 1 else y)) = y) as ->
    by (destruct (m <=? 2); lia).
  assert ((if 2 <? m then m - 3 else m + 9) = mp) as ->.
  { subst m. destruct (Z.ltb_spec mp 10);
      [destruct (Z.ltb_spec 2 (mp + 3)) | destruct (Z.ltb_spec 2 (mp - 9))];
      lia. }
  assert (y / 400 = era) as ->
    by (subst y; clearbody yoe era; Z.div_mod_to_equations; lia).
  replace (y - era * 400) with yoe by (subst y; lia).
  subst doy z'. clearbody mp yoe.
  Z.div_mod_to_equations; lia.
Qed.

(** The [datetime] that [utc_fromtimestamp] returns is the instant [ts]
    seconds after the epoch. *)
Lemma utc_timestamp_fromtimestamp (ts : Z) (t : datetime) :
  utc_fromtimestamp ts = Ok t -> utc_timestamp t = ts.
Proof.
  unfold utc_fromtimestamp, utc_timestamp.
  pose proof (days_from_civil_from_days (ts / 86400)) as Hd.
  destruct (civil_from_days (ts / 86400)) as [[y m] d].
  destruct ((1 <=? y) && (y <=? 9999)); [|done].
  intros [= <-]. simpl. rewrite Hd.
  Z.div_mod_to_equations; lia.
Qed.

(** ** parse_ohlc_data *)

Lemma bind_ok {A B} (m : result A) (k : A -> result B) (b : B) :
  m ≫= k = Ok b <-> exists a, m = Ok a /\ k a = Ok b.
Proof.
  destruct m as [a|e]; simpl.
  - split; [eauto | by intros (a' & [= <-] & H)].
  - split; [done | by intros (a' & [=] & _)].
Qed.

(** What [parse_ohlc_record] returns when it appends a dictionary. *)
Lemma parse_ohlc_record_some (record : value) (tf pair : string)
    (r : KrakenClient.ohlc_record) :
  KrakenClient.parse_ohlc_record record tf pair = Ok (Some r) <->
  exists n ts,
    py_len record = Ok n /\ 8 <= n
    /\ py_getitem record 0 ≫= py_int = Ok ts
    /\ utc_fromtimestamp ts = Ok (KrakenClient.ohlc_timestamp r)
    /\ py_getitem record 1 ≫= py_float = Ok (KrakenClient.ohlc_open r)
    /\ py_getitem record 2 ≫= py_float = Ok (KrakenClient.ohlc_high r)
    /\ py_getitem record 3 ≫= py_float = Ok (KrakenClient.ohlc_low r)
    /\ py_getitem record 4 ≫= py_float = Ok (KrakenClient.ohlc_close r)
    /\ py_getitem record 6 ≫= py_float = Ok (KrakenClient.ohlc_volume r)
    /\ KrakenClient.ohlc_adjusted_close r = KrakenClient.ohlc_close r
    /\ KrakenClient.ohlc_time_frame r = tf
    /\ KrakenClient.ohlc_data_source r = "kraken"
    /\ KrakenClient.ohlc_pair r = pair.
Proof.
  unfold KrakenClient.parse_ohlc_record. split.
  - intros H. apply bind_ok in H as (n & Hn & H).
    exists n. destruct (Z.ltb_spec n 8) as [|Hge]; [done|].
    apply bind_ok in H as (ts & Hts & H). exists ts.
    apply bind_ok in H as (t & Ht & H).
    apply bind_ok in H as (o & Ho & H).
    apply bind_ok in H as (h & Hh & H).
    apply bind_ok in H as (l & Hl & H).
    apply bind_ok in H as (c & Hc & H).
    apply bind_ok in H as (v & Hv & H).
    apply bind_ok in H as (ac & Hac & H).
    injection H as <-. simpl.
    assert (ac = c) as -> by congruence. by repeat split.
  - intros (n & ts & Hn & Hge & Hts & Ht & Ho & Hh & Hl & Hc & Hv & Hac
            & Htf & Hds & Hp).
    rewrite Hn. simpl. destruct (Z.ltb_spec n 8) as [|_]; [lia|].
    rewrite Hts. simpl. rewrite Ht. simpl. rewrite Ho. simpl.
    rewrite Hh. simpl. rewrite Hl. simpl. rewrite Hc. simpl.
    rewrite Hv. simpl. destruct r; simpl in *. by subst.
Qed.

Lemma parse_ohlc_record_short (record : value) (tf pair : string) (n : Z) :
  py_len record = Ok n -> n < 8 ->
  KrakenClient.parse_ohlc_record record tf pair = Ok None.
Proof.
  intros Hn Hlt. unfold KrakenClient.parse_ohlc_record. rewrite Hn. simpl.
  by destruct (Z.ltb_spec n 8); [|lia].
Qed.

Lemma parse_ohlc_data_app (l1 l2 : list value) (tf pair : string) :
  KrakenClient.parse_ohlc_data (l1 ++ l2) tf pair
  = (a ← KrakenClient.parse_ohlc_data l1 tf pair;
     b ← KrakenClient.parse_ohlc_data l2 tf pair;
     Ok (a ++ b)%list).
Proof.
  induction l1 as [|x l1 IH]; simpl.
  - by destruct (KrakenClient.parse_ohlc_data l2 tf pair).
  - destruct (KrakenClient.parse_ohlc_record x tf pair) as [r|e]; simpl;
      [|done].
    rewrite IH.
    destruct (KrakenClient.parse_ohlc_data l1 tf pair) as [a|e]; simpl;
      [|done].
    destruct (KrakenClient.parse_ohlc_data l2 tf pair) as [b|e]; simpl;
      [|done].
    by destruct r.
Qed.

(** ** C3: the bounds of a parsed bar *)




(** ** C7: parse_ohlc_data *)

Lemma kept_short (record : value) (tf pair : string) :
  kept record = false ->
  forall r, KrakenClient.parse_ohlc_record record tf pair <> Ok (Some r).
Proof.
  intros Hk r H. apply parse_ohlc_record_some in H as (n & ts & Hn & Hge & _).
  unfold kept in Hk. rewrite Hn in Hk.
  by destruct (Z.leb_spec 8 n); [|lia].
Qed.

Lemma kept_long (record : value) (tf pair : string) :
  kept record = true ->
  KrakenClient.parse_ohlc_record record tf pair <> Ok None.
Proof.
  unfold kept, KrakenClient.parse_ohlc_record.
  destruct (py_len record) as [n|e]; simpl; [|done].
  intros Hn. destruct (Z.leb_spec 8 n); [|done].
  destruct (Z.ltb_spec n 8); [lia|].
  repeat match goal with
         | |- context [?m ≫= ?k] =>
             lazymatch m with
             | _ ≫= _ => fail
             | _ => destruct m; simpl; try done
             end
         end.
Qed.

(** The records [parse_ohlc_data] returns are those of the rows it
    keeps, one each and in their order. *)
Lemma parse_ohlc_data_kept_rows (rows : list value) (tf pair : string)
    (out : list KrakenClient.ohlc_record) :
  KrakenClient.parse_ohlc_data rows tf pair = Ok out ->
  Forall2 (fun record r =>
             KrakenClient.parse_ohlc_record record tf pair = Ok (Some r))
    (filter (fun record => kept record = true) rows) out.
Proof.
  revert out. induction rows as [|row rows IH]; intros out H.
  - injection H as <-. constructor.
  - cbn [KrakenClient.parse_ohlc_data] in H.
    apply bind_ok in H as (r & Hr & H).
    apply bind_ok in H as (rest & Hrest & H). injection H as <-.
    rewrite filter_cons. destruct r as [d|].
    + destruct (kept row) eqn:Hk;
        [|by destruct (kept_short row tf pair Hk d)].
      rewrite decide_True by done. constructor; [done|by apply IH].
    + destruct (kept row) eqn:Hk;
        [by destruct (kept_long row tf pair Hk)|].
      rewrite decide_False by done. by apply IH.
Qed.

(** [parse_ohlc_data] returns when each of its rows, taken alone, is
    skipped or gives a record. *)
Lemma parse_ohlc_data_returns (rows : list value) (tf pair : string) :
  Forall (fun record =>
            is_ok (KrakenClient.parse_ohlc_record record tf pair) = true)
    rows ->
  is_ok (KrakenClient.parse_ohlc_data rows tf pair) = true.
Proof.
  induction 1 as [|record rows Hrec _ IH]; [done|].
  cbn [KrakenClient.parse_ohlc_data].
  destruct (KrakenClient.parse_ohlc_record record tf pair) as [r|e];
    [|done].
  destruct (KrakenClient.parse_ohlc_data rows tf pair) as [rest|e];
    [|done].
  by destruct r.
Qed.

(** C7. A row of fewer than eight fields is dropped wherever it stands
    and raises nothing; a list of such rows parses to the empty list; a
    list row of eight or more fields is never dropped; in a record kept,
    the timestamp is the UTC instant of field 0 read as integer epoch
    seconds, the volume is field 6, and adjusted_close equals close, which
    is field 4. The list [parse_ohlc_data] returns holds one record for
    each row of eight or more fields, in the order of the rows, and each
    of them has its timestamp, volume, close, adjusted_close and
    timeframe read from its own row in this way; the list is returned
    whenever each row alone is skipped or gives a record. The scenario's
    row gives the scenario's record. *)
Theorem parse_ohlc_data_spec :
  (forall (before after : list value) (record : value) (tf pair : string)
          (n : Z),
      py_len record = Ok n -> n < 8 ->
      KrakenClient.parse_ohlc_data (before ++ record :: after) tf pair
      = KrakenClient.parse_ohlc_data (before ++ after) tf pair)
  /\ (forall (rows : list value) (tf pair : string),
        Forall (fun record => exists n, py_len record = Ok n /\ n < 8) rows ->
        KrakenClient.parse_ohlc_data rows tf pair = Ok [])
  /\ (forall (fields : list value) (tf pair : string),
        (8 <= length fields)%nat ->
        KrakenClient.parse_ohlc_record (VList fields) tf pair <> Ok None)
  /\ (forall (record : value) (tf pair : string)
             (r : KrakenClient.ohlc_record),
        KrakenClient.parse_ohlc_record record tf pair = Ok (Some r) ->
        exists ts,
          py_getitem record 0 ≫= py_int = Ok ts
          /\ utc_fromtimestamp ts = Ok (KrakenClient.ohlc_timestamp r)
          /\ utc_timestamp (KrakenClient.ohlc_timestamp r) = ts
          /\ py_getitem record 6 ≫= py_float = Ok (KrakenClient.ohlc_volume r)
          /\ py_getitem record 4 ≫= py_float = Ok (KrakenClient.ohlc_close r)
          /\ KrakenClient.ohlc_adjusted_close r = KrakenClient.ohlc_close r
          /\ KrakenClient.ohlc_time_frame r = tf)
  /\ (forall (rows : list value) (tf pair : string)
             (out : list KrakenClient.ohlc_record),
        KrakenClient.parse_ohlc_data rows tf pair = Ok out ->
        Forall2
          (fun record r =>
             exists ts,
               py_getitem record 0 ≫= py_int = Ok ts
               /\ utc_fromtimestamp ts = Ok (KrakenClient.ohlc_timestamp r)
               /\ utc_timestamp (KrakenClient.ohlc_timestamp r) = ts
               /\ py_getitem record 6 ≫= py_float
                  = Ok (KrakenClient.ohlc_volume r)
               /\ py_getitem record 4 ≫= py_float
                  = Ok (KrakenClient.ohlc_close r)
               /\ KrakenClient.ohlc_adjusted_close r
                  = KrakenClient.ohlc_close r
               /\ KrakenClient.ohlc_time_frame r = tf)
          (filter (fun record => kept record = true) rows) out)
  /\ (forall (rows : list value) (tf pair : string),
        Forall (fun record =>
                  is_ok (KrakenClient.parse_ohlc_record record tf pair)
                  = true) rows ->
        is_ok (KrakenClient.parse_ohlc_data rows tf pair) = true)
  /\ KrakenClient.parse_ohlc_data [scenario_ohlc_row] "1h" "XBTUSD"
     = Ok [{| KrakenClient.ohlc_timestamp :=
                {| dt_year := 2023; dt_month := 11; dt_day := 14;
                   dt_hour := 22; dt_minute := 13; dt_second := 20 |};
              KrakenClient.ohlc_open := 100;
              KrakenClient.ohlc_high := 110;
              KrakenClient.ohlc_low := 95;
              KrakenClient.ohlc_close := 105;
              KrakenClient.ohlc_volume := 50;
              KrakenClient.ohlc_adjusted_close := 105;
              KrakenClient.ohlc_time_frame := "1h";
              KrakenClient.ohlc_data_source := "kraken";
              KrakenClient.ohlc_pair := "XBTUSD" |}].
Proof.
  assert (Hrec : forall (record : value) (tf pair : string)
                        (r : KrakenClient.ohlc_record),
             KrakenClient.parse_ohlc_record record tf pair = Ok (Some r) ->
             exists ts,
               py_getitem record 0 ≫= py_int = Ok ts
               /\ utc_fromtimestamp ts = Ok (KrakenClient.ohlc_timestamp r)
               /\ utc_timestamp (KrakenClient.ohlc_timestamp r) = ts
               /\ py_getitem record 6 ≫= py_float
                  = Ok (KrakenClient.ohlc_volume r)
               /\ py_getitem record 4 ≫= py_float
                  = Ok (KrakenClient.ohlc_close r)
               /\ KrakenClient.ohlc_adjusted_close r
                  = KrakenClient.ohlc_close r
               /\ KrakenClient.ohlc_time_frame r = tf).
  { intros record tf pair r H.
    apply parse_ohlc_record_some in H
      as (n & ts & _ & _ & Hts & Ht & _ & _ & _ & Hc & Hv & Hac & Htf & _).
    exists ts. repeat split; try done.
    by apply utc_timestamp_fromtimestamp. }
  split; [|split; [|split; [|split; [exact Hrec|split; [|split]]]]].
  - intros before after record tf pair n Hn Hlt.
    rewrite !parse_ohlc_data_app. simpl.
    rewrite (parse_ohlc_record_short record tf pair n) by done.
    destruct (KrakenClient.parse_ohlc_data before tf pair); simpl; [|done].
    by destruct (KrakenClient.parse_ohlc_data after tf pair).
  - intros rows tf pair. induction 1 as [|record rows (n & Hn & Hlt) _ IH];
      simpl; [done|].
    rewrite (parse_ohlc_record_short record tf pair n) by done.
    simpl. by rewrite IH.
  - intros fields tf pair Hlen. unfold KrakenClient.parse_ohlc_record.
    simpl. destruct (Z.ltb_spec (Z.of_nat (length fields)) 8); [lia|].
    repeat match goal with
           | |- context [?m ≫= ?k] =>
               lazymatch m with
               | _ ≫= _ => fail
               | _ => destruct m; simpl; try done
               end
           end.
  - intros rows tf pair out H.
    apply parse_ohlc_data_kept_rows in H.
    eapply Forall2_impl; [exact H|]. intros record r. apply Hrec.
  - exact parse_ohlc_data_returns.
  - vm_compute. reflexivity.
Qed.

(** ** parse_ticker_data *)



Lemma fmap_ok {A B} (f : A -> B) (m : result A) (b : B) :
  f <$> m = Ok b <-> exists a, m = Ok a /\ b = f a.
Proof.
  destruct m as [a|e]; simpl.
  - split; [intros [= <-]; eauto | by intros (a' & [= <-] & ->)].
  - split; [done | by intros (a' & [=] & _)].
Qed.

(** The [try] block of [parse_ticker_data]: the open price is known
    exactly when the raw value is true in a condition and coerces. *)
Lemma open_price_some (raw : value) (op : option float) :
  catch_value_type
    (if truthy raw then Some <$> py_float raw else Ok None) None = Ok op ->
  forall o, op = Some o <-> truthy raw = true /\ py_float raw = Ok o.
Proof.
  destruct (truthy raw); simpl.
  - destruct (py_float raw) as [x|e]; simpl.
    + intros [= <-] o. split; [intros [= ->]; done | by intros [_ [= ->]]].
    + destruct e; intros [= <-] o; split; try done; by intros [_ [=]].
  - intros [= <-] o. split; [done | by intros [[=] _]].
Qed.

(** How [parse_ticker_data] computes the two fields that depend on the
    open price. *)
Lemma parse_ticker_data_change (td : gmap string value) (pair : string)
    (r : KrakenClient.ticker_record) :
  KrakenClient.parse_ticker_data td pair = Ok r ->
  exists op : option float,
    (forall o, op = Some o <->
       truthy (default (VInt 0) (td !! "o")) = true
       /\ py_float (default (VInt 0) (td !! "o")) = Ok o)
    /\ KrakenClient.ticker_change_24h r
       = (fun o => (KrakenClient.ticker_price r - o)%float) <$> op
    /\ KrakenClient.ticker_change_percent_24h r
       = match op with
         | Some o =>
             if (0 <? o)%float
             then Some ((KrakenClient.ticker_price r - o) / o * 100)%float
             else None
         | None => None
         end.
Proof.
  unfold KrakenClient.parse_ticker_data. intros H.
  apply bind_ok in H as (current_price & _ & H).
  apply bind_ok in H as (ask_price & _ & H).
  apply bind_ok in H as (bid_price & _ & H).
  apply bind_ok in H as (volume_24h & _ & H).
  apply bind_ok in H as (high_24h & _ & H).
  apply bind_ok in H as (low_24h & _ & H).
  apply bind_ok in H as (op & Hop & H).
  apply bind_ok in H as (volume_int & _ & H).
  injection H as <-. simpl. exists op.
  split; [by apply open_price_some | done].
Qed.



(** ** C10: a 24-hour volume of zero *)




(** ** C9: an unavailable cache *)

Lemma try_except_ret {A} (m : RedisCache.M A) (a : A) (c : RedisCache.cache) :
  exists x c', RedisCache.try_except m (RedisCache.ret a) c = (Ok x, c').
Proof.
  unfold RedisCache.try_except, RedisCache.ret.
  destruct (m c) as [[x|e] c']; eauto.
Qed.

Lemma is_connected_ok (c : RedisCache.cache) :
  exists b c', RedisCache.is_connected c = (Ok b, c').
Proof.
  unfold RedisCache.is_connected. destruct (RedisCache.client c); [|eauto].
  apply try_except_ret.
Qed.

(** A method that starts with the [is_connected] test and ends in
    [except Exception: return h] returns, whatever the server does. *)
Lemma guarded_ok {A} (m : RedisCache.M A) (a h : A) (c : RedisCache.cache) :
  exists x c',
    RedisCache.bind RedisCache.is_connected
      (fun connected =>
         if negb connected then RedisCache.ret a
         else RedisCache.try_except m (RedisCache.ret h)) c = (Ok x, c').
Proof.
  unfold RedisCache.bind.
  destruct (is_connected_ok c) as (b & c' & ->).
  destruct b; simpl; [apply try_except_ret | by eexists _, _].
Qed.

(** With the cache not connected such a method returns its early value
    and sends nothing more to the server. *)
Lemma guarded_unavailable {A} (m : RedisCache.M A) (a h : A)
    (c : RedisCache.cache) :
  (RedisCache.is_connected c).1 = Ok false ->
  RedisCache.bind RedisCache.is_connected
    (fun connected =>
       if negb connected then RedisCache.ret a
       else RedisCache.try_except m (RedisCache.ret h)) c
  = (Ok a, (RedisCache.is_connected c).2).
Proof.
  unfold RedisCache.bind.
  destruct (RedisCache.is_connected c) as [r c']. simpl. by intros ->.
Qed.

(** [is_connected] changes no key of the server. *)
Lemma is_connected_db (c : RedisCache.cache) :
  RedisCache.db <$> RedisCache.client (RedisCache.is_connected c).2
  = RedisCache.db <$> RedisCache.client c.
Proof.
  unfold RedisCache.is_connected.
  destruct c as [[[fs d]|]]; simpl; [|done].
  unfold RedisCache.try_except, RedisCache.bind, RedisCache.ping,
    RedisCache.command. simpl.
  by destruct fs as [|[] fs].
Qed.

(** C9. In every state of the cache and of the server, [get], [set],
    [delete], [get_kraken_pairs], [set_kraken_pairs] and
    [clear_kraken_pairs_cache] return a value and raise nothing. When the
    cache is not connected ([is_connected] answers false: no client, or
    the ping fails), [get] and [get_kraken_pairs] return None, the writes
    return False, and the keys the server holds are unchanged. *)
Theorem cache_unavailable_is_silent
    (json_loads : string -> result value)
    (json_dumps redis_encode : value -> result string)
    (glob_match : string -> string -> bool) (utcnow_isoformat : string)
    (c : RedisCache.cache) (key : string) (v : value)
    (expiration : option Z) (ttl : Z) :
  (is_ok (RedisCache.get json_loads key c).1 = true
   /\ is_ok (RedisCache.set json_dumps key v expiration c).1 = true
   /\ is_ok (RedisCache.delete key c).1 = true
   /\ is_ok (RedisCache.get_kraken_pairs json_loads c).1 = true
   /\ is_ok (RedisCache.set_kraken_pairs json_dumps redis_encode
               utcnow_isoformat v ttl c).1 = true
   /\ is_ok (RedisCache.clear_kraken_pairs_cache glob_match c).1 = true)
  /\ ((RedisCache.is_connected c).1 = Ok false ->
      let c' := (RedisCache.is_connected c).2 in
      RedisCache.get json_loads key c = (Ok VNone, c')
      /\ RedisCache.get_kraken_pairs json_loads c = (Ok VNone, c')
      /\ RedisCache.set json_dumps key v expiration c = (Ok false, c')
      /\ RedisCache.delete key c = (Ok false, c')
      /\ RedisCache.set_kraken_pairs json_dumps redis_encode
           utcnow_isoformat v ttl c = (Ok false, c')
      /\ RedisCache.clear_kraken_pairs_cache glob_match c = (Ok false, c')
      /\ RedisCache.db <$> RedisCache.client c'
         = RedisCache.db <$> RedisCache.client c).
Proof.
  split.
  - unfold RedisCache.get, RedisCache.set, RedisCache.delete,
      RedisCache.get_kraken_pairs, RedisCache.set_kraken_pairs,
      RedisCache.clear_kraken_pairs_cache.
    repeat split;
      match goal with
      | |- is_ok (RedisCache.bind _ (fun _ => if _ then RedisCache.ret ?a
              else RedisCache.try_except ?m (RedisCache.ret ?h)) _).1 = _ =>
          destruct (guarded_ok m a h c) as (x & c' & ->)
      end; reflexivity.
  - intros Hc c'.
    unfold RedisCache.get, RedisCache.set, RedisCache.delete,
      RedisCache.get_kraken_pairs, RedisCache.set_kraken_pairs,
      RedisCache.clear_kraken_pairs_cache.
    repeat split; try (by apply guarded_unavailable).
    apply is_connected_db.
Qed.

(** Two unavailable caches: no client at all, and a client whose next
    ping fails. *)
Example cache_without_client :
  RedisCache.get (fun _ => Raise ValueError) "k"
    {| RedisCache.client := None |}
  = (Ok VNone, {| RedisCache.client := None |})
  /\ RedisCache.set (fun _ => Raise TypeError) "k" (VStr "v") None
       {| RedisCache.client := None |}
     = (Ok false, {| RedisCache.client := None |}).
Proof. split; reflexivity. Qed.

Example cache_ping_fails :
  let srv d fs := {| RedisCache.client :=
                       Some {| RedisCache.faults := fs;
                               RedisCache.db := d |} |} in
  RedisCache.get_kraken_pairs (fun s => Ok (VStr s))
    (srv {[ RedisCache.KRAKEN_PAIRS_KEY := ("cached", 3600) ]}
       [RedisCache.Refused])
  = (Ok VNone,
     srv {[ RedisCache.KRAKEN_PAIRS_KEY := ("cached", 3600) ]} [])
  /\ RedisCache.get_kraken_pairs (fun s => Ok (VStr s))
       (srv {[ RedisCache.KRAKEN_PAIRS_KEY := ("cached", 3600) ]} [])
     = (Ok (VStr "cached"),
        srv {[ RedisCache.KRAKEN_PAIRS_KEY := ("cached", 3600) ]} []).
Proof. split; vm_compute; reflexivity. Qed.

(** ** C4: pagination of the pair catalog *)

Lemma sorted_keys_perm (m : gmap string Main.pair_info) :
  (map_to_list m).*1 ≡ₚ Main.sorted_keys m.
Proof. apply sorted_perm. Qed.

Lemma sorted_keys_elem (m : gmap string Main.pair_info) (k : string) :
  k ∈ Main.sorted_keys m <-> is_Some (m !! k).
Proof.
  rewrite <- sorted_keys_perm, list_elem_of_fmap. split.
  - intros ([k' x] & -> & H). apply elem_of_map_to_list in H. by exists x.
  - intros [x H]. exists (k, x). split; [done|].
    by apply elem_of_map_to_list.
Qed.

Lemma sorted_keys_NoDup (m : gmap string Main.pair_info) :
  NoDup (Main.sorted_keys m).
Proof. rewrite <- sorted_keys_perm. apply NoDup_fst_map_to_list. Qed.

Lemma sorted_keys_length (m : gmap string Main.pair_info) :
  length (Main.sorted_keys m) = size m.
Proof.
  rewrite <- sorted_keys_perm, length_fmap. apply length_map_to_list.
Qed.

(** C4. For an offset N >= 0 and a limit M >= 1, [pairs] of the answer is
    the run [N, N+M) of the keys of the filtered catalog in ascending
    order: the keys are those of the filtered catalog, each once, sorted
    by Python's order on strings; position i of the answer is position
    N + i of that list for i < M and nothing beyond; [pairs_detail] lists
    the same codes; an offset at or past the filtered count gives the
    empty list; and [has_more] holds exactly when N + M is below the
    filtered count. *)
Theorem get_kraken_pairs_pagination
    (pairs : gmap string Main.pair_info) (from_cache : bool)
    (status search : option string) (N M : Z) :
  0 <= N -> 1 <= M ->
  let r := Main.get_kraken_pairs pairs from_cache M N status search in
  let filtered :=
    Main.filter_search search (Main.filter_status status pairs) in
  let keys := Main.sorted_keys filtered in
  (StronglySorted string_le keys /\ NoDup keys
   /\ (forall k, k ∈ keys <-> is_Some (filtered !! k))
   /\ length keys = size filtered)
  /\ Main.pairs r = take (Z.to_nat M) (drop (Z.to_nat N) keys)
  /\ (forall i : nat,
        Main.pairs r !! i
        = if decide (i < Z.to_nat M)%nat
          then keys !! (Z.to_nat N + i)%nat else None)
  /\ Main.pd_pair <$> Main.pairs_detail r = Main.pairs r
  /\ (Z.of_nat (size filtered) <= N -> Main.pairs r = [])
  /\ (Main.has_more (Main.page r) = true
      <-> N + M < Z.of_nat (size filtered))
  /\ Main.filtered_pairs r = Z.of_nat (size filtered).
Proof.
  intros HN HM r filtered keys.
  assert (Main.pairs r = take (Z.to_nat M) (drop (Z.to_nat N) keys)) as Hp.
  { unfold r, Main.get_kraken_pairs. simpl.
    rewrite (Z.add_comm N M), (Z.add_comm M N).
    apply slice_nonneg; lia. }
  split; [|split; [|split; [|split; [|split; [|split]]]]].
  - repeat split.
    + apply sorted_sorted.
    + apply sorted_keys_NoDup.
    + apply sorted_keys_elem.
    + apply sorted_keys_elem.
    + apply sorted_keys_length.
  - exact Hp.
  - intros i. rewrite Hp, lookup_take. case_decide; [|done].
    apply lookup_drop.
  - unfold r, Main.get_kraken_pairs. simpl.
    rewrite <- list_fmap_compose. apply list_fmap_id.
  - intros Hge. rewrite Hp, drop_ge; [by rewrite take_nil|].
    unfold keys. rewrite sorted_keys_length. lia.
  - unfold r, Main.get_kraken_pairs. simpl. apply Z.ltb_lt.
  - reflexivity.
Qed.

Lemma get_kraken_pairs_pagination_witness :
  let pairs : gmap string Main.pair_info :=
    list_to_map
      [("XBTUSD", {| Main.wsname := None; Main.altname := Some "XBTUSD";
                     Main.base := Some "XBT"; Main.quote := Some "USD";
                     Main.status := Some "online" |});
       ("ETHUSD", {| Main.wsname := None; Main.altname := Some "ETHUSD";
                     Main.base := Some "ETH"; Main.quote := Some "USD";
                     Main.status := Some "online" |})] in
  let r := Main.get_kraken_pairs pairs false 1 0 (Some "online") None in
  Main.pairs r = ["ETHUSD"]
  /\ Main.has_more (Main.page r) = true
  /\ Main.filtered_pairs r = 2
  /\ Main.pairs r
     = take (Z.to_nat 1)
         (drop (Z.to_nat 0)
            (Main.sorted_keys
               (Main.filter_search None
                  (Main.filter_status (Some "online") pairs)))).
Proof.
  intros pairs r.
  pose proof (get_kraken_pairs_pagination pairs false (Some "online") None
                0 1 ltac:(lia) ltac:(lia)) as (_ & H & _).
  split; [vm_compute; reflexivity|].
  split; [vm_compute; reflexivity|].
  split; [vm_compute; reflexivity|].
  exact H.
Defined.

(** ** C5: the search filter of the pair catalog *)




(** A native code that holds "xdg" in upper case is found by "doge". *)
Example search_doge_finds_xdg :
  Main.pairs
    (Main.get_kraken_pairs
       (list_to_map
          [("XDGUSD", {| Main.wsname := Some "XDG/USD";
                         Main.altname := Some "XDGUSD";
                         Main.base := Some "XXDG"; Main.quote := Some "ZUSD";
                         Main.status := Some "online" |});
           ("ETHUSD", {| Main.wsname := Some "ETH/USD";
                         Main.altname := Some "ETHUSD";
                         Main.base := Some "XETH"; Main.quote := Some "ZUSD";
                         Main.status := Some "online" |})])
       false 10 0 (Some "all") (Some "doge"))
  = ["XDGUSD"].
Proof. vm_compute. reflexivity. Qed.

(** ** C2: what the symbol sync updates *)

(** The statement [sync_kraken_symbols] issues for a symbol whose active
    flag disagrees with the catalog: [update_data] holds only "is_active",
    which [update_symbol] never reads, so the four columns of the SET
    clause are sent as None. *)
Lemma sync_update_statement (sym : string) (info : Main.pair_info) :
  TradingBotDatabase.update_symbol_statement sym (Main.sync_update_data info)
  = DatabaseClient.UpdateSymbol VNone VNone VNone VNone (VStr sym).
Proof. reflexivity. Qed.

(** C2 fails on the code. The update that [sync_kraken_symbols] issues
    leaves the active flag of every row as it was and overwrites name,
    sector, industry and market_cap of the symbol with None. On a store
    that holds BTC/USD as active and a catalog where XBTUSD is
    cancel_only, the sync reports one update; afterwards BTC/USD is still
    active and its four descriptive fields are None. *)
Theorem sync_update_keeps_flag_and_clears_fields :
  (forall (st : DatabaseClient.store) (sym : string)
          (info : Main.pair_info),
      DatabaseClient.reachable st = true ->
      let st' := (TradingBotDatabase.update_symbol st sym
                    (Main.sync_update_data info)).2 in
      DatabaseClient.is_active <$> DatabaseClient.symbols st'
      = DatabaseClient.is_active <$> DatabaseClient.symbols st
      /\ DatabaseClient.symbol <$> DatabaseClient.symbols st'
         = DatabaseClient.symbol <$> DatabaseClient.symbols st
      /\ forall r, r ∈ DatabaseClient.symbols st' ->
                   DatabaseClient.symbol r = sym ->
                   DatabaseClient.name r = VNone
                   /\ DatabaseClient.sector r = VNone
                   /\ DatabaseClient.industry r = VNone
                   /\ DatabaseClient.market_cap r = VNone)
  /\ Main.sync_kraken_symbols btc_store (Ok cancel_only_catalog)
     = Ok ({| Main.created := 0; Main.updated := 1;
              Main.sync_total_pairs := 20 |},
           {| DatabaseClient.reachable := true;
              DatabaseClient.symbols :=
                [{| DatabaseClient.id := 1;
                    DatabaseClient.symbol := "BTC/USD";
                    DatabaseClient.name := VNone;
                    DatabaseClient.exchange := VStr "Kraken";
                    DatabaseClient.asset_type := VStr "crypto";
                    DatabaseClient.currency := VStr "USD";
                    DatabaseClient.sector := VNone;
                    DatabaseClient.industry := VNone;
                    DatabaseClient.market_cap := VNone;
                    DatabaseClient.is_active := true |}];
              DatabaseClient.market_data := [] |}).
Proof.
  split; [|vm_compute; reflexivity].
  intros st sym info Hr st'.
  unfold st', TradingBotDatabase.update_symbol. rewrite sync_update_statement.
  unfold DatabaseClient.execute. rewrite Hr. simpl.
  rewrite <- !list_fmap_compose.
  repeat split.
  - apply list_fmap_ext. intros i r _. simpl.
    by destruct (String.eqb (DatabaseClient.symbol r) sym).
  - apply list_fmap_ext. intros i r _. simpl.
    by destruct (String.eqb (DatabaseClient.symbol r) sym).
  - apply list_elem_of_fmap in H as (r0 & -> & _). revert H0.
    destruct (String.eqb_spec (DatabaseClient.symbol r0) sym); simpl; done.
  - apply list_elem_of_fmap in H as (r0 & -> & _). revert H0.
    destruct (String.eqb_spec (DatabaseClient.symbol r0) sym); simpl; done.
  - apply list_elem_of_fmap in H as (r0 & -> & _). revert H0.
    destruct (String.eqb_spec (DatabaseClient.symbol r0) sym); simpl; done.
  - apply list_elem_of_fmap in H as (r0 & -> & _). revert H0.
    destruct (String.eqb_spec (DatabaseClient.symbol r0) sym); simpl; done.
Qed.

(** ** C1: re-ingesting a batch of bars *)

Lemma datetime_eqb_refl (t : datetime) : DatabaseClient.datetime_eqb t t = true.
Proof. unfold DatabaseClient.datetime_eqb. by rewrite !Z.eqb_refl. Qed.

Lemma same_key_refl (r : DatabaseClient.market_data_row) :
  DatabaseClient.same_key r r = true.
Proof.
  unfold DatabaseClient.same_key.
  by rewrite Z.eqb_refl, datetime_eqb_refl, !String.eqb_refl.
Qed.

(** What [insert_market_data] does on a store that answers: it reports
    success either way; the row is added unless its key is stored. *)
Lemma insert_market_data_reachable (st : DatabaseClient.store)
    (symbol_id : Z) (d : KrakenClient.ohlc_record) :
  DatabaseClient.reachable st = true ->
  TradingBotDatabase.insert_market_data st symbol_id d
  = (true,
     if key_stored st (market_row symbol_id d) then st
     else {| DatabaseClient.reachable := true;
             DatabaseClient.symbols := DatabaseClient.symbols st;
             DatabaseClient.market_data :=
               DatabaseClient.market_data st ++ [market_row symbol_id d] |}).
Proof.
  intros Hr. unfold TradingBotDatabase.insert_market_data,
    DatabaseClient.execute, DatabaseClient.run, key_stored.
  rewrite Hr. fold (market_row symbol_id d).
  by destruct (existsb _ _).
Qed.

(** A store that does not answer: nothing is inserted or counted. *)
Lemma insert_market_data_unreachable (st : DatabaseClient.store)
    (symbol_id : Z) (d : KrakenClient.ohlc_record) :
  DatabaseClient.reachable st = false ->
  TradingBotDatabase.insert_market_data st symbol_id d = (false, st).
Proof.
  intros Hr. unfold TradingBotDatabase.insert_market_data,
    DatabaseClient.execute. by rewrite Hr.
Qed.

Lemma key_stored_app (st : DatabaseClient.store)
    (r x : DatabaseClient.market_data_row) :
  key_stored st r = true ->
  key_stored {| DatabaseClient.reachable := true;
                DatabaseClient.symbols := DatabaseClient.symbols st;
                DatabaseClient.market_data :=
                  DatabaseClient.market_data st ++ [x] |} r = true.
Proof.
  unfold key_stored. simpl. rewrite existsb_app. by intros ->.
Qed.

(** The loop of [fetch_kraken_ohlc] on a store that answers: every record
    is counted; afterwards the store answers, holds the same symbols,
    still holds every key it held, and holds the key of every record. *)
Lemma insert_loop_reachable (parsed : list KrakenClient.ohlc_record) :
  forall (st : DatabaseClient.store) (symbol_id count : Z),
    DatabaseClient.reachable st = true ->
    exists st',
      Main.insert_loop st symbol_id parsed count
      = (count + Z.of_nat (length parsed), st')
      /\ DatabaseClient.reachable st' = true
      /\ DatabaseClient.symbols st' = DatabaseClient.symbols st
      /\ (forall r, key_stored st r = true -> key_stored st' r = true)
      /\ (forall d, d ∈ parsed ->
            key_stored st' (market_row symbol_id d) = true).
Proof.
  induction parsed as [|d parsed IH]; intros st symbol_id count Hr.
  - exists st. simpl. repeat split; try done; [f_equal; lia|].
    intros d Hd. by apply elem_of_nil in Hd.
  - cbn [Main.insert_loop]. rewrite insert_market_data_reachable by done.
    set (st1 := if key_stored st (market_row symbol_id d) then st else _).
    assert (DatabaseClient.reachable st1 = true) as Hr1
      by (unfold st1; by destruct (key_stored st _)).
    assert (DatabaseClient.symbols st1 = DatabaseClient.symbols st) as Hs1
      by (unfold st1; by destruct (key_stored st _)).
    assert (forall r, key_stored st r = true -> key_stored st1 r = true)
      as Hk1.
    { intros r Hk. unfold st1. destruct (key_stored st _); [done|].
      by apply key_stored_app. }
    assert (key_stored st1 (market_row symbol_id d) = true) as Hd1.
    { unfold st1. destruct (key_stored st _) eqn:E; [done|].
      unfold key_stored. simpl. rewrite existsb_app. simpl.
      by rewrite same_key_refl, orb_true_r. }
    destruct (IH st1 symbol_id (count + 1) Hr1)
      as (st' & Heq & Hr' & Hs' & Hk' & Hd').
    exists st'. rewrite Heq. repeat split.
    + f_equal. rewrite length_cons. lia.
    + done.
    + congruence.
    + auto.
    + intros d' Hin. apply elem_of_cons in Hin as [->|Hin]; auto.
Qed.

(** Every key is stored already: the loop counts every record all the
    same, and leaves the store as it is. *)
Lemma insert_loop_duplicates (parsed : list KrakenClient.ohlc_record) :
  forall (st : DatabaseClient.store) (symbol_id count : Z),
    DatabaseClient.reachable st = true ->
    (forall d, d ∈ parsed -> key_stored st (market_row symbol_id d) = true) ->
    Main.insert_loop st symbol_id parsed count
    = (count + Z.of_nat (length parsed), st).
Proof.
  induction parsed as [|d parsed IH]; intros st symbol_id count Hr Hk.
  - simpl. f_equal. lia.
  - cbn [Main.insert_loop]. rewrite insert_market_data_reachable by done.
    rewrite Hk by (apply elem_of_cons; by left).
    rewrite IH; [|done|].
    + f_equal. rewrite length_cons. lia.
    + intros d' Hd'. apply Hk, elem_of_cons. by right.
Qed.

Lemma get_symbol_by_name_ext (st st' : DatabaseClient.store) (sym : string) :
  DatabaseClient.reachable st' = DatabaseClient.reachable st ->
  DatabaseClient.symbols st' = DatabaseClient.symbols st ->
  TradingBotDatabase.get_symbol_by_name st' sym
  = TradingBotDatabase.get_symbol_by_name st sym.
Proof.
  intros Hr Hs. unfold TradingBotDatabase.get_symbol_by_name,
    DatabaseClient.execute, DatabaseClient.run.
  rewrite Hr. destruct (DatabaseClient.reachable st); simpl; [|done].
  by rewrite Hs.
Qed.

Lemma create_symbol_reachable (st : DatabaseClient.store)
    (db_symbol nm : string) (act ok : bool) (st' : DatabaseClient.store) :
  DatabaseClient.reachable st = true ->
  TradingBotDatabase.create_symbol st (Main.new_symbol_data db_symbol nm act)
  = Ok (ok, st') ->
  DatabaseClient.reachable st' = true.
Proof.
  intros Hr. unfold TradingBotDatabase.create_symbol,
    DatabaseClient.execute. rewrite Hr.
  vm_compute. by intros [= _ <-].
Qed.

(** The tail of [fetch_kraken_ohlc], once the symbol is resolved, on a
    store that answers: the answer counts every parsed record as
    inserted, and the same request on the store it leaves gives the same
    count and changes nothing. *)
Lemma fetch_tail (st1 : DatabaseClient.store)
    (info : DatabaseClient.symbol_row)
    (parsed : list KrakenClient.ohlc_record) :
  DatabaseClient.reachable st1 = true ->
  exists st2,
    Main.insert_loop st1 (DatabaseClient.id info) parsed 0
    = (Z.of_nat (length parsed), st2)
    /\ DatabaseClient.reachable st2 = true
    /\ DatabaseClient.symbols st2 = DatabaseClient.symbols st1
    /\ Main.insert_loop st2 (DatabaseClient.id info) parsed 0
       = (Z.of_nat (length parsed), st2).
Proof.
  intros Hr.
  destruct (insert_loop_reachable parsed st1 (DatabaseClient.id info) 0 Hr)
    as (st2 & Heq & Hr2 & Hs2 & _ & Hk).
  exists st2. repeat split; try done.
  by rewrite (insert_loop_duplicates parsed st2 _ 0 Hr2 Hk).
Qed.

(** C1 fails on the code. [insert_market_data] returns the store's
    [success], which is true for an insert that met the conflict target,
    so [fetch_kraken_ohlc] counts duplicates: on a store that answers,
    every answer has records_inserted = records_fetched, and asking again
    on the store the first call left returns the very same answer and
    leaves the store unchanged: the batch is counted as inserted a second
    time although no row was written. *)
Theorem fetch_kraken_ohlc_counts_duplicates
    (st st' : DatabaseClient.store)
    (get_ohlc : string -> Z -> result (list value))
    (pair timeframe : string) (limit : option Z)
    (resp : Main.ohlc_response) :
  DatabaseClient.reachable st = true ->
  Main.fetch_kraken_ohlc st get_ohlc pair timeframe limit = (Ok resp, st') ->
  Main.records_inserted resp = Main.records_fetched resp
  /\ Main.fetch_kraken_ohlc st' get_ohlc pair timeframe limit
     = (Ok resp, st').
Proof.
  intros Hr H. unfold Main.fetch_kraken_ohlc in *.
  destruct (get_ohlc _ _) as [[|row rows]|e]; try discriminate.
  destruct (KrakenClient.parse_ohlc_data _ _ _) as [parsed|e];
    [|discriminate].
  set (db_symbol := default _ _) in *.
  destruct (TradingBotDatabase.get_symbol_by_name st db_symbol)
    as [info|] eqn:Hg.
  - destruct (fetch_tail st info parsed Hr) as (st2 & Heq & Hr2 & Hs2 & Heq2).
    rewrite Heq in H. injection H as <- <-. split; [done|].
    rewrite (get_symbol_by_name_ext st st2) by congruence.
    rewrite Hg. by rewrite Heq2.
  - destruct (TradingBotDatabase.create_symbol st _)
      as [[ok st1]|e] eqn:Hc; [|discriminate].
    apply create_symbol_reachable in Hc as Hr1; [|done].
    destruct (TradingBotDatabase.get_symbol_by_name st1 db_symbol)
      as [info|] eqn:Hg1; [|discriminate].
    destruct (fetch_tail st1 info parsed Hr1)
      as (st2 & Heq & Hr2 & Hs2 & Heq2).
    rewrite Heq in H. injection H as <- <-. split; [done|].
    rewrite (get_symbol_by_name_ext st1 st2) by congruence.
    rewrite Hg1. by rewrite Heq2.
Qed.

Lemma fetch_kraken_ohlc_counts_duplicates_witness :
  let first := Main.fetch_kraken_ohlc btc_store one_row_exchange
                 "BTC/USD" "1h" None in
  let answer := {| Main.or_pair := "XBTUSD"; Main.or_symbol := "BTC/USD";
                   Main.or_timeframe := "1h";
                   Main.records_fetched := 1;
                   Main.records_inserted := 1 |} in
  first.1 = Ok answer
  /\ length (DatabaseClient.market_data first.2) = 1%nat
  /\ Main.records_inserted answer = Main.records_fetched answer
  /\ Main.fetch_kraken_ohlc first.2 one_row_exchange "BTC/USD" "1h" None
     = (Ok answer, first.2).
Proof.
  intros first answer.
  split; [vm_compute; reflexivity|].
  split; [vm_compute; reflexivity|].
  apply (fetch_kraken_ohlc_counts_duplicates btc_store first.2
           one_row_exchange "BTC/USD" "1h" None answer).
  - reflexivity.
  - vm_compute; reflexivity.
Defined.

(* ===================================================================== *)
(** * Further properties of the code *)
(* ===================================================================== *)

(** ** normalize_pair *)

Lemma remove_char_absent (c : ascii) (s : string) :
  (forall x, In x (list_ascii_of_string s) -> x <> c) ->
  remove_char c s = s.
Proof.
  induction s as [|a s IH]; simpl; [done|]. intros H.
  destruct (Ascii.eqb_spec a c) as [->|_].
  - by destruct (H c); [left|].
  - rewrite IH; [done|]. intros x Hx. apply H. by right.
Qed.

Lemma upper_no_lower (s : string) :
  (forall x, In x (list_ascii_of_string s) -> is_lower x = false) ->
  upper s = s.
Proof.
  induction s as [|a s IH]; simpl; [done|]. intros H. unfold upper in *.
  simpl. rewrite IH by (intros x Hx; apply H; by right).
  unfold upper_char. by rewrite (H a) by (by left).
Qed.

(** The string [normalize_pair] looks up in its table. *)
Lemma cleaned_fixed (pair : string) :
  let cleaned := upper (remove_char "-" (remove_char "/" pair)) in
  upper (remove_char "-" (remove_char "/" cleaned)) = cleaned.
Proof.
  intros cleaned.
  assert (forall c, In c (list_ascii_of_string cleaned) ->
            c <> "/"%char /\ c <> "-"%char /\ is_lower c = false) as H.
  { intros c Hc. unfold cleaned, upper in Hc.
    apply In_map_string in Hc as (c0 & Hc0 & ->).
    apply In_remove_char in Hc0 as [Hc0 Hd].
    apply In_remove_char in Hc0 as [_ Hs].
    destruct (upper_char_separator c0) as [H1 H2].
    repeat split; [naive_solver | naive_solver | apply upper_char_not_lower]. }
  rewrite (remove_char_absent "/" cleaned) by (intros x Hx; by apply H).
  rewrite (remove_char_absent "-" cleaned) by (intros x Hx; by apply H).
  apply upper_no_lower. intros x Hx. by apply H.
Qed.

Lemma normalize_pair_cases (pair : string) :
  let cleaned := upper (remove_char "-" (remove_char "/" pair)) in
  KrakenClient.normalize_pair pair
  = (if String.eqb cleaned "BTC" then "XBT"
     else if String.eqb cleaned "BTCUSD" then "XBTUSD"
     else if String.eqb cleaned "BTCUSDT" then "XBTUSDT"
     else cleaned).
Proof.
  intros cleaned. unfold KrakenClient.normalize_pair. fold cleaned.
  unfold KrakenClient.mappings. simpl.
  destruct (String.eqb_spec cleaned "BTC"); [done|].
  destruct (String.eqb_spec cleaned "BTCUSD"); [done|].
  destruct (String.eqb_spec cleaned "BTCUSDT"); [done|].
  destruct (String.eqb_spec cleaned "ETHUSD"); [done|].
  destruct (String.eqb_spec cleaned "ETHUSDT"); done.
Qed.

Lemma upper_lower_char (c : ascii) :
  upper_char (lower_char c) = upper_char c
  /\ (lower_char c = "/"%char <-> c = "/"%char)
  /\ (lower_char c = "-"%char <-> c = "-"%char).
Proof. destruct c as [[] [] [] [] [] [] [] []]; repeat split; done. Qed.

Lemma cleaned_lower (pair : string) :
  upper (remove_char "-" (remove_char "/" (lower pair)))
  = upper (remove_char "-" (remove_char "/" pair)).
Proof.
  unfold upper, lower. induction pair as [|c s IH]; simpl; [done|].
  destruct (upper_lower_char c) as (Hu & Hs & Hd).
  destruct (Ascii.eqb_spec c "/") as [->|Hc]; [by simpl|].
  destruct (Ascii.eqb_spec (lower_char c) "/") as [E|_]; [by apply Hs in E|].
  simpl.
  destruct (Ascii.eqb_spec c "-") as [->|Hc']; [by simpl|].
  destruct (Ascii.eqb_spec (lower_char c) "-") as [E|_]; [by apply Hd in E|].
  simpl. by rewrite Hu, IH.
Qed.

(** X1. [normalize_pair] is idempotent (a normalized code normalizes to
    itself), and on a pair of ASCII characters it does not depend on the
    case of the letters. *)
Theorem normalize_pair_idempotent (pair : string) :
  KrakenClient.normalize_pair (KrakenClient.normalize_pair pair)
  = KrakenClient.normalize_pair pair
  /\ (ascii_only pair = true ->
      KrakenClient.normalize_pair (lower pair)
      = KrakenClient.normalize_pair pair).
Proof.
  split.
  - rewrite (normalize_pair_cases pair).
    set (cleaned := upper (remove_char "-" (remove_char "/" pair))).
    destruct (String.eqb cleaned "BTC") eqn:E1; [reflexivity|].
    destruct (String.eqb cleaned "BTCUSD") eqn:E2; [reflexivity|].
    destruct (String.eqb cleaned "BTCUSDT") eqn:E3; [reflexivity|].
    rewrite (normalize_pair_cases cleaned).
    unfold cleaned at 1 2 3 4. rewrite (cleaned_fixed pair). fold cleaned.
    by rewrite E1, E2, E3.
  - intros _.
    rewrite (normalize_pair_cases (lower pair)), (normalize_pair_cases pair).
    by rewrite cleaned_lower.
Qed.

Lemma normalize_pair_idempotent_witness :
  KrakenClient.normalize_pair (lower "Btc/Usd")
  = KrakenClient.normalize_pair "Btc/Usd".
Proof.
  apply (proj2 (normalize_pair_idempotent "Btc/Usd")). reflexivity.
Defined.

(** ** parse_ohlc_data *)

(** X2. When [parse_ohlc_data] returns, its records are those of the
    rows of eight or more fields, one each, in the order of the rows;
    there are no more records than rows; and every record carries the
    source "kraken" and the timeframe and pair passed in. *)
Theorem parse_ohlc_data_order (rows : list value) (tf pair : string)
    (out : list KrakenClient.ohlc_record) :
  KrakenClient.parse_ohlc_data rows tf pair = Ok out ->
  Forall2 (fun row r =>
             KrakenClient.parse_ohlc_record row tf pair = Ok (Some r))
    (filter (fun row => kept row = true) rows) out
  /\ (length out <= length rows)%nat
  /\ Forall (fun r => KrakenClient.ohlc_data_source r = "kraken"
                      /\ KrakenClient.ohlc_time_frame r = tf
                      /\ KrakenClient.ohlc_pair r = pair) out.
Proof.
  revert out. induction rows as [|row rows IH]; intros out H.
  - injection H as <-. repeat split; constructor.
  - cbn [KrakenClient.parse_ohlc_data] in H.
    apply bind_ok in H as (r & Hr & H).
    apply bind_ok in H as (rest & Hrest & H). injection H as <-.
    destruct (IH rest Hrest) as (Hf & Hlen & Hall).
    rewrite filter_cons. destruct r as [d|].
    + destruct (kept row) eqn:Hk;
        [|by destruct (kept_short row tf pair Hk d)].
      rewrite decide_True by done. repeat split.
      * by constructor.
      * simpl. lia.
      * constructor; [|done].
        apply parse_ohlc_record_some in Hr
          as (n & ts & _ & _ & _ & _ & _ & _ & _ & _ & _ & _ & ? & ? & ?).
        done.
    + destruct (kept row) eqn:Hk;
        [by destruct (kept_long row tf pair Hk)|].
      rewrite decide_False by done. repeat split; [done | simpl; lia | done].
Qed.

Lemma parse_ohlc_data_order_witness :
  exists out,
    KrakenClient.parse_ohlc_data
      [VList [VInt 1]; scenario_ohlc_row; VStr "short"] "1h" "XBTUSD"
    = Ok out
    /\ Forall2 (fun row r =>
                  KrakenClient.parse_ohlc_record row "1h" "XBTUSD"
                  = Ok (Some r))
         (filter (fun row => kept row = true)
            [VList [VInt 1]; scenario_ohlc_row; VStr "short"]) out
    /\ length out = 1%nat.
Proof.
  eexists. split; [vm_compute; reflexivity|].
  split; [|reflexivity].
  eapply (proj1 (parse_ohlc_data_order _ "1h" "XBTUSD" _ _)).
  Unshelve. vm_compute. reflexivity.
Defined.

(** X3. One row of eight or more fields that does not coerce makes
    [parse_ohlc_data] raise that row's exception for the whole batch:
    the records of the good rows before and after it are not returned. *)
Theorem parse_ohlc_data_bad_row (before after : list value) (row : value)
    (tf pair : string) (e : exn) (good : list KrakenClient.ohlc_record) :
  KrakenClient.parse_ohlc_data before tf pair = Ok good ->
  KrakenClient.parse_ohlc_record row tf pair = Raise e ->
  KrakenClient.parse_ohlc_data (before ++ row :: after) tf pair = Raise e.
Proof.
  intros Hb Hr. rewrite parse_ohlc_data_app, Hb. simpl. by rewrite Hr.
Qed.

Lemma parse_ohlc_data_bad_row_witness :
  KrakenClient.parse_ohlc_data
    ([scenario_ohlc_row]
     ++ VList [VInt 1700003600; VStr "n/a"; VStr "110"; VStr "95";
               VStr "105"; VStr "102"; VStr "50"; VStr "20"]
     :: [scenario_ohlc_row]) "1h" "XBTUSD"
  = Raise ValueError.
Proof.
  eapply parse_ohlc_data_bad_row; vm_compute; reflexivity.
Defined.

(** ** parse_ticker_data *)

(** The steps of [parse_ticker_data] behind a record it returns. *)
Lemma parse_ticker_data_steps (td : gmap string value) (pair : string)
    (r : KrakenClient.ticker_record) :
  KrakenClient.parse_ticker_data td pair = Ok r ->
  let ask := default (VList [VInt 0; VInt 0; VInt 0]) (td !! "a") in
  let bid := default (VList [VInt 0; VInt 0; VInt 0]) (td !! "b") in
  let close := default (VList [VInt 0; VInt 0]) (td !! "c") in
  let volume := default (VList [VInt 0; VInt 0]) (td !! "v") in
  (if truthy close then py_getitem close 0 ≫= py_float else Ok 0%float)
  = Ok (KrakenClient.ticker_price r)
  /\ (if truthy ask then Some <$> (py_getitem ask 0 ≫= py_float)
      else Ok None) = Ok (KrakenClient.ticker_ask r)
  /\ (if truthy bid then Some <$> (py_getitem bid 0 ≫= py_float)
      else Ok None) = Ok (KrakenClient.ticker_bid r)
  /\ (exists vol,
        (n ← py_len volume;
         if 1 <? n then Some <$> (py_getitem volume 1 ≫= py_float)
         else Ok None) = Ok vol
        /\ match vol with
           | Some v =>
               if float_truthy v then Some <$> int_of_float v else Ok None
           | None => Ok None
           end = Ok (KrakenClient.ticker_volume_24h r))
  /\ KrakenClient.ticker_data_source r = "kraken"
  /\ KrakenClient.ticker_pair r = pair.
Proof.
  unfold KrakenClient.parse_ticker_data. intros H.
  apply bind_ok in H as (current_price & Hc & H).
  apply bind_ok in H as (ask_price & Ha & H).
  apply bind_ok in H as (bid_price & Hb & H).
  apply bind_ok in H as (volume_24h & Hv & H).
  apply bind_ok in H as (high_24h & _ & H).
  apply bind_ok in H as (low_24h & _ & H).
  apply bind_ok in H as (op & _ & H).
  apply bind_ok in H as (volume_int & Hvi & H).
  injection H as <-. simpl. repeat split; try done.
  by exists volume_24h.
Qed.

(** X4. In a record [parse_ticker_data] returns, a payload without "c"
    (or with an empty "c" list) gives price 0.0; a payload without "a"
    gives ask 0.0, while an empty "a" list gives ask null, and the same
    for "b" and bid; the source is "kraken" and the pair the one passed
    in. *)
Theorem parse_ticker_data_defaults (td : gmap string value) (pair : string)
    (r : KrakenClient.ticker_record) :
  KrakenClient.parse_ticker_data td pair = Ok r ->
  (td !! "c" = None \/ td !! "c" = Some (VList []) ->
   KrakenClient.ticker_price r = 0%float)
  /\ (td !! "a" = None -> KrakenClient.ticker_ask r = Some 0%float)
  /\ (td !! "a" = Some (VList []) -> KrakenClient.ticker_ask r = None)
  /\ (td !! "b" = None -> KrakenClient.ticker_bid r = Some 0%float)
  /\ (td !! "b" = Some (VList []) -> KrakenClient.ticker_bid r = None)
  /\ KrakenClient.ticker_data_source r = "kraken"
  /\ KrakenClient.ticker_pair r = pair.
Proof.
  intros H.
  destruct (parse_ticker_data_steps td pair r H)
    as (Hc & Ha & Hb & _ & Hs & Hp).
  assert (forall {A} (m : result A) (a b : A),
            m = Ok b -> (m = Ok a) -> b = a) as Hval by (intros; congruence).
  repeat split; try done.
  - intros [E|E]; rewrite E in Hc;
      (eapply Hval; [exact Hc | vm_compute; reflexivity]).
  - intros E. rewrite E in Ha.
    eapply Hval; [exact Ha | vm_compute; reflexivity].
  - intros E. rewrite E in Ha.
    eapply Hval; [exact Ha | vm_compute; reflexivity].
  - intros E. rewrite E in Hb.
    eapply Hval; [exact Hb | vm_compute; reflexivity].
  - intros E. rewrite E in Hb.
    eapply Hval; [exact Hb | vm_compute; reflexivity].
Qed.

Lemma parse_ticker_data_defaults_witness :
  exists r,
    KrakenClient.parse_ticker_data
      (<["a" := VList []]> (delete "b" scenario_ticker)) "XBTUSD" = Ok r
    /\ KrakenClient.ticker_ask r = None
    /\ KrakenClient.ticker_bid r = Some 0%float.
Proof.
  eexists. split; [vm_compute; reflexivity|].
  pose proof (parse_ticker_data_defaults
                (<["a" := VList []]> (delete "b" scenario_ticker)) "XBTUSD"
                _ eq_refl) as (_ & _ & Ha & Hb & _).
  split; [by apply Ha | by apply Hb].
Defined.

(** X5. The 24-hour volume is truncated toward zero: when the second
    element of the "v" list coerces to a float that is not zero, the
    record's volume_24h is [int] of that float. A volume of 0.5 is
    stored as 0, not as null. *)
Theorem parse_ticker_data_volume_truncated
    (td : gmap string value) (pair : string) (r : KrakenClient.ticker_record)
    (l : list value) (x : value) (f : float) :
  KrakenClient.parse_ticker_data td pair = Ok r ->
  default (VList [VInt 0; VInt 0]) (td !! "v") = VList l ->
  l !! 1%nat = Some x ->
  py_float x = Ok f ->
  float_truthy f = true ->
  exists n, int_of_float f = Ok n
            /\ KrakenClient.ticker_volume_24h r = Some n.
Proof.
  intros H Hv Hx Hf Ht.
  destruct (parse_ticker_data_steps td pair r H)
    as (_ & _ & _ & (vol & Hvol & Hint) & _).
  rewrite Hv in Hvol. simpl in Hvol.
  apply lookup_lt_Some in Hx as Hlen.
  destruct (Z.ltb_spec 1 (Z.of_nat (length l))); [|lia].
  change (Z.to_nat 1) with 1%nat in Hvol. rewrite Hx in Hvol.
  simpl in Hvol. rewrite Hf in Hvol. injection Hvol as <-.
  rewrite Ht in Hint. apply fmap_ok in Hint as (n & Hn & ->). eauto.
Qed.

Lemma parse_ticker_data_volume_truncated_witness :
  exists r n,
    KrakenClient.parse_ticker_data
      (<["v" := VList [VStr "0.2"; VStr "0.5"]]> scenario_ticker) "XBTUSD"
    = Ok r
    /\ int_of_float (float_of_decimal false 5 (-1)) = Ok n
    /\ n = 0
    /\ KrakenClient.ticker_volume_24h r = Some n.
Proof.
  eexists.
  assert (KrakenClient.parse_ticker_data
            (<["v" := VList [VStr "0.2"; VStr "0.5"]]> scenario_ticker)
            "XBTUSD" = Ok _) as H by (vm_compute; reflexivity).
  destruct (parse_ticker_data_volume_truncated _ _ _
              [VStr "0.2"; VStr "0.5"] (VStr "0.5")
              (float_of_decimal false 5 (-1)) H)
    as (n & Hn & Hv); try (vm_compute; reflexivity).
  exists n. split; [exact H|]. split; [exact Hn|]. split; [|exact Hv].
  vm_compute in Hn. congruence.
Defined.

(** X6. A first element of "c" that does not coerce to a float is not
    absorbed: [parse_ticker_data] raises the coercion's exception. *)
Theorem parse_ticker_data_bad_close
    (td : gmap string value) (pair : string) (close : value) (e : exn) :
  td !! "c" = Some close ->
  truthy close = true ->
  py_getitem close 0 ≫= py_float = Raise e ->
  KrakenClient.parse_ticker_data td pair = Raise e.
Proof.
  intros Hc Ht He. unfold KrakenClient.parse_ticker_data.
  rewrite Hc. simpl. by rewrite Ht, He.
Qed.

Lemma parse_ticker_data_bad_close_witness :
  KrakenClient.parse_ticker_data
    (<["c" := VList [VStr "n/a"; VStr "5"]]> scenario_ticker) "XBTUSD"
  = Raise ValueError.
Proof.
  apply (parse_ticker_data_bad_close _ _ (VList [VStr "n/a"; VStr "5"]));
    vm_compute; reflexivity.
Defined.

(** X7. In a record [parse_ticker_data] returns, a change percent is
    never given without the change: when change_percent_24h is p, then
    change_24h is some ch and p = ch / open * 100 for an open price above
    zero with ch = price - open; and when change_24h is null so is
    change_percent_24h. *)
Theorem parse_ticker_data_change_consistent
    (td : gmap string value) (pair : string)
    (r : KrakenClient.ticker_record) :
  KrakenClient.parse_ticker_data td pair = Ok r ->
  (forall p, KrakenClient.ticker_change_percent_24h r = Some p ->
     exists ch o,
       KrakenClient.ticker_change_24h r = Some ch
       /\ ch = (KrakenClient.ticker_price r - o)%float
       /\ (0 <? o)%float = true
       /\ p = (ch / o * 100)%float)
  /\ (KrakenClient.ticker_change_24h r = None ->
      KrakenClient.ticker_change_percent_24h r = None).
Proof.
  intros H.
  destruct (parse_ticker_data_change td pair r H) as (op & _ & Hch & Hp).
  rewrite Hch, Hp. destruct op as [o|]; simpl.
  - split; [|done]. intros p.
    destruct (0 <? o)%float eqn:E; [|done].
    intros [= <-]. by exists (KrakenClient.ticker_price r - o)%float, o.
  - split; [done|done].
Qed.

Lemma parse_ticker_data_change_consistent_witness :
  exists r,
    KrakenClient.parse_ticker_data scenario_ticker "XBTUSD" = Ok r
    /\ (forall p, KrakenClient.ticker_change_percent_24h r = Some p ->
          exists ch o,
            KrakenClient.ticker_change_24h r = Some ch
            /\ ch = (KrakenClient.ticker_price r - o)%float
            /\ (0 <? o)%float = true
            /\ p = (ch / o * 100)%float).
Proof.
  eexists. split; [vm_compute; reflexivity|].
  eapply (proj1 (parse_ticker_data_change_consistent scenario_ticker
                   "XBTUSD" _ _)).
  Unshelve. vm_compute. reflexivity.
Defined.

(** ** RedisCache *)

Lemma is_connected_healthy (d : gmap string (string * Z)) :
  RedisCache.is_connected (healthy_cache d) = (Ok true, healthy_cache d).
Proof. reflexivity. Qed.

Lemma get_healthy (json_loads : string -> result value)
    (d : gmap string (string * Z)) (key : string) :
  RedisCache.get json_loads key (healthy_cache d)
  = (Ok (match d !! key with
         | Some (s, _) => decoded json_loads s
         | None => VNone
         end), healthy_cache d).
Proof.
  unfold RedisCache.get, RedisCache.bind. rewrite is_connected_healthy.
  cbn [negb]. unfold RedisCache.try_except, RedisCache.bind,
    RedisCache.redis_get, RedisCache.command, healthy_cache. simpl.
  destruct (d !! key) as [[s ttl]|]; simpl; [|done].
  unfold decoded. destruct (String.eqb s ""); simpl; [done|].
  unfold RedisCache.try_except_decode, RedisCache.lift, RedisCache.ret.
  by destruct (json_loads s) as [v|[]].
Qed.

Lemma redis_setex_healthy (d : gmap string (string * Z)) (key s : string)
    (ttl : Z) :
  RedisCache.redis_setex key ttl s (healthy_cache d)
  = if 0 <? ttl then (Ok tt, healthy_cache (<[key := (s, ttl)]> d))
    else (Raise ResponseError, healthy_cache d).
Proof.
  unfold RedisCache.redis_setex, RedisCache.bind, RedisCache.command,
    healthy_cache. cbn. by destruct (0 <? ttl).
Qed.

Lemma set_healthy (json_dumps : value -> result string)
    (d : gmap string (string * Z)) (key : string) (v : value)
    (expiration : option Z) :
  RedisCache.set json_dumps key v expiration (healthy_cache d)
  = match (match v with VStr s => Ok s | _ => json_dumps v end) with
    | Ok s =>
        if 0 <? effective_expiration expiration
        then (Ok true,
              healthy_cache
                (<[key := (s, effective_expiration expiration)]> d))
        else (Ok false, healthy_cache d)
    | Raise _ => (Ok false, healthy_cache d)
    end.
Proof.
  unfold RedisCache.set, RedisCache.bind. rewrite is_connected_healthy.
  cbn [negb]. unfold RedisCache.try_except, RedisCache.bind.
  change (match expiration with
          | Some e => if e =? 0 then RedisCache.DEFAULT_EXPIRATION else e
          | None => RedisCache.DEFAULT_EXPIRATION
          end) with (effective_expiration expiration).
  assert (Hser : (match v with
                  | VStr s => RedisCache.ret s
                  | _ => RedisCache.lift (json_dumps v)
                  end) (healthy_cache d)
                 = (match v with VStr s => Ok s | _ => json_dumps v end,
                    healthy_cache d)) by by destruct v.
  rewrite Hser.
  destruct (match v with VStr s => Ok s | _ => json_dumps v end) as [s|e];
    [|done].
  rewrite redis_setex_healthy.
  by destruct (0 <? effective_expiration expiration).
Qed.

(** X8. On a connected cache with a healthy server, [set] of a value
    that is not a string stores its JSON text under the key, with the
    expiration given or 3600 seconds when none (or 0) is given, and
    returns True, provided that expiration is positive; a [get] of the
    key then returns the value back, provided [json.loads] inverts
    [json.dumps] on it and the text is not empty. With a negative
    expiration the server refuses the command: nothing is stored and
    [set] returns False. A value [json.dumps] cannot serialize is not
    stored, and [set] returns False. *)
Theorem cache_set_get_roundtrip
    (json_loads : string -> result value)
    (json_dumps : value -> result string)
    (d : gmap string (string * Z)) (key : string) (v : value)
    (expiration : option Z) :
  (forall s, v <> VStr s) ->
  (forall s, json_dumps v = Ok s -> 0 < effective_expiration expiration ->
     RedisCache.set json_dumps key v expiration (healthy_cache d)
     = (Ok true,
        healthy_cache (<[key := (s, effective_expiration expiration)]> d))
     /\ (s <> "" -> json_loads s = Ok v ->
         (RedisCache.get json_loads key
            (healthy_cache
               (<[key := (s, effective_expiration expiration)]> d))).1
         = Ok v))
  /\ (forall s, json_dumps v = Ok s -> effective_expiration expiration <= 0 ->
        RedisCache.set json_dumps key v expiration (healthy_cache d)
        = (Ok false, healthy_cache d))
  /\ (forall e, json_dumps v = Raise e ->
        RedisCache.set json_dumps key v expiration (healthy_cache d)
        = (Ok false, healthy_cache d)).
Proof.
  intros Hv.
  assert (Hser : (match v with VStr s => Ok s | _ => json_dumps v end)
                 = json_dumps v)
    by (destruct v; try done; by destruct (Hv s)).
  split; [|split].
  - intros s Hs Hpos. split.
    + rewrite set_healthy, Hser, Hs.
      by destruct (Z.ltb_spec 0 (effective_expiration expiration)); [|lia].
    + intros Hne Hl. rewrite get_healthy, lookup_insert_eq. simpl.
      unfold decoded. destruct (String.eqb_spec s ""); [done|].
      by rewrite Hl.
  - intros s Hs Hneg. rewrite set_healthy, Hser, Hs.
    by destruct (Z.ltb_spec 0 (effective_expiration expiration)); [lia|].
  - intros e He. by rewrite set_healthy, Hser, He.
Qed.

Lemma cache_set_get_roundtrip_witness :
  let loads s := if String.eqb s "[1]" then Ok (VList [VInt 1])
                 else Raise ValueError in
  let dumps (v : value) := Ok "[1]" in
  RedisCache.set dumps "k" (VList [VInt 1]) None (healthy_cache ∅)
  = (Ok true, healthy_cache {[ "k" := ("[1]", 3600) ]})
  /\ (RedisCache.get loads "k" (healthy_cache {[ "k" := ("[1]", 3600) ]})).1
     = Ok (VList [VInt 1]).
Proof.
  intros loads dumps.
  destruct (cache_set_get_roundtrip loads dumps ∅ "k" (VList [VInt 1]) None)
    as [H _]; [done|].
  destruct (H "[1]" eq_refl eq_refl) as [H1 H2].
  split; [exact H1 | by apply H2].
Defined.

(** X9. A string is stored as it is, provided the expiration is positive
    (with a negative one the server refuses the command, nothing is
    stored and [set] returns False), and [get] decodes what it finds: a
    stored string that is valid JSON comes back as the value it spells
    (not as the string), one that is not valid JSON comes back as the
    string, and the empty string comes back as None. *)
Theorem cache_set_get_string
    (json_loads : string -> result value)
    (json_dumps : value -> result string)
    (d : gmap string (string * Z)) (key s : string)
    (expiration : option Z) :
  let c' := healthy_cache (<[key := (s, effective_expiration expiration)]> d) in
  (0 < effective_expiration expiration ->
   RedisCache.set json_dumps key (VStr s) expiration (healthy_cache d)
   = (Ok true, c'))
  /\ (effective_expiration expiration <= 0 ->
      RedisCache.set json_dumps key (VStr s) expiration (healthy_cache d)
      = (Ok false, healthy_cache d))
  /\ (RedisCache.get json_loads key c').1 = Ok (decoded json_loads s)
  /\ (s = "" -> (RedisCache.get json_loads key c').1 = Ok VNone)
  /\ (forall v, s <> "" -> json_loads s = Ok v ->
        (RedisCache.get json_loads key c').1 = Ok v)
  /\ (s <> "" -> json_loads s = Raise ValueError ->
        (RedisCache.get json_loads key c').1 = Ok (VStr s)).
Proof.
  intros c'.
  split; [|split].
  { intros Hpos. rewrite set_healthy.
    by destruct (Z.ltb_spec 0 (effective_expiration expiration)); [|lia]. }
  { intros Hneg. rewrite set_healthy.
    by destruct (Z.ltb_spec 0 (effective_expiration expiration)); [lia|]. }
  assert ((RedisCache.get json_loads key c').1 = Ok (decoded json_loads s))
    as Hg by (unfold c'; by rewrite get_healthy, lookup_insert_eq).
  split; [exact Hg|]. rewrite Hg. unfold decoded. repeat split.
  - by intros ->.
  - intros v Hne Hl. destruct (String.eqb_spec s ""); [done|]. by rewrite Hl.
  - intros Hne Hl. destruct (String.eqb_spec s ""); [done|]. by rewrite Hl.
Qed.

Lemma cache_set_get_string_witness :
  RedisCache.set (fun _ => Raise TypeError) "k" (VStr "[1]") (Some 60)
    (healthy_cache ∅)
  = (Ok true, healthy_cache {[ "k" := ("[1]", 60) ]}).
Proof.
  apply (cache_set_get_string (fun _ => Raise ValueError)
           (fun _ => Raise TypeError) ∅ "k" "[1]" (Some 60)).
  reflexivity.
Defined.

(** The serialization step of [set]. *)
Lemma set_serialize (json_dumps : value -> result string) (v : value)
    (c : RedisCache.cache) :
  (match v with
   | VStr s => RedisCache.ret s
   | _ => RedisCache.lift (json_dumps v)
   end) c
  = (match v with VStr s => Ok s | _ => json_dumps v end, c).
Proof. by destruct v. Qed.

(** X10. [set] answers True only when it wrote the key: in every state
    of the cache and of the server it returns a boolean, and when that is
    True the expiration is positive and the server holds the serialized
    value under the key with that expiration. When it is False the
    server's keys are as they were, with one exception: the command was
    carried out and its reply was lost, and then the server holds the key
    although [set] answered False. With no lost reply among the faults
    to come, False means that nothing was written. *)
Theorem cache_set_true_only_if_written
    (json_dumps : value -> result string)
    (c : RedisCache.cache) (key : string) (v : value)
    (expiration : option Z) :
  let written c' :=
    exists s d,
      (match v with VStr x => Ok x | _ => json_dumps v end) = Ok s
      /\ 0 < effective_expiration expiration
      /\ server_db c = Some d
      /\ server_db c'
         = Some (<[key := (s, effective_expiration expiration)]> d) in
  exists (b : bool) (c' : RedisCache.cache),
    RedisCache.set json_dumps key v expiration c = (Ok b, c')
    /\ (b = true -> written c')
    /\ (b = false -> server_db c' = server_db c \/ written c')
    /\ (b = false ->
        (forall srv, RedisCache.client c = Some srv ->
                     RedisCache.ReplyLost ∉ RedisCache.faults srv) ->
        server_db c' = server_db c).
Proof.
  intros written. unfold written.
  unfold RedisCache.set, RedisCache.bind, RedisCache.is_connected.
  change (match expiration with
          | Some e => if e =? 0 then RedisCache.DEFAULT_EXPIRATION else e
          | None => RedisCache.DEFAULT_EXPIRATION
          end) with (effective_expiration expiration).
  set (ttl := effective_expiration expiration).
  destruct c as [[[fs d]|]]; cbn [RedisCache.client];
    [|eexists false, _; split; [reflexivity|];
      split; [done|]; split; [by left|done]].
  unfold RedisCache.try_except, RedisCache.bind, RedisCache.ping,
    RedisCache.command.
  cbn [RedisCache.client RedisCache.faults RedisCache.db].
  destruct fs as [|[] fs]; cbn [negb tail];
    try (eexists false, _; split; [reflexivity|];
         split; [done|]; split; [by left|done]).
  - (* the ping is answered and no fault is ahead *)
    unfold RedisCache.ret at 1. cbn [negb]. rewrite set_serialize.
    unfold RedisCache.redis_setex, RedisCache.bind, RedisCache.command,
      RedisCache.ret, RedisCache.lift.
    destruct (match v with VStr x => Ok x | _ => json_dumps v end)
      as [s|e]; cbn [RedisCache.client RedisCache.faults RedisCache.db];
      [|eexists false, _; split; [reflexivity|];
        split; [done|]; split; [by left|done]].
    destruct (Z.ltb_spec 0 ttl) as [Hpos|Hneg]; cbn [tail].
    + eexists true, _. split; [reflexivity|].
      split; [intros _; by exists s, d|]. split; done.
    + eexists false, _. split; [reflexivity|].
      split; [done|]. split; [by left|done].
  - (* the ping is answered; the fate of the SETEX is [fs] *)
    unfold RedisCache.ret at 1. cbn [negb]. rewrite set_serialize.
    unfold RedisCache.redis_setex, RedisCache.bind, RedisCache.command,
      RedisCache.ret, RedisCache.lift.
    destruct (match v with VStr x => Ok x | _ => json_dumps v end)
      as [s|e]; cbn [RedisCache.client RedisCache.faults RedisCache.db];
      [|eexists false, _; split; [reflexivity|];
        split; [done|]; split; [by left|done]].
    destruct fs as [|[] fs]; cbn [tail];
      destruct (Z.ltb_spec 0 ttl) as [Hpos|Hneg];
      try (eexists true, _; split; [reflexivity|];
           split; [intros _; by exists s, d|]; split; done);
      try (eexists false, _; split; [reflexivity|];
           split; [done|]; split; [by left|done]).
    (* the SETEX is carried out and its reply is lost *)
    eexists false, _. split; [reflexivity|]. split; [done|]. split.
    + intros _. right. by exists s, d.
    + intros _ Hno. destruct (Hno _ eq_refl).
      cbn [RedisCache.faults]. apply list_elem_of_further, list_elem_of_here.
Qed.

Lemma delete_healthy (d : gmap string (string * Z)) (key : string) :
  RedisCache.delete key (healthy_cache d)
  = (Ok true, healthy_cache (delete key d)).
Proof. reflexivity. Qed.

(** X11. On a connected cache with a healthy server, [delete] returns
    True whether or not the key exists; afterwards [get] of that key
    returns None, and every other key reads as before. *)
Theorem cache_delete_then_get
    (json_loads : string -> result value)
    (d : gmap string (string * Z)) (key : string) :
  let c' := healthy_cache (delete key d) in
  RedisCache.delete key (healthy_cache d) = (Ok true, c')
  /\ RedisCache.get json_loads key c' = (Ok VNone, c')
  /\ forall other, other <> key ->
       (RedisCache.get json_loads other c').1
       = (RedisCache.get json_loads other (healthy_cache d)).1.
Proof.
  intros c'. split; [apply delete_healthy|]. unfold c'. split.
  - by rewrite get_healthy, lookup_delete_eq.
  - intros other Hne. by rewrite !get_healthy, lookup_delete_ne.
Qed.

Lemma lookup_foldr_delete (d : gmap string (string * Z)) (ks : list string)
    (k : string) :
  foldr delete d ks !! k = if decide (k ∈ ks) then None else d !! k.
Proof.
  induction ks as [|x ks IH]; cbn [foldr].
  - case_decide as H; [by apply elem_of_nil in H | done].
  - destruct (decide (x = k)) as [->|Hne].
    + rewrite lookup_delete_eq.
      destruct (decide (k ∈ k :: ks)) as [_|Hn]; [done|].
      destruct Hn. apply list_elem_of_here.
    + rewrite lookup_delete_ne, IH by done.
      destruct (decide (k ∈ ks)) as [Hin|Hin],
        (decide (k ∈ x :: ks)) as [Hin'|Hin']; try done.
      * destruct Hin'. by apply list_elem_of_further.
      * apply elem_of_cons in Hin' as [->|?]; done.
Qed.

(** X12. On a connected cache with a healthy server, [clear_pattern]
    deletes exactly the keys that match the pattern, returns how many
    they were, and leaves every other key as it was. *)
Theorem cache_clear_pattern
    (glob_match : string -> string -> bool)
    (d : gmap string (string * Z)) (pattern : string) :
  exists d',
    RedisCache.clear_pattern glob_match pattern (healthy_cache d)
    = (Ok (Z.of_nat
             (size (filter (fun kv => glob_match pattern kv.1 = true) d))),
       healthy_cache d')
    /\ forall k, d' !! k = if glob_match pattern k then None else d !! k.
Proof.
  set (keys := filter (fun k => glob_match pattern k = true)
                 (map fst (map_to_list d))).
  assert (forall k, k ∈ keys <-> glob_match pattern k = true
                                  /\ is_Some (d !! k)) as Hkeys.
  { intros k. unfold keys. rewrite list_elem_of_filter.
    change (map fst (map_to_list d)) with ((map_to_list d).*1).
    rewrite list_elem_of_fmap. split.
    - intros [Hm ([k' x] & -> & Hin)]. split; [done|].
      apply elem_of_map_to_list in Hin. by exists x.
    - intros [Hm [x Hx]]. split; [done|]. exists (k, x).
      split; [done|]. by apply elem_of_map_to_list. }
  assert (length keys
          = size (filter (fun kv : string * (string * Z) =>
                            glob_match pattern kv.1 = true) d)) as Hlen.
  { rewrite <- length_map_to_list.
    rewrite <- (length_fmap fst (map_to_list (filter _ d))).
    apply Permutation_length, NoDup_Permutation.
    - unfold keys. apply NoDup_filter.
      change (map fst (map_to_list d)) with ((map_to_list d).*1).
      apply NoDup_fst_map_to_list.
    - apply NoDup_fst_map_to_list.
    - intros k. rewrite Hkeys, list_elem_of_fmap. split.
      + intros [Hm [x Hx]]. exists (k, x). split; [done|].
        apply elem_of_map_to_list, map_lookup_filter_Some. by split.
      + intros ([k' x] & -> & Hin).
        apply elem_of_map_to_list, map_lookup_filter_Some in Hin
          as [Hx Hm]. split; [done | by exists x]. }
  exists (foldr delete d keys). split.
  - unfold RedisCache.clear_pattern, RedisCache.bind.
    rewrite is_connected_healthy. cbn [negb].
    unfold RedisCache.try_except, RedisCache.bind, RedisCache.redis_keys,
      RedisCache.command, healthy_cache. simpl. fold keys.
    rewrite <- Hlen.
    destruct keys as [|k0 ks] eqn:Ek; [reflexivity|].
    unfold RedisCache.redis_delete, RedisCache.command. simpl.
    do 3 f_equal.
    assert (forall k, k ∈ k0 :: ks -> is_Some (d !! k)) as Hall
      by (intros k Hk; by apply Hkeys in Hk as [_ ?]).
    clear -Hall. change (S (length ks)) with (length (k0 :: ks)).
    generalize dependent (k0 :: ks). intros l Hall.
    induction l as [|x l IH]; [done|].
    rewrite filter_cons.
    destruct (decide (is_Some (d !! x))) as [_|Hx];
      [|destruct Hx; apply Hall, list_elem_of_here].
    simpl. f_equal. apply IH. intros k Hk. by apply Hall, list_elem_of_further.
  - intros k. rewrite lookup_foldr_delete.
    destruct (glob_match pattern k) eqn:Hm.
    + destruct (d !! k) eqn:Hk.
      * destruct (decide (k ∈ keys)) as [_|Hin]; [done|].
        destruct Hin. apply Hkeys. eauto.
      * by destruct (decide (k ∈ keys)).
    + destruct (decide (k ∈ keys)) as [Hin|_]; [|done].
      apply Hkeys in Hin as [? _]. congruence.
Qed.

(** X13. On a connected cache with a healthy server, [set_kraken_pairs]
    of a dictionary without the keys "active_pairs" and "total_pairs"
    (the shape main.py caches) stores its JSON text under the pairs key
    and the current time under the timestamp key, and returns True; a
    following [get_kraken_pairs] returns the dictionary, provided
    [json.loads] inverts [json.dumps] on it and the dictionary is not
    empty. The expiration is positive: the server refuses any other for
    the timestamp key. *)
Theorem cache_kraken_pairs_roundtrip
    (json_loads : string -> result value)
    (json_dumps redis_encode : value -> result string)
    (utcnow_isoformat : string)
    (d : gmap string (string * Z)) (fields : list (string * value))
    (s : string) (ttl : Z) :
  0 < ttl ->
  KrakenClient.assoc "active_pairs" fields = None ->
  KrakenClient.assoc "total_pairs" fields = None ->
  json_dumps (VDict fields) = Ok s ->
  let c' :=
    healthy_cache
      (<[RedisCache.KRAKEN_PAIRS_TIMESTAMP_KEY := (utcnow_isoformat, ttl)]>
         (<[RedisCache.KRAKEN_PAIRS_KEY
              := (s, effective_expiration (Some ttl))]> d)) in
  RedisCache.set_kraken_pairs json_dumps redis_encode utcnow_isoformat
    (VDict fields) ttl (healthy_cache d) = (Ok true, c')
  /\ (s <> "" -> fields <> [] -> json_loads s = Ok (VDict fields) ->
      RedisCache.get_kraken_pairs json_loads c' = (Ok (VDict fields), c')).
Proof.
  intros Hpos Ha Ht Hs c'.
  assert (Heff : effective_expiration (Some ttl) = ttl).
  { unfold effective_expiration. by destruct (Z.eqb_spec ttl 0); [lia|]. }
  assert (Hlt : (0 <? ttl) = true) by by apply Z.ltb_lt.
  split.
  - unfold RedisCache.set_kraken_pairs, RedisCache.bind.
    rewrite is_connected_healthy. cbn [negb].
    unfold RedisCache.try_except. cbv beta.
    rewrite set_healthy, Hs, Heff, Hlt.
    unfold RedisCache.setex_field. rewrite Ha, Ht.
    unfold RedisCache.ret. rewrite redis_setex_healthy, Hlt.
    unfold c'. by rewrite Heff.
  - intros Hne Hf Hl.
    unfold RedisCache.get_kraken_pairs, RedisCache.bind.
    unfold c'. rewrite is_connected_healthy. cbn [negb].
    unfold RedisCache.try_except. cbv beta.
    rewrite get_healthy, lookup_insert_ne by done.
    rewrite lookup_insert_eq. unfold decoded.
    destruct (String.eqb_spec s ""); [done|]. rewrite Hl.
    by destruct fields.
Qed.

Lemma cache_kraken_pairs_roundtrip_witness :
  let payload := [("pairs", VDict []); ("timestamp", VStr "t")] in
  let loads s := if String.eqb s "J" then Ok (VDict payload)
                 else Raise ValueError in
  let dumps (v : value) := Ok "J" in
  let c' := healthy_cache
              (<[RedisCache.KRAKEN_PAIRS_TIMESTAMP_KEY := ("now", 3600)]>
                 (<[RedisCache.KRAKEN_PAIRS_KEY := ("J", 3600)]> ∅)) in
  RedisCache.set_kraken_pairs dumps dumps "now" (VDict payload) 3600
    (healthy_cache ∅) = (Ok true, c')
  /\ RedisCache.get_kraken_pairs loads c' = (Ok (VDict payload), c').
Proof.
  intros payload loads dumps c'.
  destruct (cache_kraken_pairs_roundtrip loads dumps dumps "now" ∅ payload
              "J" 3600 eq_refl eq_refl eq_refl eq_refl) as [H1 H2].
  split; [exact H1 | by apply H2].
Defined.

(** ** GET /kraken/pairs *)

Lemma filter_status_lookup (pairs : gmap string Main.pair_info)
    (status : option string) (name : string) (info : Main.pair_info) :
  Main.filter_status status pairs !! name = Some info <->
  pairs !! name = Some info
  /\ (status = None \/ status = Some "" \/ status = Some "all"
      \/ Main.status info = status).
Proof.
  unfold Main.filter_status. destruct status as [s|]; [|tauto].
  destruct (String.eqb_spec s "") as [->|Hne]; cbn [negb andb];
    [tauto|].
  destruct (String.eqb_spec s "all") as [->|Hna]; cbn [negb];
    [tauto|].
  rewrite map_lookup_filter_Some. cbn [snd]. unfold Main.status_is.
  split.
  - intros [Hl Hs]. split; [done|]. do 3 right.
    destruct (Main.status info) as [s'|]; [|done].
    by apply String.eqb_eq in Hs as ->.
  - intros [Hl [H|[H|[H|H]]]]; try congruence. split; [done|].
    rewrite H. apply String.eqb_refl.
Qed.

Lemma filter_search_subseteq (search : option string)
    (m : gmap string Main.pair_info) :
  Main.filter_search search m ⊆ m.
Proof.
  unfold Main.filter_search. destruct search as [s|]; [|done].
  destruct (negb (String.eqb s "")); [apply map_filter_subseteq | done].
Qed.

Lemma filter_status_subseteq (status : option string)
    (m : gmap string Main.pair_info) :
  Main.filter_status status m ⊆ m.
Proof.
  unfold Main.filter_status. destruct status as [s|]; [|done].
  destruct (_ && _); [apply map_filter_subseteq | done].
Qed.

(** X14. The status filter keeps every entry for status None, "" or
    "all" and otherwise exactly the entries whose status equals the
    filter. In the answer, total_pairs counts the whole catalog,
    active_pairs counts its online entries whatever the filters, offset
    and limit are, and filtered_pairs never exceeds total_pairs; with
    status "online" and no search, filtered_pairs equals active_pairs. *)
Theorem get_kraken_pairs_status_counts
    (pairs : gmap string Main.pair_info) (from_cache : bool)
    (limit offset : Z) (status search : option string) :
  let r := Main.get_kraken_pairs pairs from_cache limit offset status search in
  (forall name info,
     Main.filter_status status pairs !! name = Some info <->
     pairs !! name = Some info
     /\ (status = None \/ status = Some "" \/ status = Some "all"
         \/ Main.status info = status))
  /\ Main.total_pairs r = Z.of_nat (size pairs)
  /\ Main.active_pairs r
     = Main.filtered_pairs
         (Main.get_kraken_pairs pairs from_cache 1 0 (Some "online") None)
  /\ Main.filtered_pairs r <= Main.total_pairs r
  /\ Main.pg_total (Main.page r) = Main.filtered_pairs r.
Proof.
  intros r. split; [apply filter_status_lookup|].
  split; [done|]. split; [done|]. split; [|done].
  unfold r, Main.get_kraken_pairs. simpl. apply inj_le.
  apply map_subseteq_size. etrans; [apply filter_search_subseteq|].
  apply filter_status_subseteq.
Qed.

(** X15. Pages compose: for an offset N >= 0 and limits M, M' >= 1 the
    page at N of M entries followed by the page at N + M of M' entries is
    the page at N of M + M' entries. A page never holds more than
    [limit] entries; when [has_more] is true the page is full, and when
    it is false the page runs to the end of the sorted keys. *)
Theorem get_kraken_pairs_pages_compose
    (pairs : gmap string Main.pair_info) (from_cache : bool)
    (status search : option string) (N M M' : Z) :
  0 <= N -> 1 <= M -> 1 <= M' ->
  let page n m := Main.get_kraken_pairs pairs from_cache m n status search in
  let keys :=
    Main.sorted_keys
      (Main.filter_search search (Main.filter_status status pairs)) in
  (Main.pairs (page N M) ++ Main.pairs (page (N + M) M'))%list
  = Main.pairs (page N (M + M'))
  /\ Main.pg_returned (Main.page (page N M)) <= M
  /\ (Main.has_more (Main.page (page N M)) = true ->
      Main.pg_returned (Main.page (page N M)) = M)
  /\ (Main.has_more (Main.page (page N M)) = false ->
      Main.pairs (page N M) = drop (Z.to_nat N) keys).
Proof.
  intros HN HM HM' page keys.
  assert (forall n m, 0 <= n -> 0 <= m ->
            Main.pairs (page n m) = take (Z.to_nat m) (drop (Z.to_nat n) keys))
    as Hp.
  { intros n m Hn Hm. unfold page, Main.get_kraken_pairs. simpl.
    by apply slice_nonneg. }
  assert (length keys
          = size (Main.filter_search search (Main.filter_status status pairs)))
    as Hlen by apply sorted_keys_length.
  split; [|split; [|split]].
  - rewrite !Hp by lia.
    rewrite Z2Nat.inj_add by lia. rewrite <- drop_drop.
    rewrite take_take_drop. f_equal. lia.
  - change (Main.pg_returned (Main.page (page N M)))
      with (Z.of_nat (length (Main.pairs (page N M)))).
    rewrite Hp, length_take by lia. lia.
  - change (Main.pg_returned (Main.page (page N M)))
      with (Z.of_nat (length (Main.pairs (page N M)))).
    change (Main.has_more (Main.page (page N M)))
      with (N + M <? Z.of_nat (size (Main.filter_search search
                                       (Main.filter_status status pairs)))).
    rewrite <- Hlen. intros Hm. apply Z.ltb_lt in Hm.
    rewrite Hp, length_take, length_drop by lia. lia.
  - change (Main.has_more (Main.page (page N M)))
      with (N + M <? Z.of_nat (size (Main.filter_search search
                                       (Main.filter_status status pairs)))).
    rewrite <- Hlen. intros Hm. apply Z.ltb_ge in Hm.
    rewrite Hp by lia. apply take_ge. rewrite length_drop. lia.
Qed.

Lemma get_kraken_pairs_pages_compose_witness :
  let pairs : gmap string Main.pair_info :=
    list_to_map
      [("XBTUSD", {| Main.wsname := None; Main.altname := None;
                     Main.base := None; Main.quote := None;
                     Main.status := Some "online" |});
       ("ETHUSD", {| Main.wsname := None; Main.altname := None;
                     Main.base := None; Main.quote := None;
                     Main.status := Some "online" |});
       ("ADAUSD", {| Main.wsname := None; Main.altname := None;
                     Main.base := None; Main.quote := None;
                     Main.status := Some "online" |})] in
  let page n m := Main.get_kraken_pairs pairs false m n None None in
  Main.pairs (page 0 1) = ["ADAUSD"]
  /\ Main.pairs (page 1 2) = ["ETHUSD"; "XBTUSD"]
  /\ (Main.pairs (page 0 1) ++ Main.pairs (page (0 + 1) 2))%list
     = Main.pairs (page 0 (1 + 2)).
Proof.
  intros pairs page.
  split; [vm_compute; reflexivity|]. split; [vm_compute; reflexivity|].
  apply (get_kraken_pairs_pages_compose pairs false None None 0 1 2); lia.
Defined.

Lemma or_else_nonempty (a : option string) (b : string) :
  b <> "" -> Main.or_else a b <> "".
Proof.
  intros Hb. unfold Main.or_else. destruct a as [s|]; [|done].
  by destruct (String.eqb_spec s "").
Qed.

(** X16. Every code listed in [pairs] is a key of the filtered catalog,
    and [pairs_detail] holds at the same position the detail built from
    that key's entry: the display name is the wsname if it is present and
    not empty, else the altname if present and not empty, else the code
    itself, so it is never empty for a non-empty code. *)
Theorem get_kraken_pairs_detail
    (pairs : gmap string Main.pair_info) (from_cache : bool)
    (limit offset : Z) (status search : option string)
    (i : nat) (name : string) :
  let r := Main.get_kraken_pairs pairs from_cache limit offset status search in
  Main.pairs r !! i = Some name ->
  exists info,
    Main.filter_search search (Main.filter_status status pairs) !! name
    = Some info
    /\ pairs !! name = Some info
    /\ Main.pairs_detail r !! i
       = Some {| Main.pd_pair := name;
                 Main.pd_name :=
                   Main.or_else (Main.wsname info)
                     (Main.or_else (Main.altname info) name);
                 Main.pd_altname := default name (Main.altname info);
                 Main.pd_base := default "" (Main.base info);
                 Main.pd_quote := default "" (Main.quote info);
                 Main.pd_status := default "unknown" (Main.status info) |}
    /\ (name <> "" ->
        Main.or_else (Main.wsname info)
          (Main.or_else (Main.altname info) name) <> "").
Proof.
  intros r Hi.
  set (filtered := Main.filter_search search (Main.filter_status status pairs)).
  assert (name ∈ Main.sorted_keys filtered) as Hin.
  { unfold r, Main.get_kraken_pairs in Hi. simpl in Hi. unfold slice in Hi.
    apply list_elem_of_lookup_2 in Hi.
    by apply subseteq_take, subseteq_drop in Hi. }
  apply sorted_keys_elem in Hin as [info Hinfo]. exists info.
  split; [done|]. split.
  - eapply lookup_weaken; [exact Hinfo|].
    etrans; [apply filter_search_subseteq | apply filter_status_subseteq].
  - split.
    + change (Main.pairs_detail r)
        with (Main.pair_detail filtered <$> Main.pairs r).
      rewrite list_lookup_fmap, Hi. simpl. unfold Main.pair_detail.
      by rewrite Hinfo.
    + intros Hne. by apply or_else_nonempty, or_else_nonempty.
Qed.

Lemma get_kraken_pairs_detail_witness :
  let pairs : gmap string Main.pair_info :=
    {[ "XDGUSD" := {| Main.wsname := Some ""; Main.altname := Some "XDGUSD";
                      Main.base := None; Main.quote := None;
                      Main.status := None |} ]} in
  let r := Main.get_kraken_pairs pairs false 10 0 (Some "all") None in
  exists info,
    pairs !! "XDGUSD" = Some info
    /\ Main.pd_name <$> Main.pairs_detail r !! 0%nat = Some "XDGUSD"
    /\ Main.pd_status <$> Main.pairs_detail r !! 0%nat = Some "unknown".
Proof.
  intros pairs r.
  destruct (get_kraken_pairs_detail pairs false 10 0 (Some "all") None
              0 "XDGUSD" ltac:(vm_compute; reflexivity))
    as (info & _ & Hl & Hd & _).
  exists info. split; [exact Hl|].
  fold r in Hd. rewrite Hd. simpl.
  assert (info = {| Main.wsname := Some ""; Main.altname := Some "XDGUSD";
                    Main.base := None; Main.quote := None;
                    Main.status := None |}) as ->
    by (unfold pairs in Hl; rewrite lookup_singleton_eq in Hl; congruence).
  split; reflexivity.
Defined.

(** ** POST /kraken/fetch-ohlc *)

Lemma parse_ohlc_data_length (rows : list value) (tf pair : string)
    (out : list KrakenClient.ohlc_record) :
  KrakenClient.parse_ohlc_data rows tf pair = Ok out ->
  (length out <= length rows)%nat.
Proof.
  revert out. induction rows as [|row rows IH]; intros out H.
  - by injection H as <-.
  - cbn [KrakenClient.parse_ohlc_data] in H.
    apply bind_ok in H as (r & _ & H).
    apply bind_ok in H as (rest & Hrest & H). injection H as <-.
    specialize (IH rest Hrest). destruct r; simpl; lia.
Qed.

Lemma slice_from_last {A} (rows : list A) (l : Z) :
  1 <= l -> slice_from rows (- l) = last_rows l rows.
Proof.
  intros Hl. unfold slice_from, slice_bound, last_rows.
  destruct (Z.ltb_spec (- l) 0); [|lia]. f_equal. lia.
Qed.

(** X17. A [limit] of l >= 1 makes [fetch_kraken_ohlc] behave exactly
    as without limit on the last l rows Kraken returned: the cut is made
    on the raw rows, before parsing. The answer then reports at most l
    fetched records. *)
Theorem fetch_kraken_ohlc_limit
    (st : DatabaseClient.store)
    (get_ohlc : string -> Z -> result (list value))
    (pair timeframe : string) (l : Z) :
  1 <= l ->
  Main.fetch_kraken_ohlc st get_ohlc pair timeframe (Some l)
  = Main.fetch_kraken_ohlc st
      (fun p i => last_rows l <$> get_ohlc p i) pair timeframe None
  /\ forall resp st',
       Main.fetch_kraken_ohlc st get_ohlc pair timeframe (Some l)
       = (Ok resp, st') ->
       Main.records_fetched resp <= l.
Proof.
  intros Hl.
  assert (forall rows : list value,
            rows <> [] -> last_rows l rows <> []) as Hne.
  { intros rows Hr Hd. apply (f_equal length) in Hd.
    unfold last_rows in Hd. rewrite length_drop in Hd. simpl in Hd.
    destruct rows; [done|]. simpl in Hd. lia. }
  split.
  - unfold Main.fetch_kraken_ohlc.
    destruct (get_ohlc _ _) as [[|row rows]|e]; simpl; try done.
    destruct (Z.eqb_spec l 0); [lia|].
    rewrite slice_from_last by done.
    destruct (last_rows l (row :: rows)) as [|row' rows'] eqn:E; [|done].
    by destruct (Hne (row :: rows)).
  - intros resp st'. unfold Main.fetch_kraken_ohlc.
    destruct (get_ohlc _ _) as [[|row rows]|e]; try discriminate.
    destruct (Z.eqb_spec l 0); [lia|].
    rewrite slice_from_last by done.
    destruct (KrakenClient.parse_ohlc_data _ _ _) as [parsed|e] eqn:Hp;
      [|discriminate].
    apply parse_ohlc_data_length in Hp.
    unfold last_rows in Hp. rewrite length_drop in Hp.
    destruct (TradingBotDatabase.get_symbol_by_name st _) as [info|].
    + destruct (Main.insert_loop _ _ _ _) as [cnt st2].
      intros [= <- <-]. simpl. lia.
    + destruct (TradingBotDatabase.create_symbol st _) as [[ok st1]|e];
        [|discriminate].
      destruct (TradingBotDatabase.get_symbol_by_name st1 _) as [info|];
        [|discriminate].
      destruct (Main.insert_loop _ _ _ _) as [cnt st2].
      intros [= <- <-]. simpl. lia.
Qed.

Lemma fetch_kraken_ohlc_limit_witness :
  let api (p : string) (i : Z) : result (list value) :=
    Ok [VList [VInt 1]; scenario_ohlc_row; VStr "short"] in
  Main.fetch_kraken_ohlc btc_store api "BTC/USD" "1h" (Some 1)
  = Main.fetch_kraken_ohlc btc_store
      (fun p i => last_rows 1 <$> api p i) "BTC/USD" "1h" None
  /\ Main.records_fetched <$>
       (Main.fetch_kraken_ohlc btc_store api "BTC/USD" "1h" (Some 1)).1
     = Ok 0.
Proof.
  intros api. split; [|vm_compute; reflexivity].
  apply (fetch_kraken_ohlc_limit btc_store api "BTC/USD" "1h" 1). lia.
Defined.

Lemma create_symbol_market_data (st st' : DatabaseClient.store)
    (symbol_data : gmap string value) (ok : bool) :
  TradingBotDatabase.create_symbol st symbol_data = Ok (ok, st') ->
  DatabaseClient.market_data st' = DatabaseClient.market_data st
  /\ DatabaseClient.reachable st' = DatabaseClient.reachable st.
Proof.
  unfold TradingBotDatabase.create_symbol. intros H.
  apply bind_ok in H as (p1 & _ & H). apply bind_ok in H as (p2 & _ & H).
  apply bind_ok in H as (p3 & _ & H). apply bind_ok in H as (p4 & _ & H).
  unfold DatabaseClient.execute, DatabaseClient.run in H.
  destruct (DatabaseClient.reachable st) eqn:Hr;
    [|by injection H as _ <-].
  destruct p1; try (by injection H as _ <-).
  destruct (default (VBool true) (symbol_data !! "is_active"));
    try (by injection H as _ <-).
Qed.

(** X18. [fetch_kraken_ohlc] fails only with an HTTPException, and a
    failure writes no market data. No rows from Kraken is a 404, an
    exception of the Kraken client or of the parser a 500, and in these
    three cases the store is left exactly as it was. *)
Theorem fetch_kraken_ohlc_errors
    (st : DatabaseClient.store)
    (get_ohlc : string -> Z -> result (list value))
    (pair timeframe : string) (limit : option Z) :
  let rows :=
    get_ohlc (KrakenClient.normalize_pair pair)
      (KrakenClient.get_timeframe_interval timeframe) in
  (forall e st',
     Main.fetch_kraken_ohlc st get_ohlc pair timeframe limit
     = (Raise e, st') ->
     (exists code, e = HTTPException code)
     /\ DatabaseClient.market_data st' = DatabaseClient.market_data st)
  /\ (rows = Ok [] ->
      Main.fetch_kraken_ohlc st get_ohlc pair timeframe limit
      = (Raise (HTTPException 404), st))
  /\ (forall e, rows = Raise e -> (forall c, e <> HTTPException c) ->
      Main.fetch_kraken_ohlc st get_ohlc pair timeframe limit
      = (Raise (HTTPException 500), st))
  /\ (forall data e, rows = Ok data -> data <> [] -> limit = None ->
      KrakenClient.parse_ohlc_data data timeframe
        (KrakenClient.normalize_pair pair) = Raise e ->
      (forall c, e <> HTTPException c) ->
      Main.fetch_kraken_ohlc st get_ohlc pair timeframe limit
      = (Raise (HTTPException 500), st)).
Proof.
  intros rows.
  assert (forall e, exists code, Main.http_error e = HTTPException code)
    as Hhttp by (intros []; simpl; eauto).
  assert (forall e, (forall c, e <> HTTPException c) ->
            Main.http_error e = HTTPException 500) as H500.
  { intros [] He; try done. by destruct (He status_code). }
  split; [|split; [|split]].
  - intros e st'. unfold Main.fetch_kraken_ohlc. fold rows.
    destruct rows as [[|row rs]|e0].
    + intros [= <- <-]. eauto.
    + destruct (KrakenClient.parse_ohlc_data _ _ _) as [parsed|e1];
        [|intros [= <- <-]; eauto].
      destruct (TradingBotDatabase.get_symbol_by_name st _) as [info|].
      * destruct (Main.insert_loop _ _ _ _); discriminate.
      * destruct (TradingBotDatabase.create_symbol st _)
          as [[ok st1]|e1] eqn:Hc.
        -- apply create_symbol_market_data in Hc as [Hm _].
           destruct (TradingBotDatabase.get_symbol_by_name st1 _) as [info|].
           ++ destruct (Main.insert_loop _ _ _ _); discriminate.
           ++ intros [= <- <-]. simpl. eauto.
        -- intros [= <- <-]. eauto.
    + intros [= <- <-]. eauto.
  - intros Hr. unfold Main.fetch_kraken_ohlc. fold rows. by rewrite Hr.
  - intros e Hr He. unfold Main.fetch_kraken_ohlc. fold rows.
    by rewrite Hr, H500.
  - intros data e Hr Hd -> Hp He. unfold Main.fetch_kraken_ohlc. fold rows.
    rewrite Hr. destruct data as [|row rs]; [done|].
    by rewrite Hp, H500.
Qed.

Lemma new_symbol_data_lookup (sym nm : string) (act : bool) :
  let d := Main.new_symbol_data sym nm act in
  d !! "symbol" = Some (VStr sym) /\ d !! "name" = Some (VStr nm)
  /\ d !! "exchange" = Some (VStr "Kraken")
  /\ d !! "asset_type" = Some (VStr "crypto")
  /\ d !! "currency" = Some (VStr "USD")
  /\ d !! "sector" = None /\ d !! "industry" = None
  /\ d !! "market_cap" = None
  /\ d !! "is_active" = Some (VBool act).
Proof. repeat split; vm_compute; reflexivity. Qed.

Lemma create_symbol_new (st : DatabaseClient.store) (sym nm : string)
    (act : bool) :
  DatabaseClient.reachable st = true ->
  TradingBotDatabase.create_symbol st (Main.new_symbol_data sym nm act)
  = Ok (true,
        {| DatabaseClient.reachable := true;
           DatabaseClient.symbols :=
             DatabaseClient.symbols st
             ++ [{| DatabaseClient.id :=
                      DatabaseClient.next_id (DatabaseClient.symbols st);
                    DatabaseClient.symbol := sym;
                    DatabaseClient.name := VStr nm;
                    DatabaseClient.exchange := VStr "Kraken";
                    DatabaseClient.asset_type := VStr "crypto";
                    DatabaseClient.currency := VStr "USD";
                    DatabaseClient.sector := VNone;
                    DatabaseClient.industry := VNone;
                    DatabaseClient.market_cap := VNone;
                    DatabaseClient.is_active := act |}];
           DatabaseClient.market_data := DatabaseClient.market_data st |}).
Proof.
  intros Hr.
  destruct (new_symbol_data_lookup sym nm act)
    as (H1 & H2 & H3 & H4 & H5 & H6 & H7 & H8 & H9).
  unfold TradingBotDatabase.create_symbol, TradingBotDatabase.item,
    TradingBotDatabase.get, DatabaseClient.execute, DatabaseClient.run.
  rewrite H1, H2, H3, H4, H5, H6, H7, H8, H9, Hr. reflexivity.
Qed.

Lemma create_symbol_unreachable (st : DatabaseClient.store)
    (sym nm : string) (act : bool) :
  DatabaseClient.reachable st = false ->
  TradingBotDatabase.create_symbol st (Main.new_symbol_data sym nm act)
  = Ok (false, st).
Proof.
  intros Hr.
  destruct (new_symbol_data_lookup sym nm act)
    as (H1 & H2 & H3 & H4 & H5 & H6 & H7 & H8 & H9).
  unfold TradingBotDatabase.create_symbol, TradingBotDatabase.item,
    TradingBotDatabase.get, DatabaseClient.execute.
  rewrite H1, H2, H3, H4, H5, H6, H7, H8, H9, Hr. reflexivity.
Qed.

Lemma get_symbol_by_name_unreachable (st : DatabaseClient.store)
    (sym : string) :
  DatabaseClient.reachable st = false ->
  TradingBotDatabase.get_symbol_by_name st sym = None.
Proof.
  intros Hr. unfold TradingBotDatabase.get_symbol_by_name,
    DatabaseClient.execute. by rewrite Hr.
Qed.

Lemma get_symbol_by_name_reachable (st : DatabaseClient.store) (s : string) :
  DatabaseClient.reachable st = true ->
  TradingBotDatabase.get_symbol_by_name st s
  = head (filter (fun r => DatabaseClient.symbol r = s)
            (DatabaseClient.symbols st)).
Proof.
  intros Hr. unfold TradingBotDatabase.get_symbol_by_name,
    DatabaseClient.execute, DatabaseClient.run. rewrite Hr.
  cbn [fst DatabaseClient.data].
  by destruct (filter _ (DatabaseClient.symbols st)).
Qed.

(** The rows the loop of [fetch_kraken_ohlc] adds to [market_data]: each
    is a record of the batch, under the symbol id the loop was given. *)
Lemma insert_loop_appends (parsed : list KrakenClient.ohlc_record) :
  forall (st : DatabaseClient.store) (symbol_id count : Z),
    DatabaseClient.reachable st = true ->
    exists new,
      DatabaseClient.market_data
        (Main.insert_loop st symbol_id parsed count).2
      = (DatabaseClient.market_data st ++ new)%list
      /\ Forall (fun r => exists d, d ∈ parsed /\ r = market_row symbol_id d)
           new.
Proof.
  induction parsed as [|d parsed IH]; intros st symbol_id count Hr.
  - exists []. cbn. by rewrite app_nil_r.
  - cbn [Main.insert_loop]. rewrite insert_market_data_reachable by done.
    destruct (key_stored st (market_row symbol_id d)).
    + destruct (IH st symbol_id (count + 1) Hr) as (new & -> & Hall).
      exists new. split; [done|].
      eapply Forall_impl; [exact Hall|]. intros r (d' & Hd' & ->).
      exists d'. split; [by apply list_elem_of_further|done].
    + set (st1 := {| DatabaseClient.reachable := true |}).
      destruct (IH st1 symbol_id (count + 1) eq_refl) as (new & -> & Hall).
      exists (market_row symbol_id d :: new). subst st1.
      cbn [DatabaseClient.market_data].
      split; [by rewrite <- app_assoc|].
      constructor.
      * exists d. split; [apply list_elem_of_here|done].
      * eapply Forall_impl; [exact Hall|]. intros r (d' & Hd' & ->).
        exists d'. split; [by apply list_elem_of_further|done].
Qed.

(** X19. On a store that answers, a successful [fetch_kraken_ohlc]
    files the bars under the mapped symbol of the pair. It leaves the
    table of symbols as it is when that symbol exists, and otherwise
    appends exactly one row for it, named after the symbol, with exchange
    "Kraken", asset type "crypto", currency "USD", active, and no other
    change; afterwards a lookup of the symbol gives the row that existed,
    or the new one. The market data table keeps its rows and gains rows
    at its end, each of them a bar of this request stored under the id of
    that row; and the key of every bar of the request is then stored
    under that id. *)
Theorem fetch_kraken_ohlc_symbol
    (st st' : DatabaseClient.store)
    (get_ohlc : string -> Z -> result (list value))
    (pair timeframe : string) (limit : option Z)
    (resp : Main.ohlc_response) :
  DatabaseClient.reachable st = true ->
  Main.fetch_kraken_ohlc st get_ohlc pair timeframe limit = (Ok resp, st') ->
  let info :=
    default (default_symbol_row st (db_symbol_of pair))
      (TradingBotDatabase.get_symbol_by_name st (db_symbol_of pair)) in
  Main.or_symbol resp = db_symbol_of pair
  /\ Main.or_pair resp = KrakenClient.normalize_pair pair
  /\ DatabaseClient.symbols st'
     = match TradingBotDatabase.get_symbol_by_name st (db_symbol_of pair) with
       | Some _ => DatabaseClient.symbols st
       | None =>
           (DatabaseClient.symbols st
            ++ [default_symbol_row st (db_symbol_of pair)])%list
       end
  /\ TradingBotDatabase.get_symbol_by_name st' (db_symbol_of pair)
     = Some info
  /\ exists (rows : list value) (parsed : list KrakenClient.ohlc_record)
            (new : list DatabaseClient.market_data_row),
       get_ohlc (KrakenClient.normalize_pair pair)
         (KrakenClient.get_timeframe_interval timeframe) = Ok rows
       /\ KrakenClient.parse_ohlc_data
            (match limit with
             | Some l => if l =? 0 then rows else slice_from rows (- l)
             | None => rows
             end) timeframe (KrakenClient.normalize_pair pair) = Ok parsed
       /\ Main.records_fetched resp = Z.of_nat (length parsed)
       /\ DatabaseClient.market_data st'
          = (DatabaseClient.market_data st ++ new)%list
       /\ Forall (fun r => exists d,
                     d ∈ parsed
                     /\ r = market_row (DatabaseClient.id info) d) new
       /\ (forall d, d ∈ parsed ->
              key_stored st' (market_row (DatabaseClient.id info) d) = true).
Proof.
  intros Hr. unfold Main.fetch_kraken_ohlc. fold (db_symbol_of pair).
  destruct (get_ohlc _ _) as [rows|e] eqn:Hrows; [|discriminate].
  destruct rows as [|row rows]; [discriminate|].
  destruct (KrakenClient.parse_ohlc_data _ _ _) as [parsed|e] eqn:Hp;
    [|discriminate].
  destruct (TradingBotDatabase.get_symbol_by_name st (db_symbol_of pair))
    as [info|] eqn:Hg; cbn [default from_option id].
  - destruct (insert_loop_reachable parsed st (DatabaseClient.id info) 0 Hr)
      as (st2 & E & Hr2 & Hs & _ & Hk).
    destruct (insert_loop_appends parsed st (DatabaseClient.id info) 0 Hr)
      as (new & Hm & Hnew).
    rewrite E in Hm |- *. cbn [snd] in Hm. intros [= <- <-].
    cbn [Main.or_symbol Main.or_pair Main.records_fetched].
    repeat split; try done.
    + by rewrite (get_symbol_by_name_ext st st2) by congruence.
    + by exists (row :: rows), parsed, new.
  - rewrite create_symbol_new by done.
    set (st1 := {| DatabaseClient.reachable := true |}).
    assert (Hg1 : TradingBotDatabase.get_symbol_by_name st1 (db_symbol_of pair)
                  = Some (default_symbol_row st (db_symbol_of pair))).
    { rewrite get_symbol_by_name_reachable in Hg |- * by done.
      unfold st1. cbn [DatabaseClient.symbols]. rewrite filter_app.
      destruct (filter _ (DatabaseClient.symbols st)); [|done].
      rewrite filter_cons, decide_True by done. done. }
    rewrite Hg1.
    set (info := default_symbol_row st (db_symbol_of pair)).
    destruct (insert_loop_reachable parsed st1 (DatabaseClient.id info) 0
                eq_refl) as (st2 & E & Hr2 & Hs & _ & Hk).
    destruct (insert_loop_appends parsed st1 (DatabaseClient.id info) 0
                eq_refl) as (new & Hm & Hnew).
    rewrite E in Hm |- *. cbn [snd] in Hm. intros [= <- <-].
    cbn [Main.or_symbol Main.or_pair Main.records_fetched].
    repeat split; try done.
    + rewrite (get_symbol_by_name_ext st1 st2);
        [done | by rewrite Hr2 | done].
    + by exists (row :: rows), parsed, new.
Qed.

Lemma fetch_kraken_ohlc_symbol_witness :
  let first := Main.fetch_kraken_ohlc btc_store one_row_exchange
                 "eth-usd" "1d" None in
  exists resp,
    first.1 = Ok resp
    /\ Main.or_symbol resp = "ETH/USD"
    /\ DatabaseClient.symbols first.2
       = (DatabaseClient.symbols btc_store
          ++ [default_symbol_row btc_store "ETH/USD"])%list.
Proof.
  intros first.
  destruct first as [[resp|e] st'] eqn:E; [|vm_compute in E; discriminate].
  exists resp. split; [done|].
  destruct (fetch_kraken_ohlc_symbol btc_store st' one_row_exchange
              "eth-usd" "1d" None resp eq_refl E) as (H1 & _ & H2 & _).
  split; [exact H1 | exact H2].
Defined.

(** X20. On a store that does not answer, [fetch_kraken_ohlc] never
    succeeds and changes nothing; when Kraken returned rows that parse,
    the failure is a 500. *)
Theorem fetch_kraken_ohlc_unreachable
    (st : DatabaseClient.store)
    (get_ohlc : string -> Z -> result (list value))
    (pair timeframe : string) (limit : option Z) :
  DatabaseClient.reachable st = false ->
  (exists e,
     Main.fetch_kraken_ohlc st get_ohlc pair timeframe limit = (Raise e, st))
  /\ (forall data parsed,
        get_ohlc (KrakenClient.normalize_pair pair)
          (KrakenClient.get_timeframe_interval timeframe) = Ok data ->
        data <> [] -> limit = None ->
        KrakenClient.parse_ohlc_data data timeframe
          (KrakenClient.normalize_pair pair) = Ok parsed ->
        Main.fetch_kraken_ohlc st get_ohlc pair timeframe limit
        = (Raise (HTTPException 500), st)).
Proof.
  intros Hr. split.
  - unfold Main.fetch_kraken_ohlc.
    destruct (get_ohlc _ _) as [[|row rows]|e]; [eauto| |eauto].
    destruct (KrakenClient.parse_ohlc_data _ _ _) as [parsed|e]; [|eauto].
    rewrite get_symbol_by_name_unreachable by done.
    rewrite create_symbol_unreachable by done.
    rewrite get_symbol_by_name_unreachable by done. eauto.
  - intros data parsed Hd Hne -> Hp. unfold Main.fetch_kraken_ohlc.
    rewrite Hd. destruct data as [|row rows]; [done|]. rewrite Hp.
    rewrite get_symbol_by_name_unreachable by done.
    rewrite create_symbol_unreachable by done.
    by rewrite get_symbol_by_name_unreachable by done.
Qed.

Lemma fetch_kraken_ohlc_unreachable_witness :
  let down := {| DatabaseClient.reachable := false;
                 DatabaseClient.symbols := DatabaseClient.symbols btc_store;
                 DatabaseClient.market_data := [] |} in
  Main.fetch_kraken_ohlc down one_row_exchange "BTC/USD" "1h" None
  = (Raise (HTTPException 500), down).
Proof.
  intros down.
  destruct (fetch_kraken_ohlc_unreachable down one_row_exchange
              "BTC/USD" "1h" None eq_refl) as [_ H].
  eapply H; [reflexivity | done | reflexivity | vm_compute; reflexivity].
Defined.

(* ===================================================================== *)
(** ** POST /kraken/sync-symbols *)

Lemma stored_active_app (st st' : DatabaseClient.store)
    (r : DatabaseClient.symbol_row) (s : string) :
  DatabaseClient.reachable st = true ->
  DatabaseClient.reachable st' = true ->
  DatabaseClient.symbols st' = (DatabaseClient.symbols st ++ [r])%list ->
  stored_active st' s
  = match stored_active st s with
    | Some a => Some a
    | None => if decide (DatabaseClient.symbol r = s)
              then Some (DatabaseClient.is_active r) else None
    end.
Proof.
  intros Hr Hr' Hs. unfold stored_active.
  rewrite !get_symbol_by_name_reachable by done. rewrite Hs, filter_app.
  destruct (filter _ (DatabaseClient.symbols st)); [|done].
  rewrite filter_cons, filter_nil. cbn [app head fmap option_fmap option_map].
  by destruct (decide _).
Qed.

Lemma head_filter_flag (upd : DatabaseClient.symbol_row
                                -> DatabaseClient.symbol_row)
    (rows : list DatabaseClient.symbol_row) (s : string) :
  (forall r, flag (upd r) = flag r) ->
  DatabaseClient.is_active
    <$> head (filter (fun r => DatabaseClient.symbol r = s) (map upd rows))
  = DatabaseClient.is_active
      <$> head (filter (fun r => DatabaseClient.symbol r = s) rows).
Proof.
  intros Hflag. induction rows as [|r rows IH]; [done|].
  cbn [map]. rewrite !filter_cons.
  pose proof (Hflag r) as Hf. unfold flag in Hf.
  injection Hf as Hf1 Hf2.
  destruct (decide (DatabaseClient.symbol r = s)) as [E|E].
  - rewrite decide_True by congruence. cbn. by rewrite Hf2.
  - rewrite decide_False by congruence. apply IH.
Qed.

Lemma sync_update_reachable (st : DatabaseClient.store) (s : string)
    (info : Main.pair_info) :
  DatabaseClient.reachable st = true ->
  let st' := (TradingBotDatabase.update_symbol st s
                (Main.sync_update_data info)).2 in
  DatabaseClient.reachable st' = true
  /\ DatabaseClient.market_data st' = DatabaseClient.market_data st
  /\ map flag (DatabaseClient.symbols st') = map flag (DatabaseClient.symbols st)
  /\ forall s', stored_active st' s' = stored_active st s'.
Proof.
  intros Hr st'.
  assert (Hst : st' = (DatabaseClient.run st
                  (DatabaseClient.UpdateSymbol VNone VNone VNone VNone
                     (VStr s))).2).
  { unfold st', TradingBotDatabase.update_symbol.
    rewrite sync_update_statement. unfold DatabaseClient.execute.
    rewrite Hr. by destruct (DatabaseClient.run _ _). }
  cbn [DatabaseClient.run snd] in Hst.
  assert (Hr' : DatabaseClient.reachable st' = true) by by rewrite Hst.
  split; [done|]. split; [by rewrite Hst|].
  assert (Hflag : forall r,
    flag (if String.eqb (DatabaseClient.symbol r) s
          then {| DatabaseClient.id := DatabaseClient.id r;
                  DatabaseClient.symbol := DatabaseClient.symbol r;
                  DatabaseClient.name := VNone;
                  DatabaseClient.exchange := DatabaseClient.exchange r;
                  DatabaseClient.asset_type := DatabaseClient.asset_type r;
                  DatabaseClient.currency := DatabaseClient.currency r;
                  DatabaseClient.sector := VNone;
                  DatabaseClient.industry := VNone;
                  DatabaseClient.market_cap := VNone;
                  DatabaseClient.is_active := DatabaseClient.is_active r |}
          else r) = flag r).
  { intros r. by destruct (String.eqb _ _). }
  split.
  - rewrite Hst. cbn [DatabaseClient.symbols]. rewrite map_map.
    apply map_ext. intros r. apply Hflag.
  - intros s'. unfold stored_active.
    rewrite !get_symbol_by_name_reachable by done.
    rewrite Hst. cbn [DatabaseClient.symbols].
    by apply head_filter_flag.
Qed.

(** One turn of the loop on a store that answers. *)
Lemma sync_step_reachable (pairs : gmap string Main.pair_info)
    (k s : string) (c u : Z) (st : DatabaseClient.store) :
  DatabaseClient.reachable st = true ->
  exists st',
    Main.sync_step pairs k s (Ok (c, u, st))
    = Ok (c + Z.of_nat (length (to_create pairs st [(k, s)])),
          u + Z.of_nat (length (to_update pairs st [(k, s)])), st')
    /\ DatabaseClient.reachable st' = true
    /\ DatabaseClient.market_data st' = DatabaseClient.market_data st
    /\ map flag (DatabaseClient.symbols st')
       = (map flag (DatabaseClient.symbols st)
          ++ map (catalog_flag pairs) (to_create pairs st [(k, s)]))%list
    /\ (forall s', s' <> s -> stored_active st' s' = stored_active st s')
    /\ stored_active st' s
       = match pairs !! k with
         | Some info =>
             Some (default (Main.online info) (stored_active st s))
         | None => stored_active st s
         end.
Proof.
  intros Hr. unfold Main.sync_step, to_create, to_update, catalog_flag.
  cbn [result_bind mbind List.filter fst snd].
  destruct (pairs !! k) as [info|] eqn:Hk.
  2:{ exists st. cbn [length map]. change (Z.of_nat 0) with 0.
      rewrite !Z.add_0_r, app_nil_r. done. }
  destruct (TradingBotDatabase.get_symbol_by_name st s) as [row|] eqn:Hg.
  - assert (Ha : stored_active st s = Some (DatabaseClient.is_active row))
      by (unfold stored_active; by rewrite Hg).
    rewrite !Ha.
    destruct (negb (Bool.eqb (DatabaseClient.is_active row)
                      (Main.online info))) eqn:Hne.
    + destruct (sync_update_reachable st s info Hr) as (H1 & H2 & H3 & H4).
      destruct (TradingBotDatabase.update_symbol st s
                  (Main.sync_update_data info)) as [b st'] eqn:Hu.
      cbn [snd] in *. exists st'. cbn [length map].
      change (Z.of_nat 0) with 0. change (Z.of_nat 1) with 1.
      rewrite Z.add_0_r, app_nil_r.
      repeat split; try done.
      rewrite H4, Ha. done.
    + exists st. cbn [length map]. change (Z.of_nat 0) with 0.
      rewrite !Z.add_0_r, app_nil_r.
      repeat split; done.
  - assert (Ha : stored_active st s = None)
      by (unfold stored_active; by rewrite Hg).
    rewrite !Ha.
    rewrite create_symbol_new by done. cbn [result_bind mbind].
    eexists. cbn [length map]. change (Z.of_nat 0) with 0.
    change (Z.of_nat 1) with 1. rewrite Z.add_0_r.
    split; [reflexivity|].
    split; [done|]. split; [done|].
    cbn [DatabaseClient.symbols]. split.
    { rewrite map_app. cbn [map fst snd]. rewrite Hk. done. }
    split.
    + intros s' Hs'. erewrite stored_active_app; [|done|done|reflexivity].
      destruct (stored_active st s'); [done|].
      cbn [DatabaseClient.symbol]. by rewrite decide_False.
    + erewrite stored_active_app; [|done|done|reflexivity].
      rewrite Ha. cbn [DatabaseClient.symbol DatabaseClient.is_active].
      by rewrite decide_True.
Qed.

Lemma to_create_cons (pairs : gmap string Main.pair_info)
    (st : DatabaseClient.store) (kv : string * string)
    (m : list (string * string)) :
  to_create pairs st (kv :: m)
  = (to_create pairs st [kv] ++ to_create pairs st m)%list.
Proof. apply (List.filter_app _ [kv] m). Qed.

Lemma to_update_cons (pairs : gmap string Main.pair_info)
    (st : DatabaseClient.store) (kv : string * string)
    (m : list (string * string)) :
  to_update pairs st (kv :: m)
  = (to_update pairs st [kv] ++ to_update pairs st m)%list.
Proof. apply (List.filter_app _ [kv] m). Qed.

Lemma to_create_ext (pairs : gmap string Main.pair_info)
    (st st' : DatabaseClient.store) (m : list (string * string)) :
  (forall kv, kv ∈ m -> stored_active st' kv.2 = stored_active st kv.2) ->
  to_create pairs st' m = to_create pairs st m
  /\ to_update pairs st' m = to_update pairs st m.
Proof.
  intros H. split; apply List.filter_ext_in; intros kv Hin;
    by rewrite (H kv) by by apply list_elem_of_In.
Qed.

(** The loop of [sync_kraken_symbols] on a store that answers, over a
    mapping that names no symbol twice. *)
Lemma sync_loop_reachable (pairs : gmap string Main.pair_info)
    (m : list (string * string)) :
  NoDup m.*2 ->
  forall (c u : Z) (st : DatabaseClient.store),
    DatabaseClient.reachable st = true ->
    exists st',
      fold_left (fun acc kv => Main.sync_step pairs kv.1 kv.2 acc) m
        (Ok (c, u, st))
      = Ok (c + Z.of_nat (length (to_create pairs st m)),
            u + Z.of_nat (length (to_update pairs st m)), st')
      /\ DatabaseClient.reachable st' = true
      /\ DatabaseClient.market_data st' = DatabaseClient.market_data st
      /\ map flag (DatabaseClient.symbols st')
         = (map flag (DatabaseClient.symbols st)
            ++ map (catalog_flag pairs) (to_create pairs st m))%list
      /\ (forall s, s ∉ m.*2 -> stored_active st' s = stored_active st s)
      /\ (forall k s info,
            (k, s) ∈ m -> pairs !! k = Some info ->
            stored_active st' s
            = Some (default (Main.online info) (stored_active st s))).
Proof.
  induction m as [|[k0 s0] m IH]; intros Hnd c u st Hr.
  - exists st. cbn [fold_left to_create to_update List.filter length map].
    change (Z.of_nat 0) with 0. rewrite !Z.add_0_r, app_nil_r.
    repeat split; try done. intros k s info Hin. by apply elem_of_nil in Hin.
  - cbn [fmap list_fmap snd] in Hnd. apply NoDup_cons in Hnd as [Hs0 Hnd].
    cbn [fold_left fst snd].
    destruct (sync_step_reachable pairs k0 s0 c u st Hr)
      as (st1 & E1 & Hr1 & Hm1 & Hf1 & Ho1 & Hs1).
    rewrite E1.
    destruct (IH Hnd (c + Z.of_nat (length (to_create pairs st [(k0, s0)])))
                (u + Z.of_nat (length (to_update pairs st [(k0, s0)])))
                st1 Hr1)
      as (st' & E & Hr' & Hm' & Hf' & Ho' & Hs').
    assert (Hext : forall kv, kv ∈ m ->
                     stored_active st1 kv.2 = stored_active st kv.2).
    { intros [k s] Hin. apply Ho1. cbn [snd]. intros ->. apply Hs0.
      apply list_elem_of_fmap. by exists (k, s0). }
    destruct (to_create_ext pairs st st1 m Hext) as [Ec Eu].
    rewrite Ec, Eu in *.
    exists st'. rewrite E, (to_create_cons pairs st (k0, s0) m),
      (to_update_cons pairs st (k0, s0) m).
    rewrite !length_app, !Nat2Z.inj_add, map_app, !Z.add_assoc.
    split; [done|]. split; [done|]. split; [congruence|].
    split; [by rewrite Hf', Hf1, app_assoc|]. split.
    + intros s Hs. cbn [fmap list_fmap snd] in Hs.
      apply not_elem_of_cons in Hs as [Hne Hs].
      rewrite Ho' by done. by apply Ho1.
    + intros k s info Hin Hk. apply elem_of_cons in Hin as [[= -> ->]|Hin].
      * rewrite Ho' by done. by rewrite Hs1, Hk.
      * rewrite (Hs' k s info Hin Hk). f_equal. f_equal.
        apply (Hext (k, s) Hin).
Qed.

Lemma mapping_symbols_NoDup : NoDup KrakenClient.get_kraken_symbol_mapping.*2.
Proof. apply (bool_decide_unpack _). by vm_compute. Qed.

(** After a finished pass nothing is left to create, and the same updates
    are left to send. *)
Lemma sync_pass_fixed (pairs : gmap string Main.pair_info)
    (st st1 : DatabaseClient.store) (m : list (string * string)) :
  (forall k s info,
     (k, s) ∈ m -> pairs !! k = Some info ->
     stored_active st1 s
     = Some (default (Main.online info) (stored_active st s))) ->
  to_create pairs st1 m = [] /\ to_update pairs st1 m = to_update pairs st m.
Proof.
  induction m as [|[k s] m IH]; intros H; [done|].
  destruct IH as [IHc IHu].
  { intros k' s' info Hin. apply H. by apply list_elem_of_further. }
  rewrite (to_create_cons pairs st1 (k, s) m),
    (to_update_cons pairs st1 (k, s) m),
    (to_update_cons pairs st (k, s) m), IHc, IHu.
  unfold to_create, to_update. cbn [List.filter fst snd].
  destruct (pairs !! k) as [info|] eqn:Hk; [|done].
  rewrite (H k s info) by (done || apply list_elem_of_here).
  destruct (stored_active st s) as [a|]; cbn [default from_option];
    [done|].
  by rewrite Bool.eqb_reflx.
Qed.

(** The loop on a store that does not answer. *)
Lemma sync_loop_unreachable (pairs : gmap string Main.pair_info)
    (m : list (string * string)) (c u : Z) (st : DatabaseClient.store) :
  DatabaseClient.reachable st = false ->
  fold_left (fun acc kv => Main.sync_step pairs kv.1 kv.2 acc) m
    (Ok (c, u, st))
  = Ok (c + Z.of_nat (length (listed pairs m)), u, st).
Proof.
  intros Hr. revert c. induction m as [|[k s] m IH]; intros c.
  - cbn. by rewrite Z.add_0_r.
  - cbn [fold_left fst snd]. unfold Main.sync_step at 2.
    cbn [result_bind mbind]. unfold listed. cbn [List.filter fst].
    destruct (pairs !! k) as [info|] eqn:Hk.
    + rewrite get_symbol_by_name_unreachable by done.
      rewrite create_symbol_unreachable by done. cbn [result_bind mbind].
      rewrite IH. rewrite bool_decide_true by done. cbn [length].
      unfold listed. f_equal. f_equal. f_equal. lia.
    + rewrite IH. rewrite bool_decide_false by (by intros [? ?]).
      done.
Qed.

(** X21. On a store that answers, [sync_kraken_symbols] succeeds for every
    catalog. It reports as created the mapped pairs the catalog lists and
    the store has no symbol for, and as updated the listed pairs whose
    stored active flag differs from [status == "online"]. Afterwards the
    table of symbols holds the rows it held, in their order, each with its
    symbol and its active flag unchanged, followed by one row per created
    pair in the order of the mapping, flagged active exactly when the
    catalog has the pair online. Market data is not touched. *)
Theorem sync_kraken_symbols_reachable (st : DatabaseClient.store)
    (pairs : gmap string Main.pair_info) :
  DatabaseClient.reachable st = true ->
  exists st',
    Main.sync_kraken_symbols st (Ok pairs)
    = Ok ({| Main.created :=
               Z.of_nat (length (to_create pairs st
                                   KrakenClient.get_kraken_symbol_mapping));
             Main.updated :=
               Z.of_nat (length (to_update pairs st
                                   KrakenClient.get_kraken_symbol_mapping));
             Main.sync_total_pairs := 20 |}, st')
    /\ DatabaseClient.market_data st' = DatabaseClient.market_data st
    /\ map flag (DatabaseClient.symbols st')
       = (map flag (DatabaseClient.symbols st)
          ++ map (catalog_flag pairs)
               (to_create pairs st
                  KrakenClient.get_kraken_symbol_mapping))%list.
Proof.
  intros Hr.
  destruct (sync_loop_reachable pairs _ mapping_symbols_NoDup 0 0 st Hr)
    as (st' & E & _ & Hm & Hf & _).
  exists st'. unfold Main.sync_kraken_symbols, Main.sync_loop.
  rewrite E. rewrite !Z.add_0_l. done.
Qed.

Lemma sync_kraken_symbols_reachable_witness :
  DatabaseClient.reachable btc_store = true
  /\ exists st',
       Main.sync_kraken_symbols btc_store (Ok cancel_only_catalog)
       = Ok ({| Main.created :=
                  Z.of_nat (length (to_create cancel_only_catalog btc_store
                                      KrakenClient.get_kraken_symbol_mapping));
                Main.updated :=
                  Z.of_nat (length (to_update cancel_only_catalog btc_store
                                      KrakenClient.get_kraken_symbol_mapping));
                Main.sync_total_pairs := 20 |}, st')
       /\ DatabaseClient.market_data st' = DatabaseClient.market_data btc_store
       /\ map flag (DatabaseClient.symbols st')
          = (map flag (DatabaseClient.symbols btc_store)
             ++ map (catalog_flag cancel_only_catalog)
                  (to_create cancel_only_catalog btc_store
                     KrakenClient.get_kraken_symbol_mapping))%list.
Proof.
  split; [reflexivity|].
  apply (sync_kraken_symbols_reachable btc_store cancel_only_catalog).
  reflexivity.
Defined.

(** X22. A sync repeated on the same catalog creates nothing, and reports
    the same number of updates as the first one: the flags that differed
    from the catalog still differ, and the table keeps its symbols and
    flags. *)
Theorem sync_kraken_symbols_repeated (st st1 : DatabaseClient.store)
    (pairs : gmap string Main.pair_info) (r1 : Main.sync_response) :
  DatabaseClient.reachable st = true ->
  Main.sync_kraken_symbols st (Ok pairs) = Ok (r1, st1) ->
  exists st2,
    Main.sync_kraken_symbols st1 (Ok pairs)
    = Ok ({| Main.created := 0; Main.updated := Main.updated r1;
             Main.sync_total_pairs := 20 |}, st2)
    /\ map flag (DatabaseClient.symbols st2)
       = map flag (DatabaseClient.symbols st1).
Proof.
  intros Hr H1.
  destruct (sync_loop_reachable pairs _ mapping_symbols_NoDup 0 0 st Hr)
    as (st' & E & Hr' & _ & _ & _ & Hs).
  unfold Main.sync_kraken_symbols, Main.sync_loop in H1.
  rewrite E in H1. cbv beta iota in H1.
  assert (Hst : st1 = st') by congruence.
  pose proof (f_equal (fun x => match x with
                               | Ok (r, _) => Main.updated r
                               | Raise _ => 0
                               end) H1) as Hu.
  cbv beta iota in Hu. cbn [Main.updated] in Hu. symmetry in Hu.
  subst st1. clear H1.
  destruct (sync_loop_reachable pairs _ mapping_symbols_NoDup 0 0 st' Hr')
    as (st2 & E2 & _ & _ & Hf2 & _).
  destruct (sync_pass_fixed pairs st st' _ Hs) as [Ec Eu].
  rewrite Ec, Eu in *.
  exists st2. unfold Main.sync_kraken_symbols, Main.sync_loop.
  rewrite E2, Hu. cbn [length map] in *.
  rewrite app_nil_r in Hf2. rewrite !Z.add_0_l. done.
Qed.

Lemma sync_kraken_symbols_repeated_witness :
  exists r1 st1,
    Main.sync_kraken_symbols btc_store (Ok cancel_only_catalog)
    = Ok (r1, st1)
    /\ exists st2,
         Main.sync_kraken_symbols st1 (Ok cancel_only_catalog)
         = Ok ({| Main.created := 0; Main.updated := Main.updated r1;
                  Main.sync_total_pairs := 20 |}, st2)
         /\ map flag (DatabaseClient.symbols st2)
            = map flag (DatabaseClient.symbols st1).
Proof.
  eexists _, _. split; [vm_compute; reflexivity|].
  eapply (sync_kraken_symbols_repeated btc_store _ cancel_only_catalog);
    [reflexivity | vm_compute; reflexivity].
Defined.

(** X23. When the store does not answer, [sync_kraken_symbols] still
    succeeds: it reports as created every mapped pair the catalog lists,
    reports no update, and stores nothing. *)
Theorem sync_kraken_symbols_unreachable (st : DatabaseClient.store)
    (pairs : gmap string Main.pair_info) :
  DatabaseClient.reachable st = false ->
  Main.sync_kraken_symbols st (Ok pairs)
  = Ok ({| Main.created :=
             Z.of_nat (length (listed pairs
                                 KrakenClient.get_kraken_symbol_mapping));
           Main.updated := 0;
           Main.sync_total_pairs := 20 |}, st).
Proof.
  intros Hr. unfold Main.sync_kraken_symbols, Main.sync_loop.
  rewrite sync_loop_unreachable by done. by rewrite Z.add_0_l.
Qed.

Lemma sync_kraken_symbols_unreachable_witness :
  Main.sync_kraken_symbols
    {| DatabaseClient.reachable := false;
       DatabaseClient.symbols := DatabaseClient.symbols btc_store;
       DatabaseClient.market_data := [] |} (Ok cancel_only_catalog)
  = Ok ({| Main.created := 1; Main.updated := 0;
           Main.sync_total_pairs := 20 |},
        {| DatabaseClient.reachable := false;
           DatabaseClient.symbols := DatabaseClient.symbols btc_store;
           DatabaseClient.market_data := [] |}).
Proof.
  apply (sync_kraken_symbols_unreachable
           {| DatabaseClient.reachable := false;
              DatabaseClient.symbols := DatabaseClient.symbols btc_store;
              DatabaseClient.market_data := [] |} cancel_only_catalog).
  reflexivity.
Defined.
